(** * guruji: optimistic authentication UI

    A shallow embedding of the two browser scripts of the repository,

      - the auth state cache ([AuthCache]: get, set, clear, isLoggedIn,
        getUserId, syncWithClerk, markHasAccount, hasAccount,
        renderOptimisticUI), and
      - the in-app browser detector ([BrowserDetect]: isInAppBrowser,
        _isPopupBlocked, getInAppBrowserName, openSignIn, openSignUp),

    together with the part of the JavaScript platform they run on
    (values and their coercions, JSON, localStorage, exceptions), and the
    properties the specification states about them. *)

From Stdlib Require Import ZArith Ascii String List Bool Lia.
From Stdlib Require Import DecimalString DecimalFacts DecimalPos DecimalN.
From stdpp Require Import base option gmap strings.

Local Open Scope Z_scope.

(** ** Exceptions and results *)

Inductive exn : Type :=
| TypeError
| SyntaxError
| SecurityError
| QuotaExceededError
| URIError.

Inductive res (A : Type) : Type :=
| Ok (a : A)
| Throw (e : exn).
Arguments Ok {A} a.
Arguments Throw {A} e.

Definition res_bind {A B : Type} (r : res A) (k : A -> res B) : res B :=
  match r with
  | Ok a => k a
  | Throw e => Throw e
  end.

Definition is_ok {A : Type} (r : res A) : bool :=
  match r with Ok _ => true | Throw _ => false end.

(** ** Characters and strings

    A JavaScript string is modelled by the bytes of its UTF-8 encoding;
    the substring tests of the scripts and the emptiness test behind
    truthiness read the same on both representations. A surrogate code
    unit that is not part of a pair, which UTF-8 cannot write, is kept
    as the three bytes [ED A0..BF 80..BF] of the same scheme; a pair is
    the four bytes of its code point. *)

Definition code (c : ascii) : Z := Z.of_N (N_of_ascii c).
Definition chr (z : Z) : ascii := ascii_of_N (Z.to_N z).

Definition is_digit (c : ascii) : bool := (48 <=? code c) && (code c <=? 57).

Definition str1 (c : ascii) : string := String c EmptyString.

Fixpoint repeat_char (c : ascii) (n : nat) : string :=
  match n with
  | O => EmptyString
  | S n' => String c (repeat_char c n')
  end.

Fixpoint string_rev_onto (s acc : string) : string :=
  match s with
  | EmptyString => acc
  | String c r => string_rev_onto r (String c acc)
  end.

Definition string_rev (s : string) : string := string_rev_onto s EmptyString.

Fixpoint take (n : nat) (s : string) : string :=
  match n, s with
  | S n', String c r => String c (take n' r)
  | _, _ => EmptyString
  end.

Fixpoint drop (n : nat) (s : string) : string :=
  match n, s with
  | S n', String _ r => drop n' r
  | _, _ => s
  end.

(** [starts_with p s]: [p] is a prefix of [s]. *)
Fixpoint starts_with (p s : string) : bool :=
  match p, s with
  | EmptyString, _ => true
  | String a p', String b s' => Ascii.eqb a b && starts_with p' s'
  | String _ _, EmptyString => false
  end.

(** [String.prototype.includes], and [RegExp.prototype.test] for a
    pattern made of literal characters only: [p] occurs in [s]. *)
Fixpoint includes (s p : string) : bool :=
  starts_with p s ||
  match s with
  | EmptyString => false
  | String _ s' => includes s' p
  end.

(** The longest prefix of characters that satisfy [p], and what follows. *)
Fixpoint span (p : ascii -> bool) (s : string) : string * string :=
  match s with
  | String c r =>
      if p c
      then let '(d, t) := span p r in (String c d, t)
      else (EmptyString, s)
  | EmptyString => (EmptyString, EmptyString)
  end.

Definition span_digits : string -> string * string := span is_digit.

(** The value of a string of decimal digits (0 for the empty string). *)
Fixpoint digits_value_from (acc : Z) (s : string) : Z :=
  match s with
  | EmptyString => acc
  | String c r => digits_value_from (10 * acc + (code c - 48)) r
  end.

Definition digits_value (s : string) : Z := digits_value_from 0 s.

(** The decimal digits of a natural number, without leading zeros. *)
Definition digits_of (n : Z) : string :=
  NilEmpty.string_of_uint (N.to_uint (Z.to_N n)).

(** ** Numbers

    A Number is an IEEE-754 double. A finite one is kept as the exact
    decimal [m * 10^e] it equals, in the form [e <= 0] with [m] not a
    multiple of ten unless [e = 0]; an integer [z] is [Dec z 0]. Decimal
    text and subtraction are rounded to the nearest double, a tie to the
    even mantissa, with overflow to an infinity and gradual underflow.
    The sign of zero is not kept: none of the operations below can
    observe it. *)

Inductive jsnum : Type :=
| NaN
| Inf (negative : bool)
| Dec (m e : Z).

Definition num_eqb (x y : jsnum) : bool :=
  match x, y with
  | Dec m1 e1, Dec m2 e2 => (m1 =? m2) && (e1 =? e2)
  | Inf a, Inf b => Bool.eqb a b
  | _, _ => false
  end.

(** [n / d] rounded to the nearest integer, a tie to the even one. *)
Definition div_half_even (n d : Z) : Z :=
  let q := n / d in
  let r := n mod d in
  if 2 * r <? d then q
  else if d <? 2 * r then q + 1
  else if Z.even q then q else q + 1.

(** The integer part of the binary logarithm of [n / d]. *)
Definition log2_ratio (n d : Z) : Z :=
  let l := Z.log2 n - Z.log2 d in
  if n * 2 ^ Z.max 0 (- l) <? d * 2 ^ Z.max 0 l then l - 1 else l.

(** The form above of [m * 10^e], [e <= 0]. *)
Fixpoint canon (fuel : nat) (m e : Z) : jsnum :=
  match fuel with
  | O => Dec m e
  | S f =>
      if (e <? 0) && (m mod 10 =? 0) then canon f (m / 10) (e + 1)
      else Dec m e
  end.

(** The double nearest to [n / d], [0 < n], [0 < d]: a mantissa [q] of
    at most 53 bits and an exponent [k] no less than -1074, or an
    infinity from [2^1024] on. *)
Definition round_ratio (negative : bool) (n d : Z) : jsnum :=
  let k := Z.max (log2_ratio n d - 52) (-1074) in
  let q := div_half_even (n * 2 ^ Z.max 0 (- k)) (d * 2 ^ Z.max 0 k) in
  let s := if negative then -1 else 1 in
  if (971 <? k) || ((k =? 971) && (q =? 2 ^ 53)) then Inf negative
  else if 0 <=? k then Dec (s * (q * 2 ^ k)) 0
  else canon (Z.to_nat (- k)) (s * (q * 5 ^ (- k))) k.

(** The number of decimal digits of a natural number. *)
Definition num_digits (n : Z) : Z := Z.of_nat (String.length (digits_of n)).

(** The double nearest to the decimal [m * 10^e]. An integer of
    magnitude at most [2^53] is a double; a decimal of more than 310
    digits before the point overflows, and one that starts more than 330
    places after it underflows to zero. *)
Definition of_decimal (m e : Z) : jsnum :=
  if (e =? 0) && (Z.abs m <=? 2 ^ 53) then Dec m 0
  else if m =? 0 then Dec 0 0
  else
    let n := num_digits (Z.abs m) + e in
    if 310 <? n then Inf (m <? 0)
    else if n <? -330 then Dec 0 0
    else if 0 <=? e then round_ratio (m <? 0) (Z.abs m * 10 ^ e) 1
    else round_ratio (m <? 0) (Z.abs m) (10 ^ (- e)).

(** The Number of an integer, as [Date.now()] and the literals give. *)
Definition num_of_Z (z : Z) : jsnum := of_decimal z 0.

Definition num_is_zero (n : jsnum) : bool :=
  match n with Dec m _ => m =? 0 | _ => false end.

Definition num_neg (n : jsnum) : jsnum :=
  match n with
  | NaN => NaN
  | Inf b => Inf (negb b)
  | Dec m e => Dec (- m) e
  end.

(** [x - y]: the exact difference, rounded. *)
Definition num_sub (x y : jsnum) : jsnum :=
  match x, y with
  | NaN, _ | _, NaN => NaN
  | Inf a, Inf b => if Bool.eqb a b then NaN else Inf a
  | Inf a, Dec _ _ => Inf a
  | Dec _ _, Inf b => Inf (negb b)
  | Dec m1 e1, Dec m2 e2 =>
      let e := Z.min e1 e2 in
      of_decimal (m1 * 10 ^ (e1 - e) - m2 * 10 ^ (e2 - e)) e
  end.

(** [x > y]; false as soon as one side is NaN. *)
Definition num_gt (x y : jsnum) : bool :=
  match x, y with
  | NaN, _ | _, NaN => false
  | Inf a, Inf b => negb a && b
  | Inf a, Dec _ _ => negb a
  | Dec _ _, Inf b => b
  | Dec m1 e1, Dec m2 e2 =>
      let e := Z.min e1 e2 in
      m1 * 10 ^ (e1 - e) >? m2 * 10 ^ (e2 - e)
  end.

(** Drop the trailing zeros of a mantissa into the exponent. *)
Fixpoint strip_zeros (fuel : nat) (m e : Z) : Z * Z :=
  match fuel with
  | O => (m, e)
  | S f => if (m mod 10 =? 0) && negb (m =? 0)
           then strip_zeros f (m / 10) (e + 1)
           else (m, e)
  end.

(** The layout of Number::toString for the digits [m] and the exponent
    [e] of a positive decimal [m * 10^e]. *)
Definition pos_dec_to_string (m e : Z) : string :=
  let '(m', e') := strip_zeros (Z.to_nat (Z.log2 m) + 1) m e in
  let ds := digits_of m' in
  let k := Z.of_nat (String.length ds) in
  let n := k + e' in
  if (k <=? n) && (n <=? 21) then ds +:+ repeat_char "0" (Z.to_nat (n - k))
  else if (0 <? n) && (n <=? 21)
       then take (Z.to_nat n) ds +:+ "." +:+ drop (Z.to_nat n) ds
  else if (-6 <? n) && (n <=? 0)
       then "0." +:+ repeat_char "0" (Z.to_nat (- n)) +:+ ds
  else take 1 ds +:+ (if k =? 1 then "" else "." +:+ drop 1 ds)
       +:+ "e" +:+ (if 0 <=? n - 1 then "+" else "-")
       +:+ digits_of (Z.abs (n - 1)).

(** The shortest decimal that reads back as the positive double
    [m * 10^e]: for [k = 1, 2, ...] digits, the two [k]-digit decimals
    around the double are tried, and of two that read back the nearer
    one is kept, the even one on a tie. Seventeen digits always do. *)
Fixpoint shortest_from (fuel : nat) (k m e : Z) : Z * Z :=
  match fuel with
  | O => (m, e)
  | S f =>
      let dm := num_digits m in
      if dm <=? k then (m, e)
      else
        let scale := 10 ^ (dm - k) in
        let lo := m / scale in
        let rem := m mod scale in
        let e' := e + (dm - k) in
        let lo_ok := num_eqb (of_decimal lo e') (Dec m e) in
        let hi_ok := num_eqb (of_decimal (lo + 1) e') (Dec m e) in
        if lo_ok && hi_ok then
          if 2 * rem <? scale then (lo, e')
          else if scale <? 2 * rem then (lo + 1, e')
          else if Z.even lo then (lo, e') else (lo + 1, e')
        else if lo_ok then (lo, e')
        else if hi_ok then (lo + 1, e')
        else shortest_from f (k + 1) m e
  end.

(** Number::toString. An integer of magnitude at most [2^53] prints as
    its digits: no shorter decimal reads back as it. *)
Definition NumberToString (n : jsnum) : string :=
  match n with
  | NaN => "NaN"
  | Inf false => "Infinity"
  | Inf true => "-Infinity"
  | Dec m e =>
      if m =? 0 then "0"
      else if (e =? 0) && (Z.abs m <=? 2 ^ 53)
           then (if m <? 0 then "-" else "") +:+ digits_of (Z.abs m)
      else let '(s, e') := shortest_from 17 1 (Z.abs m) e in
           (if m <? 0 then "-" else "") +:+ pos_dec_to_string s e'
  end.

(** *** StringToNumber

    The StringNumericLiteral grammar: optional white space around a
    decimal literal (sign, [Infinity], digits, fraction, exponent) or an
    unsigned hexadecimal, octal or binary integer; the empty string is 0
    and anything else is NaN. *)

(** White space and line terminators, the ones beyond ASCII by their
    UTF-8 bytes (U+00A0, U+1680, U+2000..U+200A, U+2028, U+2029, U+202F,
    U+205F, U+3000, U+FEFF). *)
Fixpoint trim_start (s : string) : string :=
  match s with
  | String c r =>
      let n := code c in
      if (n =? 32) || ((9 <=? n) && (n <=? 13)) then trim_start r
      else
        match r with
        | String c2 r2 =>
            let n2 := code c2 in
            if (n =? 194) && (n2 =? 160) then trim_start r2
            else
              match r2 with
              | String c3 r3 =>
                  let n3 := code c3 in
                  if ((n =? 225) && (n2 =? 154) && (n3 =? 128))
                     || ((n =? 226) && (n2 =? 128)
                         && (((128 <=? n3) && (n3 <=? 138))
                             || (n3 =? 168) || (n3 =? 169) || (n3 =? 175)))
                     || ((n =? 226) && (n2 =? 129) && (n3 =? 159))
                     || ((n =? 227) && (n2 =? 128) && (n3 =? 128))
                     || ((n =? 239) && (n2 =? 187) && (n3 =? 191))
                  then trim_start r3
                  else s
              | EmptyString => s
              end
        | EmptyString => s
        end
  | EmptyString => EmptyString
  end.

Definition all_space (s : string) : bool :=
  match trim_start s with EmptyString => true | _ => false end.

(** The value of a digit in a radix up to 16. *)
Definition digit_val (c : ascii) : option Z :=
  let n := code c in
  if (48 <=? n) && (n <=? 57) then Some (n - 48)
  else if (97 <=? n) && (n <=? 102) then Some (n - 87)
  else if (65 <=? n) && (n <=? 70) then Some (n - 55)
  else None.

Definition is_radix_digit (radix : Z) (c : ascii) : bool :=
  match digit_val c with
  | Some d => d <? radix
  | None => false
  end.

Fixpoint radix_value_from (radix acc : Z) (s : string) : Z :=
  match s with
  | EmptyString => acc
  | String c r =>
      radix_value_from radix
        (radix * acc + match digit_val c with Some d => d | None => 0 end) r
  end.

(** [0x..], [0o..], [0b..] after the two-character prefix. *)
Definition non_decimal (radix : Z) (s : string) : jsnum :=
  let '(ds, rest) := span (is_radix_digit radix) s in
  match ds with
  | EmptyString => NaN
  | _ => if all_space rest then of_decimal (radix_value_from radix 0 ds) 0
         else NaN
  end.

(** An optional exponent part: the exponent and what follows, or [None]
    when an [e] is not followed by digits. *)
Definition exponent_part (s : string) : option (Z * string) :=
  match s with
  | String c r =>
      if (code c =? 101) || (code c =? 69) then
        let '(neg, r1) :=
          match r with
          | String sg r' =>
              if code sg =? 45 then (true, r')
              else if code sg =? 43 then (false, r')
              else (false, r)
          | EmptyString => (false, r)
          end in
        let '(ds, rest) := span_digits r1 in
        match ds with
        | EmptyString => None
        | _ => Some (if neg then - digits_value ds else digits_value ds, rest)
        end
      else Some (0, s)
  | EmptyString => Some (0, s)
  end.

(** An unsigned decimal literal: digits, an optional fraction, an
    optional exponent; at least one digit before or after the point. *)
Definition unsigned_decimal (s : string) : option (jsnum * string) :=
  let '(ip, r1) := span_digits s in
  let '(fp, r2) :=
    match r1 with
    | String c r =>
        if code c =? 46 then span_digits r else (EmptyString, r1)
    | EmptyString => (EmptyString, r1)
    end in
  match ip +:+ fp with
  | EmptyString => None
  | ds =>
      match exponent_part r2 with
      | Some (x, rest) =>
          Some (of_decimal (digits_value ds)
                           (x - Z.of_nat (String.length fp)), rest)
      | None => None
      end
  end.

Definition str_decimal (s : string) : jsnum :=
  let '(neg, r) :=
    match s with
    | String c r' =>
        if code c =? 45 then (true, r')
        else if code c =? 43 then (false, r')
        else (false, s)
    | EmptyString => (false, s)
    end in
  let sign := fun n => if neg then num_neg n else n in
  if starts_with "Infinity" r
  then (if all_space (drop 8 r) then sign (Inf false) else NaN)
  else
    match unsigned_decimal r with
    | Some (n, rest) => if all_space rest then sign n else NaN
    | None => NaN
    end.

Definition StringToNumber (s : string) : jsnum :=
  match trim_start s with
  | EmptyString => Dec 0 0
  | String c0 (String c1 r) as t =>
      if (code c0 =? 48) && ((code c1 =? 120) || (code c1 =? 88))
      then non_decimal 16 r
      else if (code c0 =? 48) && ((code c1 =? 111) || (code c1 =? 79))
      then non_decimal 8 r
      else if (code c0 =? 48) && ((code c1 =? 98) || (code c1 =? 66))
      then non_decimal 2 r
      else str_decimal t
  | t => str_decimal t
  end.

(** ** Values

    The values the scripts handle: the primitives, and the arrays and
    plain objects that [JSON.parse] and object literals build (an object
    lists its properties, of pairwise distinct names, in enumeration
    order). Functions, symbols and host objects never reach the modelled
    code as data. *)

Local Set Warnings "-register-all".

Inductive jsval : Type :=
| JUndefined
| JNull
| JBool (b : bool)
| JNum (n : jsnum)
| JStr (s : string)
| JArr (items : list jsval)
| JObj (props : list (string * jsval)).

(** ToBoolean *)
Definition truthy (v : jsval) : bool :=
  match v with
  | JUndefined | JNull => false
  | JBool b => b
  | JNum NaN => false
  | JNum n => negb (num_is_zero n)
  | JStr s => negb (String.eqb s "")
  | JArr _ | JObj _ => true
  end.

(** [a || b] *)
Definition jor (a b : jsval) : jsval := if truthy a then a else b.

(** The own property [k] of an object. *)
Fixpoint own_prop (k : string) (props : list (string * jsval)) : option jsval :=
  match props with
  | [] => None
  | (k', v) :: rest => if String.eqb k k' then Some v else own_prop k rest
  end.

(** [v.k] for the property names the scripts read ([lastSync],
    [isLoggedIn], [userId], [userName], [userImage], [id], [fullName],
    [firstName], [imageUrl]), none of which a built-in prototype defines:
    a TypeError on [undefined] and [null], the own property of an object,
    [undefined] otherwise. *)
Definition get_prop (v : jsval) (k : string) : res jsval :=
  match v with
  | JUndefined | JNull => Throw TypeError
  | JObj props =>
      Ok (match own_prop k props with Some x => x | None => JUndefined end)
  | _ => Ok JUndefined
  end.

(** The strings of a list, separated by commas. *)
Fixpoint join_strings (l : list string) : string :=
  match l with
  | [] => EmptyString
  | [s] => s
  | s :: rest => s +:+ "," +:+ join_strings rest
  end.

(** ToString. An array goes through [Array.prototype.join]; a plain
    object through OrdinaryToPrimitive, where the inherited [toString]
    answers ["[object Object]"] unless an own property [toString] hides
    it: a parsed value is never callable, the inherited [valueOf] returns
    the object itself, and the conversion ends in a TypeError. *)
Fixpoint ToString (v : jsval) : res string :=
  match v with
  | JUndefined => Ok "undefined"
  | JNull => Ok "null"
  | JBool true => Ok "true"
  | JBool false => Ok "false"
  | JNum n => Ok (NumberToString n)
  | JStr s => Ok s
  | JArr items =>
      res_bind
        ((fix each (l : list jsval) : res (list string) :=
            match l with
            | [] => Ok []
            | x :: rest =>
                res_bind
                  (match x with
                   | JUndefined | JNull => Ok ""
                   | _ => ToString x
                   end)
                  (fun s => res_bind (each rest) (fun ss => Ok (s :: ss)))
            end) items)
        (fun ss => Ok (join_strings ss))
  | JObj props =>
      match own_prop "toString" props with
      | Some _ => Throw TypeError
      | None => Ok "[object Object]"
      end
  end.

(** ToNumber; an object is first turned into a primitive, which for the
    values at hand is its string. *)
Definition ToNumber (v : jsval) : res jsnum :=
  match v with
  | JUndefined => Ok NaN
  | JNull => Ok (Dec 0 0)
  | JBool true => Ok (Dec 1 0)
  | JBool false => Ok (Dec 0 0)
  | JNum n => Ok n
  | JStr s => Ok (StringToNumber s)
  | JArr _ | JObj _ => res_bind (ToString v) (fun s => Ok (StringToNumber s))
  end.

(** [a - b] and [a > b] on values with a Number on the left. *)
Definition js_sub (a : jsnum) (b : jsval) : res jsnum :=
  res_bind (ToNumber b) (fun n => Ok (num_sub a n)).

(** ** JSON *)

Definition hex_digit (d : Z) : ascii :=
  if d <? 10 then chr (48 + d) else chr (87 + d).

(** QuoteJSONString, one character at a time. *)
Definition json_escape_char (c : ascii) : string :=
  let n := code c in
  if n =? 34 then String (chr 92) (str1 (chr 34))
  else if n =? 92 then "\\"
  else if n =? 8 then "\b"
  else if n =? 12 then "\f"
  else if n =? 10 then "\n"
  else if n =? 13 then "\r"
  else if n =? 9 then "\t"
  else if n <? 32
       then "\u00" +:+ String (hex_digit (n / 16)) (str1 (hex_digit (n mod 16)))
  else str1 c.

(** The three bytes of a surrogate code unit, high ([D800..DBFF]) or
    low ([DC00..DFFF]), and the code unit they stand for. *)
Definition is_high_surrogate (a b c : ascii) : bool :=
  (code a =? 237) && (160 <=? code b) && (code b <=? 175)
  && (128 <=? code c) && (code c <=? 191).

Definition is_low_surrogate (a b c : ascii) : bool :=
  (code a =? 237) && (176 <=? code b) && (code b <=? 191)
  && (128 <=? code c) && (code c <=? 191).

Definition surrogate_unit (b c : ascii) : Z :=
  53248 + (code b - 128) * 64 + (code c - 128).

(** UnicodeEscape: [\uXXXX] in lower-case hexadecimal. *)
Definition unicode_escape (cu : Z) : string :=
  "\u" +:+ String (hex_digit (cu / 4096))
            (String (hex_digit ((cu / 256) mod 16))
               (String (hex_digit ((cu / 16) mod 16))
                  (str1 (hex_digit (cu mod 16))))).

(** QuoteJSONString: a lone surrogate is written as its escape; a high
    surrogate directly followed by a low one is a pair and stays. *)
Fixpoint json_escape (s : string) : string :=
  match s with
  | EmptyString => EmptyString
  | String a r =>
      match r with
      | String b (String c r3) =>
          if is_high_surrogate a b c then
            match r3 with
            | String a' (String b' (String c' r6)) =>
                if is_low_surrogate a' b' c'
                then String a (String b (String c
                       (String a' (String b' (String c' (json_escape r6))))))
                else unicode_escape (surrogate_unit b c) +:+ json_escape r3
            | _ => unicode_escape (surrogate_unit b c) +:+ json_escape r3
            end
          else if is_low_surrogate a b c
          then unicode_escape (surrogate_unit b c) +:+ json_escape r3
          else json_escape_char a +:+ json_escape r
      | _ => json_escape_char a +:+ json_escape r
      end
  end.

Definition json_quote (s : string) : string :=
  String (chr 34) (json_escape s +:+ str1 (chr 34)).

(** A Number in JSON text: NaN and the infinities print as [null]. *)
Definition json_number (n : jsnum) : string :=
  match n with
  | Dec m e => NumberToString (Dec m e)
  | _ => "null"
  end.

(** SerializeJSONProperty: [None] stands for [undefined]. A property
    whose value is [undefined] is left out of an object and printed as
    [null] in an array. *)
Fixpoint json_text (v : jsval) : option string :=
  match v with
  | JUndefined => None
  | JNull => Some "null"
  | JBool true => Some "true"
  | JBool false => Some "false"
  | JNum n => Some (json_number n)
  | JStr s => Some (json_quote s)
  | JArr items =>
      Some ("[" +:+
            join_strings
              ((fix each (l : list jsval) : list string :=
                  match l with
                  | [] => []
                  | x :: rest =>
                      match json_text x with
                      | Some t => t
                      | None => "null"
                      end :: each rest
                  end) items)
            +:+ "]")
  | JObj props =>
      Some ("{" +:+
            join_strings
              ((fix each (l : list (string * jsval)) : list string :=
                  match l with
                  | [] => []
                  | (k, x) :: rest =>
                      match json_text x with
                      | Some t => (json_quote k +:+ ":" +:+ t) :: each rest
                      | None => each rest
                      end
                  end) props)
            +:+ "}")
  end.

(** [JSON.stringify(v)] *)
Definition JSON_stringify (v : jsval) : jsval :=
  match json_text v with
  | Some t => JStr t
  | None => JUndefined
  end.

(** JSON white space: space, tab, line feed, carriage return. *)
Fixpoint skip_ws (s : string) : string :=
  match s with
  | String c r =>
      let n := code c in
      if (n =? 32) || (n =? 9) || (n =? 10) || (n =? 13) then skip_ws r else s
  | EmptyString => EmptyString
  end.

(** The UTF-8 bytes of a code point; a lone surrogate is written with
    the same three-byte scheme. *)
Definition utf8_encode (cp : Z) : string :=
  if cp <? 128 then str1 (chr cp)
  else if cp <? 2048
       then String (chr (192 + cp / 64)) (str1 (chr (128 + cp mod 64)))
  else if cp <? 65536
       then String (chr (224 + cp / 4096))
              (String (chr (128 + (cp / 64) mod 64))
                 (str1 (chr (128 + cp mod 64))))
  else String (chr (240 + cp / 262144))
         (String (chr (128 + (cp / 4096) mod 64))
            (String (chr (128 + (cp / 64) mod 64))
               (str1 (chr (128 + cp mod 64))))).

Definition hex4 (a b c d : ascii) : option Z :=
  match digit_val a, digit_val b, digit_val c, digit_val d with
  | Some x, Some y, Some z, Some w => Some (((x * 16 + y) * 16 + z) * 16 + w)
  | _, _, _, _ => None
  end.

Definition simple_escape (c : ascii) : option ascii :=
  let n := code c in
  if (n =? 34) || (n =? 92) || (n =? 47) then Some c
  else if n =? 98 then Some (chr 8)
  else if n =? 102 then Some (chr 12)
  else if n =? 110 then Some (chr 10)
  else if n =? 114 then Some (chr 13)
  else if n =? 116 then Some (chr 9)
  else None.

Definition prepend (p : string) (r : option (string * string))
  : option (string * string) :=
  match r with
  | Some (s, rest) => Some (p +:+ s, rest)
  | None => None
  end.

(** The characters of a JSON string after its opening quote: the string
    denoted and what follows the closing quote. [pending] is a high
    surrogate read from a [\u] escape and waiting for its low half:
    the two escapes of a pair are joined into its code point, the way
    [JSON.stringify] never writes a pair but other writers may. *)
Fixpoint parse_chars (pending : option Z) (s : string)
  : option (string * string) :=
  let flush := match pending with
               | Some h => utf8_encode h
               | None => EmptyString
               end in
  match s with
  | EmptyString => None
  | String c r =>
      let n := code c in
      if n =? 34 then Some (flush, r)
      else if n =? 92 then
        match r with
        | String e r1 =>
            if code e =? 117 then
              match r1 with
              | String h1 (String h2 (String h3 (String h4 r2))) =>
                  match hex4 h1 h2 h3 h4 with
                  | Some cu =>
                      let low := (56320 <=? cu) && (cu <=? 57343) in
                      let high := (55296 <=? cu) && (cu <=? 56319) in
                      match pending with
                      | Some h =>
                          if low
                          then prepend
                                 (utf8_encode
                                    (65536 + (h - 55296) * 1024 + (cu - 56320)))
                                 (parse_chars None r2)
                          else if high
                          then prepend flush (parse_chars (Some cu) r2)
                          else prepend (flush +:+ utf8_encode cu)
                                 (parse_chars None r2)
                      | None =>
                          if high then parse_chars (Some cu) r2
                          else prepend (utf8_encode cu) (parse_chars None r2)
                      end
                  | None => None
                  end
              | _ => None
              end
            else
              match simple_escape e with
              | Some x => prepend (flush +:+ str1 x) (parse_chars None r1)
              | None => None
              end
        | EmptyString => None
        end
      else if n <? 32 then None
      else prepend (flush +:+ str1 c) (parse_chars None r)
  end.

(** A JSON number: [-]? int frac? exp?, no leading zeros, digits on both
    sides of a decimal point, digits after an exponent mark. *)
Definition int_ok (ip : string) : bool :=
  match ip with
  | EmptyString => false
  | String c EmptyString => true
  | String c _ => negb (code c =? 48)
  end.

Definition fraction_part (s : string) : option (string * string) :=
  match s with
  | String c r =>
      if code c =? 46
      then let '(fp, r2) := span_digits r in
           match fp with
           | EmptyString => None
           | _ => Some (fp, r2)
           end
      else Some (EmptyString, s)
  | EmptyString => Some (EmptyString, s)
  end.

Definition unsigned_number (s : string) : option (jsnum * string) :=
  let '(ip, r1) := span_digits s in
  if int_ok ip then
    match fraction_part r1 with
    | Some (fp, r2) =>
        match exponent_part r2 with
        | Some (x, rest) =>
            Some (of_decimal (digits_value (ip +:+ fp))
                             (x - Z.of_nat (String.length fp)), rest)
        | None => None
        end
    | None => None
    end
  else None.

Definition parse_number (s : string) : option (jsnum * string) :=
  if starts_with "-" s
  then match unsigned_number (drop 1 s) with
       | Some (n, rest) => Some (num_neg n, rest)
       | None => None
       end
  else unsigned_number s.

(** An integer index: the canonical decimal of a number below 2^32 - 1.
    Such property names are enumerated first, in ascending order. *)
Definition array_index (k : string) : option Z :=
  let '(ds, rest) := span_digits k in
  match rest with
  | EmptyString =>
      if String.eqb (digits_of (digits_value ds)) k
         && (digits_value ds <? 4294967295)
      then Some (digits_value ds) else None
  | _ => None
  end.

(** CreateDataProperty on a parsed object: overwrite in place, or add
    the name at its place in the enumeration order. *)
Fixpoint obj_set (k : string) (v : jsval) (props : list (string * jsval))
  : list (string * jsval) :=
  match props with
  | [] => [(k, v)]
  | (k', v') :: rest =>
      if String.eqb k k' then (k, v) :: rest
      else
        match array_index k, array_index k' with
        | Some i, Some j =>
            if i <? j
            then if existsb (fun p => String.eqb k (fst p)) rest
                 then (k', v') :: obj_set k v rest
                 else (k, v) :: props
            else (k', v') :: obj_set k v rest
        | Some _, None =>
            if existsb (fun p => String.eqb k (fst p)) rest
            then (k', v') :: obj_set k v rest
            else (k, v) :: props
        | None, _ => (k', v') :: obj_set k v rest
        end
  end.

(** Skip white space and consume the character of code [c]. *)
Definition expect (c : Z) (s : string) : option string :=
  match skip_ws s with
  | String c' r => if code c' =? c then Some r else None
  | EmptyString => None
  end.

(** The JSON grammar by recursive descent. [fuel] bounds the number of
    nested and chained calls; [JSON_parse_text] supplies enough of it. *)
Fixpoint parse_value (fuel : nat) (s : string) : option (jsval * string) :=
  match fuel with
  | O => None
  | S f =>
      match skip_ws s with
      | EmptyString => None
      | String c r as t =>
          let n := code c in
          if n =? 123 then
            match expect 125 r with
            | Some r' => Some (JObj [], r')
            | None => parse_members f r []
            end
          else if n =? 91 then
            match expect 93 r with
            | Some r' => Some (JArr [], r')
            | None => parse_elements f r []
            end
          else if n =? 34 then
            match parse_chars None r with
            | Some (x, rest) => Some (JStr x, rest)
            | None => None
            end
          else if starts_with "true" t then Some (JBool true, drop 4 t)
          else if starts_with "false" t then Some (JBool false, drop 5 t)
          else if starts_with "null" t then Some (JNull, drop 4 t)
          else
            match parse_number t with
            | Some (x, rest) => Some (JNum x, rest)
            | None => None
            end
      end
  end
with parse_elements (fuel : nat) (s : string) (acc : list jsval)
  : option (jsval * string) :=
  match fuel with
  | O => None
  | S f =>
      match parse_value f s with
      | Some (v, r) =>
          match expect 44 r with
          | Some r' => parse_elements f r' (v :: acc)
          | None =>
              match expect 93 r with
              | Some r' => Some (JArr (rev (v :: acc)), r')
              | None => None
              end
          end
      | None => None
      end
  end
with parse_members (fuel : nat) (s : string) (acc : list (string * jsval))
  : option (jsval * string) :=
  match fuel with
  | O => None
  | S f =>
      match expect 34 s with
      | Some r =>
          match parse_chars None r with
          | Some (k, r1) =>
              match expect 58 r1 with
              | Some r2 =>
                  match parse_value f r2 with
                  | Some (v, r3) =>
                      match expect 44 r3 with
                      | Some r4 => parse_members f r4 (obj_set k v acc)
                      | None =>
                          match expect 125 r3 with
                          | Some r4 => Some (JObj (obj_set k v acc), r4)
                          | None => None
                          end
                      end
                  | None => None
                  end
              | None => None
              end
          | None => None
          end
      | None => None
      end
  end.

Definition parse_fuel (s : string) : nat := 2 * String.length s + 2.

(** The value a JSON text denotes; [None] is a SyntaxError. *)
Definition JSON_parse_text (s : string) : option jsval :=
  match parse_value (parse_fuel s) s with
  | Some (v, rest) =>
      match skip_ws rest with
      | EmptyString => Some v
      | _ => None
      end
  | None => None
  end.

(** [JSON.parse(v)]: the argument is converted to a string first. *)
Definition JSON_parse (v : jsval) : res jsval :=
  res_bind (ToString v)
    (fun s => match JSON_parse_text s with
              | Some x => Ok x
              | None => Throw SyntaxError
              end).

(** ** The page: storage, console, browser context, SDK

    [localStorage] is a map from keys to strings that the browser may
    have disabled (every access raises) or filled up (every [setItem]
    raises), the two failures the cache prepares for. The browser
    context carries what the detector reads; a read of the window
    properties behind the pop-up probe may itself raise. *)

Record ClerkSdk : Type := {
  sdk_openSignIn : bool;   (* [window.Clerk.openSignIn] is a function *)
  sdk_openSignUp : bool    (* [window.Clerk.openSignUp] is a function *)
}.

Inductive Event : Type :=
| Navigate (url : string)   (* [window.location.href = url] *)
| ClerkOpenSignIn           (* [window.Clerk.openSignIn()] *)
| ClerkOpenSignUp.          (* [window.Clerk.openSignUp()] *)

Record World : Type := {
  ls_disabled : bool;
  ls_full : bool;
  ls_items : gmap string string;
  console : list string;
  nav_userAgent : string;
  nav_vendor : string;
  win_opera : option string;
  win_opener_is_null : res bool;     (* [window.opener === null] *)
  doc_referrer : res string;         (* [document.referrer] *)
  win_self_is_top : res bool;        (* [window.self === window.top] *)
  win_open_undefined : res bool;     (* [typeof window.open === 'undefined'] *)
  win_Clerk : option ClerkSdk;
  location_href : string;
  events : list Event
}.

Definition with_items (m : gmap string string) (w : World) : World :=
  {| ls_disabled := ls_disabled w; ls_full := ls_full w; ls_items := m;
     console := console w; nav_userAgent := nav_userAgent w;
     nav_vendor := nav_vendor w; win_opera := win_opera w;
     win_opener_is_null := win_opener_is_null w;
     doc_referrer := doc_referrer w; win_self_is_top := win_self_is_top w;
     win_open_undefined := win_open_undefined w; win_Clerk := win_Clerk w;
     location_href := location_href w; events := events w |}.

Definition with_console (c : list string) (w : World) : World :=
  {| ls_disabled := ls_disabled w; ls_full := ls_full w;
     ls_items := ls_items w;
     console := c; nav_userAgent := nav_userAgent w;
     nav_vendor := nav_vendor w; win_opera := win_opera w;
     win_opener_is_null := win_opener_is_null w;
     doc_referrer := doc_referrer w; win_self_is_top := win_self_is_top w;
     win_open_undefined := win_open_undefined w; win_Clerk := win_Clerk w;
     location_href := location_href w; events := events w |}.

Definition with_events (e : list Event) (w : World) : World :=
  {| ls_disabled := ls_disabled w; ls_full := ls_full w;
     ls_items := ls_items w;
     console := console w; nav_userAgent := nav_userAgent w;
     nav_vendor := nav_vendor w; win_opera := win_opera w;
     win_opener_is_null := win_opener_is_null w;
     doc_referrer := doc_referrer w; win_self_is_top := win_self_is_top w;
     win_open_undefined := win_open_undefined w; win_Clerk := win_Clerk w;
     location_href := location_href w; events := e |}.

(** A computation of the page: a result or an exception, and the world
    it leaves. *)
Definition JS (A : Type) : Type := World -> res A * World.

Definition ret {A : Type} (a : A) : JS A := fun w => (Ok a, w).

Definition throw {A : Type} (e : exn) : JS A := fun w => (Throw e, w).

Definition bind {A B : Type} (m : JS A) (k : A -> JS B) : JS B :=
  fun w => match m w with
           | (Ok a, w') => k a w'
           | (Throw e, w') => (Throw e, w')
           end.

Definition lift {A : Type} (r : res A) : JS A := fun w => (r, w).

(** [try { body } catch (e) { handler }] *)
Definition try_catch {A : Type} (body : JS A) (handler : exn -> JS A) : JS A :=
  fun w => match body w with
           | (Ok a, w') => (Ok a, w')
           | (Throw e, w') => handler e w'
           end.

Declare Scope js_scope.
Delimit Scope js_scope with js.
Notation "'let*' x ':=' m 'in' k" := (bind m (fun x => k))
  (at level 10, x pattern, m at level 100, k at level 200) : js_scope.
Notation "m ';;' k" := (bind m (fun _ => k))
  (at level 100, k at level 200, right associativity) : js_scope.
Local Open Scope js_scope.

Definition localStorage_getItem (k : string) : JS jsval :=
  fun w =>
    if ls_disabled w then (Throw SecurityError, w)
    else (Ok (match ls_items w !! k with
              | Some s => JStr s
              | None => JNull
              end), w).

Definition localStorage_setItem (k : string) (v : jsval) : JS unit :=
  fun w =>
    match ToString v with
    | Throw e => (Throw e, w)
    | Ok s =>
        if ls_disabled w then (Throw SecurityError, w)
        else if ls_full w then (Throw QuotaExceededError, w)
        else (Ok tt, with_items (<[k := s]> (ls_items w)) w)
    end.

Definition localStorage_removeItem (k : string) : JS unit :=
  fun w =>
    if ls_disabled w then (Throw SecurityError, w)
    else (Ok tt, with_items (delete k (ls_items w)) w).

Definition console_warn (msg : string) : JS unit :=
  fun w => (Ok tt, with_console (console w ++ [msg]) w).

Definition emit (e : Event) : JS unit :=
  fun w => (Ok tt, with_events (events w ++ [e]) w).

(** [a === b] against a string literal *)
Definition strict_eq_str (v : jsval) (s : string) : bool :=
  match v with
  | JStr x => String.eqb x s
  | _ => false
  end.

(** ** Markup *)

Definition nl : string := str1 (chr 10).
Definition dq : string := str1 (chr 34).
Definition indent (n : nat) : string := repeat_char " " n.
Definition attr (name value : string) : string :=
  name +:+ "=" +:+ dq +:+ value +:+ dq.

(** The mount point, as far as the cache touches it: its markup, and the
    click handler bound to the control of id [optimistic-signin] in it. *)
Inductive Handler : Type := DeferredAuth.

Record Element : Type := {
  innerHTML : string;
  signin_onclick : option Handler
}.

(** [container.innerHTML = html] replaces the children, and with them
    any handler bound to one of them. *)
Definition set_innerHTML (html : string) (_ : Element) : Element :=
  {| innerHTML := html; signin_onclick := None |}.

(** [container.querySelector('#optimistic-signin')]: the markup carries
    an element of that id. *)
Definition has_optimistic_signin (c : Element) : bool :=
  includes (innerHTML c) (attr "id" "optimistic-signin").

(** The control a click handler mutates. *)
Record Button : Type := {
  btn_innerHTML : string;
  btn_disabled : bool
}.

(** ** The auth state cache *)

Module AuthCache.

Definition STORAGE_KEY : string := "guruji_auth_cache".
Definition ACCOUNT_KEY : string := "guruji_has_account".
Definition CACHE_TTL : Z := 24 * 60 * 60 * 1000.

(** [clear()] *)
Definition clear : JS unit :=
  try_catch (localStorage_removeItem STORAGE_KEY) (fun _ => ret tt).

(** [get()], at clock reading [now] *)
Definition get (now : Z) : JS jsval :=
  try_catch
    (let* cached := localStorage_getItem STORAGE_KEY in
     if negb (truthy cached) then ret JNull
     else
       let* data := lift (JSON_parse cached) in
       let* lastSync := lift (get_prop data "lastSync") in
       let* age := lift (js_sub (num_of_Z now) lastSync) in
       if num_gt age (num_of_Z CACHE_TTL)
       then (clear ;; ret JNull)
       else ret data)
    (fun _ => clear ;; ret JNull).

(** [set(state)], at clock reading [now] *)
Definition set (state : jsval) (now : Z) : JS unit :=
  try_catch
    (let* isLoggedIn := lift (get_prop state "isLoggedIn") in
     let* userId := lift (get_prop state "userId") in
     let* userName := lift (get_prop state "userName") in
     let* userImage := lift (get_prop state "userImage") in
     let data :=
       JObj [("isLoggedIn", jor isLoggedIn (JBool false));
             ("userId", jor userId JNull);
             ("userName", jor userName (JStr ""));
             ("userImage", jor userImage JNull);
             ("lastSync", JNum (num_of_Z now))] in
     localStorage_setItem STORAGE_KEY (JSON_stringify data))
    (fun _ => console_warn "AuthCache: Unable to save state").

(** [isLoggedIn()] *)
Definition isLoggedIn (now : Z) : JS jsval :=
  let* cached := get now in
  if truthy cached then lift (get_prop cached "isLoggedIn")
  else ret (JBool false).

(** [getUserId()] *)
Definition getUserId (now : Z) : JS jsval :=
  let* cached := get now in
  if truthy cached then lift (get_prop cached "userId")
  else ret JNull.

(** [markHasAccount()] *)
Definition markHasAccount : JS unit :=
  try_catch
    (localStorage_setItem ACCOUNT_KEY (JStr "true"))
    (fun _ => console_warn "AuthCache: Unable to save account status").

(** [hasAccount()] *)
Definition hasAccount : JS bool :=
  try_catch
    (let* v := localStorage_getItem ACCOUNT_KEY in
     ret (strict_eq_str v "true"))
    (fun _ => ret false).

(** [syncWithClerk(clerkUser)], at clock reading [now] *)
Definition syncWithClerk (clerkUser : jsval) (now : Z) : JS unit :=
  if truthy clerkUser then
    markHasAccount ;;
    let* id := lift (get_prop clerkUser "id") in
    let* fullName := lift (get_prop clerkUser "fullName") in
    let* firstName := lift (get_prop clerkUser "firstName") in
    let* imageUrl := lift (get_prop clerkUser "imageUrl") in
    set (JObj [("isLoggedIn", JBool true);
               ("userId", id);
               ("userName", jor (jor fullName firstName) (JStr "User"));
               ("userImage", jor imageUrl JNull)])
        now
  else clear.

(** The three pieces of markup of [renderOptimisticUI]. *)
Definition avatar_img (src : string) : string :=
  "<img " +:+ attr "src" src +:+ " " +:+ attr "alt" "" +:+ " "
  +:+ attr "style"
        "width: 32px; height: 32px; border-radius: 50%; object-fit: cover;"
  +:+ ">".

Definition avatar_placeholder : string :=
  "<i " +:+ attr "class" "fas fa-user" +:+ " "
  +:+ attr "style" "color: var(--text-secondary, #888);" +:+ "></i>".

Definition signed_in_html (avatar : string) : string :=
  nl +:+ indent 16 +:+ "<a " +:+ attr "href" "/dashboard" +:+ " "
  +:+ attr "class" "nav-link" +:+ ">Dashboard</a>"
  +:+ nl +:+ indent 16 +:+ "<div " +:+ attr "class" "auth-loading" +:+ " "
  +:+ attr "style"
        "display: inline-flex; align-items: center; gap: 0.5rem; padding: 0.5rem; border-radius: 50%; background: var(--bg-tertiary, #1a1a2e); min-width: 32px; min-height: 32px; justify-content: center;"
  +:+ ">" +:+ nl +:+ indent 20 +:+ avatar
  +:+ nl +:+ indent 16 +:+ "</div>" +:+ nl +:+ indent 12.

Definition loading_button_html (buttonText : string) : string :=
  nl +:+ indent 8 +:+ "<button " +:+ attr "class" "btn btn-primary" +:+ " "
  +:+ attr "id" "optimistic-signin" +:+ " "
  +:+ attr "style" "opacity: 0.7;" +:+ ">"
  +:+ nl +:+ indent 12 +:+ "<i " +:+ attr "class" "fas fa-spinner fa-spin"
  +:+ "></i> " +:+ buttonText
  +:+ nl +:+ indent 8 +:+ "</button>" +:+ nl +:+ indent 4.

Definition action_button_html (buttonIcon buttonText : string) : string :=
  nl +:+ indent 8 +:+ "<button " +:+ attr "class" "btn btn-primary" +:+ " "
  +:+ attr "id" "optimistic-signin" +:+ ">"
  +:+ nl +:+ indent 12 +:+ "<i " +:+ attr "class" ("fas " +:+ buttonIcon)
  +:+ "></i> " +:+ buttonText
  +:+ nl +:+ indent 8 +:+ "</button>" +:+ nl +:+ indent 4.

(** [renderOptimisticUI(container)], at clock reading [now]; an absent
    container is [None]. The result carries the container as the call
    leaves it. *)
Definition renderOptimisticUI (container : option Element) (now : Z)
  : JS (bool * option Element) :=
  match container with
  | None => ret (false, None)
  | Some el =>
      let* cached := get now in
      let* logged :=
        (if truthy cached
         then (let* f := lift (get_prop cached "isLoggedIn") in
               ret (truthy f))
         else ret false) in
      if logged then
        let* userImage := lift (get_prop cached "userImage") in
        let* avatar :=
          (if truthy userImage
           then (let* src := lift (ToString userImage) in
                 ret (avatar_img src))
           else ret avatar_placeholder) in
        ret (true, Some (set_innerHTML (signed_in_html avatar) el))
      else
        match cached with
        | JNull =>
            let* a := hasAccount in
            let buttonText := if a then "Sign In" else "Sign Up" in
            let* a' := hasAccount in
            let buttonIcon :=
              if a' then "fa-sign-in-alt" else "fa-user-plus" in
            ret (true,
                 Some (set_innerHTML (loading_button_html buttonText) el))
        | _ =>
            let* a := hasAccount in
            let buttonText := if a then "Sign In" else "Sign Up" in
            let* a' := hasAccount in
            let buttonIcon :=
              if a' then "fa-sign-in-alt" else "fa-user-plus" in
            let el1 :=
              set_innerHTML (action_button_html buttonIcon buttonText) el in
            if has_optimistic_signin el1
            then ret (true,
                      Some {| innerHTML := innerHTML el1;
                              signin_onclick := Some DeferredAuth |})
            else ret (true, Some el1)
        end
  end.

(** The click handler bound by [renderOptimisticUI], run on the
    control it was bound to. *)
Definition deferred_auth_click (btn : Button) : JS Button :=
  fun w =>
    match win_Clerk w with
    | Some sdk =>
        (let* a := hasAccount in
         if a
         then (if sdk_openSignIn sdk
               then (emit ClerkOpenSignIn ;; ret btn)
               else throw TypeError)
         else (if sdk_openSignUp sdk
               then (emit ClerkOpenSignUp ;; ret btn)
               else throw TypeError)) w
    | None =>
        (Ok {| btn_innerHTML :=
                 "<i " +:+ attr "class" "fas fa-spinner fa-spin"
                 +:+ "></i> Loading...";
               btn_disabled := true |}, w)
    end.

End AuthCache.

(** ** The in-app browser detector *)

Module BrowserDetect.

(** [inAppBrowserPatterns] *)
Definition inAppBrowserPatterns : list string :=
  [ "Instagram"; "FBAN"; "FBAV"; "FB_IAB"; "FB4A"; "FBIOS"; "TikTok";
    "BytedanceWebview"; "Snapchat"; "LinkedIn"; "Pinterest"; "Twitter";
    "Line"; "KAKAOTALK"; "WeChat"; "MicroMessenger"; "QQ"; "Weibo"; "GSA" ].

(** [a || b] on strings *)
Definition sor (a b : string) : string :=
  match a with
  | EmptyString => b
  | _ => a
  end.

(** [navigator.userAgent || navigator.vendor || window.opera || ''];
    [window.opera] is undefined in every browser that runs the script,
    and is taken as an optional string. *)
Definition user_agent (w : World) : string :=
  sor (sor (sor (nav_userAgent w) (nav_vendor w))
           (match win_opera w with Some s => s | None => EmptyString end))
      EmptyString.

(** [/Android/.test(ua) && /wv/.test(ua)] *)
Definition android_webview (ua : string) : bool :=
  includes ua "Android" && includes ua "wv".

(** [/iPhone|iPad|iPod/.test(ua) && /AppleWebKit/.test(ua) &&
    !/Safari/.test(ua)] *)
Definition ios_webview (ua : string) : bool :=
  (includes ua "iPhone" || includes ua "iPad" || includes ua "iPod")
  && includes ua "AppleWebKit" && negb (includes ua "Safari").

(** [_isPopupBlocked()] *)
Definition popup_probe : JS bool :=
  let* opener_null := (fun w => (win_opener_is_null w, w)) in
  let* direct :=
    (if opener_null
     then (let* ref := (fun w => (doc_referrer w, w)) in
           if String.eqb ref ""
           then (fun w => (win_self_is_top w, w))
           else ret false)
     else ret false) in
  if direct then ret false
  else
    let* no_open := (fun w => (win_open_undefined w, w)) in
    if no_open then ret true else ret false.

Definition _isPopupBlocked : JS bool :=
  try_catch popup_probe (fun _ => ret false).

(** [isInAppBrowser()] *)
Definition isInAppBrowser : JS bool :=
  fun w =>
    let ua := user_agent w in
    (if existsb (includes ua) inAppBrowserPatterns then ret true
     else if android_webview ua then ret true
     else if ios_webview ua then ret true
     else
       let* blocked := _isPopupBlocked in
       if blocked then ret true else ret false) w.

(** [getInAppBrowserName()]; [None] is [null]. *)
Definition getInAppBrowserName (w : World) : option string :=
  let ua := user_agent w in
  match find (includes ua) inAppBrowserPatterns with
  | Some pattern => Some pattern
  | None =>
      if android_webview ua then Some "Android WebView"
      else if ios_webview ua then Some "iOS WebView"
      else None
  end.

(** [encodeURIComponent]: a URIError on a string that holds a lone
    surrogate; otherwise, on the UTF-8 bytes of the string, letters,
    digits and [- _ . ! ~ * ' ( )] stay and any other byte becomes
    [%XX]. *)
Definition uri_unreserved (c : ascii) : bool :=
  let n := code c in
  ((48 <=? n) && (n <=? 57)) || ((65 <=? n) && (n <=? 90))
  || ((97 <=? n) && (n <=? 122))
  || (n =? 45) || (n =? 95) || (n =? 46) || (n =? 33) || (n =? 126)
  || (n =? 42) || (n =? 39) || (n =? 40) || (n =? 41).

Definition upper_hex_digit (d : Z) : ascii :=
  if d <? 10 then chr (48 + d) else chr (55 + d).

Fixpoint percent_encode (s : string) : string :=
  match s with
  | EmptyString => EmptyString
  | String c r =>
      if uri_unreserved c then String c (percent_encode r)
      else String "%"
             (String (upper_hex_digit (code c / 16))
                (String (upper_hex_digit (code c mod 16))
                   (percent_encode r)))
  end.

Fixpoint has_lone_surrogate (s : string) : bool :=
  match s with
  | EmptyString => false
  | String a r =>
      match r with
      | String b (String c _) =>
          is_high_surrogate a b c || is_low_surrogate a b c
          || has_lone_surrogate r
      | _ => false
      end
  end.

Definition encodeURIComponent (s : string) : res string :=
  if has_lone_surrogate s then Throw URIError else Ok (percent_encode s).

(** The template literals of the two redirects. *)
Definition sign_in_url (returnUrl : string) : res string :=
  res_bind (encodeURIComponent returnUrl)
    (fun enc => Ok ("/sign-in?redirect_url=" +:+ enc)).

Definition sign_up_url (returnUrl : string) : res string :=
  res_bind (encodeURIComponent returnUrl)
    (fun enc => Ok ("/sign-up?redirect_url=" +:+ enc)).

(** [window.location.href = url], the right-hand side evaluated first. *)
Definition assign_location (url : res string) : JS unit :=
  let* u := lift url in emit (Navigate u).

(** [openSignIn(redirectUrl)]; an omitted argument is [None]. *)
Definition openSignIn (redirectUrl : option string) : JS unit :=
  fun w =>
    let returnUrl :=
      sor (match redirectUrl with Some u => u | None => EmptyString end)
          (location_href w) in
    (let* inApp := isInAppBrowser in
     if inApp then assign_location (sign_in_url returnUrl)
     else
       match win_Clerk w with
       | Some sdk =>
           if sdk_openSignIn sdk then emit ClerkOpenSignIn
           else assign_location (sign_in_url returnUrl)
       | None => assign_location (sign_in_url returnUrl)
       end) w.

(** [openSignUp(redirectUrl)] *)
Definition openSignUp (redirectUrl : option string) : JS unit :=
  fun w =>
    let returnUrl :=
      sor (match redirectUrl with Some u => u | None => EmptyString end)
          (location_href w) in
    (let* inApp := isInAppBrowser in
     if inApp then assign_location (sign_up_url returnUrl)
     else
       match win_Clerk w with
       | Some sdk =>
           if sdk_openSignUp sdk then emit ClerkOpenSignUp
           else assign_location (sign_up_url returnUrl)
       | None => assign_location (sign_up_url returnUrl)
       end) w.

End BrowserDetect.

(** ** The data model of the specification *)

(** CacheRecord: the snapshot the cache stores. *)
Record CacheRecord : Type := {
  cr_isLoggedIn : bool;
  cr_userId : option string;
  cr_userName : string;
  cr_userImage : option string;
  cr_lastSync : Z
}.

Definition opt_string (o : option string) : jsval :=
  match o with
  | Some s => JStr s
  | None => JNull
  end.

(** The object a record is in the page. *)
Definition record_value (r : CacheRecord) : jsval :=
  JObj [("isLoggedIn", JBool (cr_isLoggedIn r));
        ("userId", opt_string (cr_userId r));
        ("userName", JStr (cr_userName r));
        ("userImage", opt_string (cr_userImage r));
        ("lastSync", JNum (num_of_Z (cr_lastSync r)))].

(** A time value: milliseconds since the epoch, within the range of
    [Date]. *)
Definition time_value (t : Z) : Prop := Z.abs t <= 8640000000000000.

(** The JSON text of an optional string. *)
Definition otext (o : option string) : string :=
  match json_text (opt_string o) with Some t => t | None => "null" end.

(** An optional string that is supplied and not empty: what survives
    the [x || default] idiom of the cache. *)
Definition nonempty (o : option string) : option string :=
  match o with
  | Some EmptyString => None
  | _ => o
  end.

(** The partial fields handed to [set]: each may be left out. *)
Record PartialState : Type := {
  ps_isLoggedIn : option bool;
  ps_userId : option string;
  ps_userName : option string;
  ps_userImage : option string
}.

Definition field {A : Type} (k : string) (f : A -> jsval) (o : option A)
  : list (string * jsval) :=
  match o with
  | Some a => [(k, f a)]
  | None => []
  end.

(** The object literal a caller passes for a partial state. *)
Definition state_value (p : PartialState) : jsval :=
  JObj (field "isLoggedIn" JBool (ps_isLoggedIn p)
        ++ field "userId" JStr (ps_userId p)
        ++ field "userName" JStr (ps_userName p)
        ++ field "userImage" JStr (ps_userImage p)).

(** The merge the specification words: supplied fields over the
    defaults [isLoggedIn=false], [userId] absent, [userName] empty,
    [userImage] absent, stamped with the time of the write. *)
Definition merged_spec (p : PartialState) (now : Z) : CacheRecord :=
  {| cr_isLoggedIn := default false (ps_isLoggedIn p);
     cr_userId := ps_userId p;
     cr_userName := default EmptyString (ps_userName p);
     cr_userImage := ps_userImage p;
     cr_lastSync := now |}.

(** The merge [set] performs: an empty [userId] or [userImage] falls
    back to the default like a missing one. *)
Definition merged (p : PartialState) (now : Z) : CacheRecord :=
  {| cr_isLoggedIn := default false (ps_isLoggedIn p);
     cr_userId := nonempty (ps_userId p);
     cr_userName := default EmptyString (ps_userName p);
     cr_userImage := nonempty (ps_userImage p);
     cr_lastSync := now |}.

(** ExternalIdentity: the user object of the identity SDK. *)
Record ExternalIdentity : Type := {
  id_id : string;
  id_fullName : option string;
  id_firstName : option string;
  id_imageUrl : option string
}.

Definition identity_value (i : ExternalIdentity) : jsval :=
  JObj [("id", JStr (id_id i));
        ("fullName", opt_string (id_fullName i));
        ("firstName", opt_string (id_firstName i));
        ("imageUrl", opt_string (id_imageUrl i))].

(** The argument of [syncWithClerk]: a user object, or [null]. *)
Definition identity_arg (o : option ExternalIdentity) : jsval :=
  match o with
  | Some i => identity_value i
  | None => JNull
  end.

(** The record [syncWithClerk] hands to [set] for an identity at time
    [now], after the [x || default] idiom of both: an empty id, name or
    image URL is dropped like a missing one. *)
Definition identity_record (i : ExternalIdentity) (now : Z) : CacheRecord :=
  {| cr_isLoggedIn := true;
     cr_userId := nonempty (Some (id_id i));
     cr_userName :=
       match nonempty (id_fullName i), nonempty (id_firstName i) with
       | Some n, _ => n
       | None, Some n => n
       | None, None => "User"
       end;
     cr_userImage := nonempty (id_imageUrl i);
     cr_lastSync := now |}.

(** Storage that can be read and written. *)
Definition storage_ok (w : World) : Prop :=
  ls_disabled w = false /\ ls_full w = false.

(** The world once the cache entry is removed. *)
Definition purged (w : World) : World :=
  with_items (delete AuthCache.STORAGE_KEY (ls_items w)) w.

(** The expiry test of [get] on a parsed value:
    [Date.now() - data.lastSync > CACHE_TTL]. *)
Definition expired (now : Z) (data : jsval) : res bool :=
  res_bind (get_prop data "lastSync")
    (fun lastSync =>
       res_bind (js_sub (num_of_Z now) lastSync)
         (fun age => Ok (num_gt age (num_of_Z AuthCache.CACHE_TTL)))).


(** The operations of the cache, for sequences of calls. *)
Inductive CacheOp : Type :=
| OpGet (now : Z)
| OpSet (state : jsval) (now : Z)
| OpClear
| OpIsLoggedIn (now : Z)
| OpGetUserId (now : Z)
| OpSync (clerkUser : jsval) (now : Z)
| OpMarkHasAccount
| OpHasAccount
| OpRender (container : option Element) (now : Z).

(** The world after one operation, whatever it returned or raised. *)
Definition run_op (op : CacheOp) (w : World) : World :=
  match op with
  | OpGet now => snd (AuthCache.get now w)
  | OpSet state now => snd (AuthCache.set state now w)
  | OpClear => snd (AuthCache.clear w)
  | OpIsLoggedIn now => snd (AuthCache.isLoggedIn now w)
  | OpGetUserId now => snd (AuthCache.getUserId now w)
  | OpSync u now => snd (AuthCache.syncWithClerk u now w)
  | OpMarkHasAccount => snd (AuthCache.markHasAccount w)
  | OpHasAccount => snd (AuthCache.hasAccount w)
  | OpRender c now => snd (AuthCache.renderOptimisticUI c now w)
  end.

Definition run_ops (ops : list CacheOp) (w : World) : World :=
  fold_left (fun w op => run_op op w) ops w.

(** [p] occurs in [s]. *)
Definition substring (p s : string) : Prop :=
  exists a b : string, s = a +:+ p +:+ b.

(** The string [set] stores for a record. *)
Definition record_json (r : CacheRecord) : string :=
  default EmptyString (json_text (record_value r)).

(** A page in a regular desktop browser, reached by direct navigation,
    with the given storage contents and no SDK loaded yet. *)
Definition desktop_page (items : gmap string string) : World :=
  {| ls_disabled := false; ls_full := false; ls_items := items;
     console := [];
     nav_userAgent :=
       "Mozilla/5.0 (X11; Linux x86_64) AppleWebKit/537.36 (KHTML, like Gecko) Chrome/120.0.0.0 Safari/537.36";
     nav_vendor := "Google Inc."; win_opera := None;
     win_opener_is_null := Ok true; doc_referrer := Ok EmptyString;
     win_self_is_top := Ok true; win_open_undefined := Ok false;
     win_Clerk := None;
     location_href := "https://guruji.example/courses?tab=live";
     events := [] |}.

(** The same page with the storage disabled by the browser. *)
Definition disabled_page (items : gmap string string) : World :=
  {| ls_disabled := true; ls_full := false; ls_items := items;
     console := [];
     nav_userAgent := nav_userAgent (desktop_page items);
     nav_vendor := "Google Inc."; win_opera := None;
     win_opener_is_null := Ok true; doc_referrer := Ok EmptyString;
     win_self_is_top := Ok true; win_open_undefined := Ok false;
     win_Clerk := None;
     location_href := "https://guruji.example/courses?tab=live";
     events := [] |}.

(** A sample identity and a sample clock reading. *)
Definition sample_identity : ExternalIdentity :=
  {| id_id := "user_2aXk"; id_fullName := Some "Ada Lovelace";
     id_firstName := Some "Ada";
     id_imageUrl := Some "https://img.example/ada.png" |}.

Definition sample_time : Z := 1700000000000.

(** The account flag is set and can be read. *)
Definition flag_set (w : World) : Prop :=
  ls_disabled w = false
  /\ ls_items w !! AuthCache.ACCOUNT_KEY = Some "true".

(** A computation keeps a property of the world, however it ends. *)
Definition keeps (P : World -> Prop) {A : Type} (m : JS A) : Prop :=
  forall w : World, P w -> P (snd (m w)).

(** [v.k] where the read cannot raise. *)
Definition prop (v : jsval) (k : string) : jsval :=
  match get_prop v k with
  | Ok x => x
  | Throw _ => JUndefined
  end.

(** The three states of the render decision, as the branches of
    [renderOptimisticUI] test them. *)
Inductive Branch : Type := SignedIn | Loading | Action.

Definition branch_of (cached : jsval) : Branch :=
  if truthy cached && truthy (prop cached "isLoggedIn") then SignedIn
  else match cached with
       | JNull => Loading
       | _ => Action
       end.

Definition button_text (hasAccount : bool) : string :=
  if hasAccount then "Sign In" else "Sign Up".

Definition button_icon (hasAccount : bool) : string :=
  if hasAccount then "fa-sign-in-alt" else "fa-user-plus".

(** The answer of [hasAccount()] in a world. *)
Definition has_account (w : World) : bool :=
  negb (ls_disabled w)
  && bool_decide (ls_items w !! AuthCache.ACCOUNT_KEY = Some "true").

(** An empty mount point. *)
Definition empty_element : Element :=
  {| innerHTML := EmptyString; signin_onclick := None |}.

(** A cached value whose [userImage] cannot be converted to a string. *)
Definition unprintable_image : jsval :=
  JObj [("isLoggedIn", JBool true);
        ("userImage", JObj [("toString", JNum (Dec 0 0))])].

(** The SDK offers the in-page entry point. *)
Definition sdk_has_signIn (w : World) : bool :=
  match win_Clerk w with
  | Some sdk => sdk_openSignIn sdk
  | None => false
  end.

Definition sdk_has_signUp (w : World) : bool :=
  match win_Clerk w with
  | Some sdk => sdk_openSignUp sdk
  | None => false
  end.

(** The return destination: the argument, or the current location when
    it is left out or empty. *)
Definition return_destination (redirectUrl : option string) (w : World)
  : string :=
  match redirectUrl with
  | Some (String c u) => String c u
  | _ => location_href w
  end.

(** The strong signals of the detector on a user-agent string. *)
Definition strong_signal (ua : string) : bool :=
  existsb (includes ua) BrowserDetect.inAppBrowserPatterns
  || BrowserDetect.android_webview ua
  || BrowserDetect.ios_webview ua.

(** A page inside an in-app browser, with the SDK loaded. *)
Definition in_app_page (ua : string) : World :=
  {| ls_disabled := false; ls_full := false; ls_items := ∅;
     console := [];
     nav_userAgent := ua;
     nav_vendor := "Apple Computer, Inc."; win_opera := None;
     win_opener_is_null := Ok true; doc_referrer := Ok EmptyString;
     win_self_is_top := Ok true; win_open_undefined := Ok false;
     win_Clerk := Some {| sdk_openSignIn := true; sdk_openSignUp := true |};
     location_href := "https://guruji.example/courses?tab=live";
     events := [] |}.

(** The answer of the pop-up probe in a world. *)
Definition probe_answer (w : World) : bool :=
  match fst (BrowserDetect._isPopupBlocked w) with
  | Ok b => b
  | Throw _ => false
  end.

(** The classification of a world. *)
Definition restrictive (w : World) : bool :=
  strong_signal (BrowserDetect.user_agent w) || probe_answer w.

(** ** The earlier revision of the cache

    The first half of the source file holds the revision of the cache
    that precedes the account flag. Its [get], [set], [clear],
    [isLoggedIn] and [getUserId] are the ones above, word for word; its
    [syncWithClerk], [renderOptimisticUI] and click handler differ. *)

Module AuthCacheV1.

(** [syncWithClerk(clerkUser)] *)
Definition syncWithClerk (clerkUser : jsval) (now : Z) : JS unit :=
  if truthy clerkUser then
    let* id := lift (get_prop clerkUser "id") in
    let* fullName := lift (get_prop clerkUser "fullName") in
    let* firstName := lift (get_prop clerkUser "firstName") in
    let* imageUrl := lift (get_prop clerkUser "imageUrl") in
    AuthCache.set
      (JObj [("isLoggedIn", JBool true);
             ("userId", id);
             ("userName", jor (jor fullName firstName) (JStr "User"));
             ("userImage", jor imageUrl JNull)])
      now
  else AuthCache.clear.

Definition loading_button_html : string :=
  nl +:+ indent 16 +:+ "<button " +:+ attr "class" "btn btn-primary" +:+ " "
  +:+ attr "id" "optimistic-signin" +:+ " "
  +:+ attr "style" "opacity: 0.7;" +:+ ">"
  +:+ nl +:+ indent 20 +:+ "<i " +:+ attr "class" "fas fa-spinner fa-spin"
  +:+ "></i> Sign In"
  +:+ nl +:+ indent 16 +:+ "</button>" +:+ nl +:+ indent 12.

Definition action_button_html : string :=
  nl +:+ indent 16 +:+ "<button " +:+ attr "class" "btn btn-primary" +:+ " "
  +:+ attr "id" "optimistic-signin" +:+ ">Sign In</button>"
  +:+ nl +:+ indent 12.

(** [renderOptimisticUI(container)] *)
Definition renderOptimisticUI (container : option Element) (now : Z)
  : JS (bool * option Element) :=
  match container with
  | None => ret (false, None)
  | Some el =>
      let* cached := AuthCache.get now in
      let* logged :=
        (if truthy cached
         then (let* f := lift (get_prop cached "isLoggedIn") in
               ret (truthy f))
         else ret false) in
      if logged then
        let* userImage := lift (get_prop cached "userImage") in
        let* avatar :=
          (if truthy userImage
           then (let* src := lift (ToString userImage) in
                 ret (AuthCache.avatar_img src))
           else ret AuthCache.avatar_placeholder) in
        ret (true,
             Some (set_innerHTML (AuthCache.signed_in_html avatar) el))
      else
        match cached with
        | JNull => ret (true, Some (set_innerHTML loading_button_html el))
        | _ =>
            let el1 := set_innerHTML action_button_html el in
            if has_optimistic_signin el1
            then ret (true,
                      Some {| innerHTML := innerHTML el1;
                              signin_onclick := Some DeferredAuth |})
            else ret (true, Some el1)
        end
  end.

(** The click handler bound by [renderOptimisticUI]. *)
Definition deferred_auth_click (btn : Button) : JS Button :=
  fun w =>
    match win_Clerk w with
    | Some sdk =>
        if sdk_openSignIn sdk
        then (emit ClerkOpenSignIn ;; ret btn) w
        else (Ok {| btn_innerHTML :=
                      "<i " +:+ attr "class" "fas fa-spinner fa-spin"
                      +:+ "></i> Loading...";
                    btn_disabled := true |}, w)
    | None =>
        (Ok {| btn_innerHTML :=
                 "<i " +:+ attr "class" "fas fa-spinner fa-spin"
                 +:+ "></i> Loading...";
               btn_disabled := true |}, w)
    end.

End AuthCacheV1.

(** ** Percent-decoding

    The inverse of [encodeURIComponent] on its own output: a [%] and two
    hexadecimal digits stand for a byte, anything else for itself. *)
Fixpoint percent_decode (s : string) : string :=
  match s with
  | EmptyString => EmptyString
  | String c r =>
      if code c =? 37 then
        match r with
        | String h (String l r') =>
            match digit_val h, digit_val l with
            | Some x, Some y => String (chr (16 * x + y)) (percent_decode r')
            | _, _ => String c (percent_decode r)
            end
        | _ => String c (percent_decode r)
        end
      else String c (percent_decode r)
  end.

(** The characters of a string. *)
Fixpoint chars (s : string) : list ascii :=
  match s with
  | EmptyString => []
  | String c r => c :: chars r
  end.

(** A stored entry the cache can read: readable storage, an entry that
    is not empty, and the value its text denotes. *)
Definition stored (w : World) (v : jsval) : Prop :=
  ls_disabled w = false
  /\ exists s : string,
      ls_items w !! AuthCache.STORAGE_KEY = Some s
      /\ s <> EmptyString
      /\ JSON_parse_text s = Some v.

(** The control once a click found the SDK missing. *)
Definition loading_button : Button :=
  {| btn_innerHTML :=
       "<i " +:+ attr "class" "fas fa-spinner fa-spin" +:+ "></i> Loading...";
     btn_disabled := true |}.


(** ** The state of the JSON string reader

    What a pending high surrogate contributes once it turns out to be
    alone, and the condition under which the reader, holding one, reads
    the escaped form of [s] as [s]: the text must not go on with the
    escape of a low surrogate. *)
Definition flush (pending : option Z) : string :=
  match pending with
  | Some h => utf8_encode h
  | None => EmptyString
  end.

Definition starts_low (s : string) : bool :=
  match s with
  | String a (String b (String c _)) => is_low_surrogate a b c
  | _ => false
  end.

Definition pending_ok (p : option Z) (s : string) : Prop :=
  match p with
  | Some h => 55296 <= h <= 56319 /\ starts_low s = false
  | None => True
  end.

(** ** URL encoding, as the specification of the platform words it

    [encodeURIComponent] leaves the characters of [uri_unescaped] as
    they are and writes any other byte of the UTF-8 encoding as [%] and
    two upper-case hexadecimal digits. *)
Definition uri_unescaped : string :=
  "ABCDEFGHIJKLMNOPQRSTUVWXYZabcdefghijklmnopqrstuvwxyz0123456789-_.!~*'()".

Definition uri_hex : string := "0123456789ABCDEF".

Definition char_at (n : Z) (s : string) : ascii :=
  match String.get (Z.to_nat n) s with
  | Some c => c
  | None => "000"%char
  end.

Definition url_encoded_byte (c : ascii) : string :=
  if existsb (Ascii.eqb c) (chars uri_unescaped) then String c EmptyString
  else String "%"
         (String (char_at (code c / 16) uri_hex)
            (String (char_at (code c mod 16) uri_hex) EmptyString)).

Fixpoint url_encoded (s : string) : string :=
  match s with
  | EmptyString => EmptyString
  | String c r => url_encoded_byte c +:+ url_encoded r
  end.

(** A lone surrogate occurs in [s]: three bytes [ED A0..BF 80..BF]. *)
Definition holds_lone_surrogate (s : string) : Prop :=
  exists (x y : string) (b c : ascii),
    s = x +:+ String "237" (String b (String c y))
    /\ 160 <= code b <= 191 /\ 128 <= code c <= 191.

(** The JavaScript string ["\uD800"], a high surrogate on its own. *)
Definition lone_surrogate : string :=
  String "237" (String "160" (String "128" EmptyString)).

(** User agents of in-app browsers: Facebook on iOS, Instagram on
    Android. *)
Definition facebook_ua : string :=
  "Mozilla/5.0 (iPhone; CPU iPhone OS 16_6 like Mac OS X) AppleWebKit/605.1.15 (KHTML, like Gecko) Mobile/15E148 [FBAN/FBIOS;FBDV/iPhone14,5;FBMD/iPhone;FBSN/iOS;FBSV/16.6;FBSS/3;FBID/phone;FBLC/en_US;FBOP/5]".

Definition instagram_ua : string :=
  "Mozilla/5.0 (Linux; Android 13; Pixel 7) AppleWebKit/537.36 (KHTML, like Gecko) Version/4.0 Chrome/116.0.0.0 Mobile Safari/537.36 Instagram 300.0.0.29.110 Android".

(** A regular desktop browser in a page opened by another page, where
    [window.open] is not defined. *)
Definition popup_less_page : World :=
  {| ls_disabled := false; ls_full := false; ls_items := ∅;
     console := [];
     nav_userAgent := nav_userAgent (desktop_page ∅);
     nav_vendor := "Google Inc."; win_opera := None;
     win_opener_is_null := Ok false; doc_referrer := Ok EmptyString;
     win_self_is_top := Ok true; win_open_undefined := Ok true;
     win_Clerk := None;
     location_href := "https://guruji.example/courses?tab=live";
     events := [] |}.

(** User agents of an Android WebView and of an iOS web view. *)
Definition android_webview_ua : string :=
  "Mozilla/5.0 (Linux; Android 13; Pixel 7 Build/TQ3A.230805.001; wv) AppleWebKit/537.36 (KHTML, like Gecko) Version/4.0 Chrome/116.0.0.0 Mobile Safari/537.36".

Definition ios_webview_ua : string :=
  "Mozilla/5.0 (iPhone; CPU iPhone OS 16_6 like Mac OS X) AppleWebKit/605.1.15 (KHTML, like Gecko) Mobile/15E148".

(** ** Markup, character by character

    The double quote and the line feed of the template literals, to
    write the markup of the scripts as it stands in the source. *)
Notation "'quot'" := (String "034"%char EmptyString) (only parsing).
Notation "'newline'" := (String "010"%char EmptyString) (only parsing).

(** ** States with further properties

    The object a caller passes to [set] may carry properties beyond the
    four fields, a [lastSync] of its own among them. *)
Definition state_object (p : PartialState) (extra : list (string * jsval))
  : jsval :=
  JObj (field "isLoggedIn" JBool (ps_isLoggedIn p)
        ++ field "userId" JStr (ps_userId p)
        ++ field "userName" JStr (ps_userName p)
        ++ field "userImage" JStr (ps_userImage p)
        ++ extra).

(** A sample partial state, and an identity whose id is empty. *)
Definition sample_state : PartialState :=
  {| ps_isLoggedIn := Some true; ps_userId := Some "user_2aXk";
     ps_userName := None; ps_userImage := None |}.

Definition nameless_identity : ExternalIdentity :=
  {| id_id := ""; id_fullName := None; id_firstName := Some "Ada";
     id_imageUrl := Some "" |}.

(** Properties a caller may add to a state: a [lastSync] of its own. *)
Definition sample_extra : list (string * jsval) :=
  [("lastSync", JNum (Dec 5 0)); ("role", JStr "admin")].

(** Two stored records: one signed in, with an image, one signed out. *)
Definition signed_in_record : CacheRecord :=
  {| cr_isLoggedIn := true; cr_userId := Some "user_2aXk";
     cr_userName := "Ada Lovelace";
     cr_userImage := Some "https://img.example/ada.png";
     cr_lastSync := sample_time |}.

Definition signed_out_record : CacheRecord :=
  {| cr_isLoggedIn := false; cr_userId := None; cr_userName := "";
     cr_userImage := None; cr_lastSync := sample_time |}.

(** A page whose browser reports no user agent and a vendor string that
    holds a catalogued signature. *)
Definition vendor_page : World :=
  {| ls_disabled := false; ls_full := false; ls_items := ∅;
     console := [];
     nav_userAgent := EmptyString;
     nav_vendor := "Line Corporation"; win_opera := None;
     win_opener_is_null := Ok true; doc_referrer := Ok EmptyString;
     win_self_is_top := Ok true; win_open_undefined := Ok false;
     win_Clerk := None;
     location_href := "https://guruji.example/courses?tab=live";
     events := [] |}.
#[local] Arguments String.append _ _ : simpl nomatch.

(** * Properties of the platform model *)

Lemma append_assoc (a b c : string) : (a +:+ b) +:+ c = a +:+ (b +:+ c).
Proof. induction a as [|x a IH]; cbn; [reflexivity | now f_equal]. Qed.

Lemma append_nil_r (a : string) : a +:+ "" = a.
Proof. induction a as [|x a IH]; cbn; [reflexivity | now f_equal]. Qed.

(** *** Strings survive quoting and parsing *)

Lemma code_range (c : ascii) : 0 <= code c < 256.
Proof. destruct c as [[] [] [] [] [] [] [] []]; vm_compute; split; congruence. Qed.

Lemma chr_code (c : ascii) : chr (code c) = c.
Proof. destruct c as [[] [] [] [] [] [] [] []]; reflexivity. Qed.

Lemma code_inj (a b : ascii) : code a = code b -> a = b.
Proof. intros H. rewrite <- (chr_code a), <- (chr_code b), H. reflexivity. Qed.

Lemma digit_val_hex_digit (d : Z) :
  0 <= d < 16 -> digit_val (hex_digit d) = Some d.
Proof.
  intros H.
  assert (d = 0 \/ d = 1 \/ d = 2 \/ d = 3 \/ d = 4 \/ d = 5 \/ d = 6
          \/ d = 7 \/ d = 8 \/ d = 9 \/ d = 10 \/ d = 11 \/ d = 12
          \/ d = 13 \/ d = 14 \/ d = 15) as Hd by lia.
  repeat (destruct Hd as [->|Hd]; [reflexivity|]). subst d. reflexivity.
Qed.

(** The escape of a code unit reads back as the code unit. *)
Lemma hex4_unicode_escape (cu : Z) :
  0 <= cu < 65536 ->
  hex4 (hex_digit (cu / 4096)) (hex_digit ((cu / 256) mod 16))
       (hex_digit ((cu / 16) mod 16)) (hex_digit (cu mod 16)) = Some cu.
Proof.
  intros H. unfold hex4.
  rewrite !digit_val_hex_digit by (Z.div_mod_to_equations; lia).
  f_equal. Z.div_mod_to_equations. lia.
Qed.

Lemma is_high_surrogate_spec (a b c : ascii) :
  is_high_surrogate a b c = true ->
  a = chr 237 /\ 160 <= code b <= 175 /\ 128 <= code c <= 191.
Proof.
  unfold is_high_surrogate. rewrite !andb_true_iff.
  intros ((((Ha & H1) & H2) & H3) & H4).
  apply Z.eqb_eq in Ha. split; [apply code_inj; exact Ha | lia].
Qed.

Lemma is_low_surrogate_spec (a b c : ascii) :
  is_low_surrogate a b c = true ->
  a = chr 237 /\ 176 <= code b <= 191 /\ 128 <= code c <= 191.
Proof.
  unfold is_low_surrogate. rewrite !andb_true_iff.
  intros ((((Ha & H1) & H2) & H3) & H4).
  apply Z.eqb_eq in Ha. split; [apply code_inj; exact Ha | lia].
Qed.

(** The three bytes of a surrogate are the encoding of its code unit. *)
Lemma utf8_surrogate_unit (b c : ascii) :
  160 <= code b <= 191 -> 128 <= code c <= 191 ->
  utf8_encode (surrogate_unit b c) = String (chr 237) (String b (str1 c)).
Proof.
  intros Hb Hc. unfold utf8_encode, surrogate_unit.
  destruct (Z.ltb_spec (53248 + (code b - 128) * 64 + (code c - 128)) 128);
    [lia|].
  destruct (Z.ltb_spec (53248 + (code b - 128) * 64 + (code c - 128)) 2048);
    [lia|].
  destruct (Z.ltb_spec (53248 + (code b - 128) * 64 + (code c - 128)) 65536);
    [|lia].
  replace (224 + (53248 + (code b - 128) * 64 + (code c - 128)) / 4096)
    with 237 by (Z.div_mod_to_equations; lia).
  replace (128 + (53248 + (code b - 128) * 64 + (code c - 128)) / 64 mod 64)
    with (code b) by (Z.div_mod_to_equations; lia).
  replace (128 + (53248 + (code b - 128) * 64 + (code c - 128)) mod 64)
    with (code c) by (Z.div_mod_to_equations; lia).
  rewrite !chr_code. reflexivity.
Qed.

Lemma prepend_nil (r : option (string * string)) : prepend "" r = r.
Proof. destruct r as [[s x]|]; reflexivity. Qed.

Lemma prepend_some (p s x : string) :
  prepend p (Some (s, x)) = Some (p +:+ s, x).
Proof. reflexivity. Qed.

Lemma parse_chars_escape_char (p : option Z) (c : ascii) (x : string) :
  parse_chars p (json_escape_char c +:+ x)
  = prepend (flush p +:+ str1 c) (parse_chars None x).
Proof.
  destruct p; destruct c as [[] [] [] [] [] [] [] []]; reflexivity.
Qed.

Lemma parse_chars_raw (p : option Z) (c : ascii) (x : string) :
  (128 <=? code c) = true ->
  parse_chars p (String c x)
  = prepend (flush p +:+ str1 c) (parse_chars None x).
Proof.
  destruct p; destruct c as [[] [] [] [] [] [] [] []]; intros H;
    try discriminate H; reflexivity.
Qed.

Lemma parse_chars_unicode (p : option Z) (cu : Z) (x : string) :
  0 <= cu < 65536 ->
  parse_chars p (unicode_escape cu +:+ x)
  = let low := (56320 <=? cu) && (cu <=? 57343) in
    let high := (55296 <=? cu) && (cu <=? 56319) in
    match p with
    | Some h =>
        if low
        then prepend (utf8_encode (65536 + (h - 55296) * 1024 + (cu - 56320)))
               (parse_chars None x)
        else if high then prepend (flush p) (parse_chars (Some cu) x)
        else prepend (flush p +:+ utf8_encode cu) (parse_chars None x)
    | None =>
        if high then parse_chars (Some cu) x
        else prepend (utf8_encode cu) (parse_chars None x)
    end.
Proof.
  intros H. pose proof (hex4_unicode_escape cu H) as Hx.
  unfold unicode_escape.
  change (("\u" +:+ String ?a (String ?b (String ?c (str1 ?d)))) +:+ x)
    with (String "\" (String "u" (String a (String b (String c (String d x)))))).
  set (h1 := hex_digit (cu / 4096)) in *.
  set (h2 := hex_digit ((cu / 256) mod 16)) in *.
  set (h3 := hex_digit ((cu / 16) mod 16)) in *.
  set (h4 := hex_digit (cu mod 16)) in *.
  transitivity
    (match hex4 h1 h2 h3 h4 with
     | Some cu =>
         let low := (56320 <=? cu) && (cu <=? 57343) in
         let high := (55296 <=? cu) && (cu <=? 56319) in
         match p with
         | Some h =>
             if low
             then prepend
                    (utf8_encode (65536 + (h - 55296) * 1024 + (cu - 56320)))
                    (parse_chars None x)
             else if high then prepend (flush p) (parse_chars (Some cu) x)
             else prepend (flush p +:+ utf8_encode cu) (parse_chars None x)
         | None =>
             if high then parse_chars (Some cu) x
             else prepend (utf8_encode cu) (parse_chars None x)
         end
     | None => None
     end).
  - destruct p; reflexivity.
  - rewrite Hx. reflexivity.
Qed.

Lemma surrogate_unit_high (b c : ascii) :
  160 <= code b <= 175 -> 128 <= code c <= 191 ->
  55296 <= surrogate_unit b c <= 56319.
Proof. unfold surrogate_unit. lia. Qed.

Lemma surrogate_unit_low (b c : ascii) :
  176 <= code b <= 191 -> 128 <= code c <= 191 ->
  56320 <= surrogate_unit b c <= 57343.
Proof. unfold surrogate_unit. lia. Qed.

Lemma json_escape_ordinary (a : ascii) (r : string) :
  match r with
  | String b (String c _) =>
      is_high_surrogate a b c = false /\ is_low_surrogate a b c = false
  | _ => True
  end ->
  json_escape (String a r) = json_escape_char a +:+ json_escape r.
Proof.
  destruct r as [|b [|c r3]]; try reflexivity.
  intros [H1 H2]. cbn [json_escape]. rewrite H1, H2. reflexivity.
Qed.

Lemma parse_chars_escape_pending (n : nat) :
  forall (p : option Z) (s rest : string),
    (String.length s <= n)%nat ->
    pending_ok p s ->
    parse_chars p (json_escape s +:+ String (chr 34) rest)
    = Some (flush p +:+ s, rest).
Proof.
  induction n as [|n IH]; intros p s rest Hlen Hp.
  { destruct s; [|cbn in Hlen; lia].
    destruct p; cbn [json_escape String.append]; [|reflexivity].
    cbn [flush]. rewrite append_nil_r. reflexivity. }
  destruct s as [|a r].
  { destruct p; cbn [json_escape String.append]; [|reflexivity].
    cbn [flush]. rewrite append_nil_r. reflexivity. }
  assert (Hord :
            match r with
            | String b (String c _) =>
                is_high_surrogate a b c = false
                /\ is_low_surrogate a b c = false
            | _ => True
            end ->
            parse_chars p (json_escape (String a r) +:+ String (chr 34) rest)
            = Some (flush p +:+ String a r, rest)).
  { intros Ho. rewrite (json_escape_ordinary a r Ho), append_assoc.
    rewrite parse_chars_escape_char.
    rewrite (IH None r rest) by (cbn in Hlen |- *; (lia || exact I)).
    cbn [flush prepend]. rewrite append_assoc. reflexivity. }
  destruct r as [|b [|c r3]]; try (apply Hord; exact I).
  destruct (is_high_surrogate a b c) eqn:Hh.
  - apply is_high_surrogate_spec in Hh as Hs. destruct Hs as (-> & Hb & Hc).
    assert (Hlone :
              starts_low r3 = false ->
              json_escape (String (chr 237) (String b (String c r3)))
              = unicode_escape (surrogate_unit b c) +:+ json_escape r3 ->
              parse_chars p
                (json_escape (String (chr 237) (String b (String c r3)))
                 +:+ String (chr 34) rest)
              = Some (flush p +:+ String (chr 237) (String b (String c r3)),
                      rest)).
    { intros Hnl E. rewrite E, append_assoc.
      pose proof (surrogate_unit_high b c Hb Hc) as Hu.
      rewrite parse_chars_unicode by lia. cbv zeta.
      destruct (Z.leb_spec 56320 (surrogate_unit b c)) as [?|_]; [lia|].
      destruct (Z.leb_spec 55296 (surrogate_unit b c)) as [_|?]; [|lia].
      destruct (Z.leb_spec (surrogate_unit b c) 56319) as [_|?]; [|lia].
      cbn [andb].
      rewrite (IH (Some (surrogate_unit b c)) r3 rest);
        [|cbn in Hlen |- *; lia | split; [exact Hu | exact Hnl]].
      cbn [flush]. rewrite utf8_surrogate_unit by lia.
      destruct p; cbn [prepend flush]; reflexivity. }
    destruct r3 as [|a' [|b' [|c' r6]]];
      try (apply Hlone; [reflexivity|];
           cbn [json_escape]; rewrite Hh; reflexivity).
    destruct (is_low_surrogate a' b' c') eqn:Hl.
    + apply is_low_surrogate_spec in Hl as Hs. destruct Hs as (-> & Hb' & Hc').
      cbn [json_escape]. rewrite Hh, Hl.
      cbn [String.append].
      assert (H237 : (128 <=? code (chr 237)) = true) by reflexivity.
      assert (Hrb : (128 <=? code b) = true) by (apply Z.leb_le; lia).
      assert (Hrc : (128 <=? code c) = true) by (apply Z.leb_le; lia).
      assert (Hrb' : (128 <=? code b') = true) by (apply Z.leb_le; lia).
      assert (Hrc' : (128 <=? code c') = true) by (apply Z.leb_le; lia).
      rewrite (parse_chars_raw p _ _ H237), (parse_chars_raw None _ _ Hrb),
        (parse_chars_raw None _ _ Hrc), (parse_chars_raw None _ _ H237),
        (parse_chars_raw None _ _ Hrb'), (parse_chars_raw None _ _ Hrc').
      rewrite (IH None r6 rest) by (cbn in Hlen |- *; (lia || exact I)).
      cbn [flush prepend String.append str1]. rewrite append_assoc.
      reflexivity.
    + apply Hlone; [exact Hl|]. cbn [json_escape]. rewrite Hh, Hl.
      reflexivity.
  - destruct (is_low_surrogate a b c) eqn:Hl; [|apply Hord; split; reflexivity].
    apply is_low_surrogate_spec in Hl as Hs. destruct Hs as (-> & Hb & Hc).
    destruct p as [h|].
    { destruct Hp as [_ Hp]. cbn [starts_low] in Hp. congruence. }
    cbn [json_escape]. rewrite Hh, Hl, append_assoc.
    pose proof (surrogate_unit_low b c Hb Hc) as Hu.
    rewrite parse_chars_unicode by lia. cbv zeta.
    destruct (Z.leb_spec 55296 (surrogate_unit b c)) as [_|?]; [|lia].
    destruct (Z.leb_spec (surrogate_unit b c) 56319) as [?|_]; [lia|].
    cbn [andb].
    rewrite (IH None r3 rest) by (cbn in Hlen |- *; (lia || exact I)).
    rewrite utf8_surrogate_unit by lia. reflexivity.
Qed.

Lemma parse_chars_escape (s rest : string) :
  parse_chars None (json_escape s +:+ String (chr 34) rest) = Some (s, rest).
Proof.
  exact (parse_chars_escape_pending (String.length s) None s rest
           (Nat.le_refl _) I).
Qed.

(** *** Integers are doubles up to [2^53] *)

Lemma of_decimal_small (z : Z) :
  Z.abs z <= 2 ^ 53 -> of_decimal z 0 = Dec z 0.
Proof.
  intros Hz. unfold of_decimal. change (0 =? 0) with true.
  destruct (Z.leb_spec (Z.abs z) (2 ^ 53)) as [_|?]; [reflexivity | lia].
Qed.

Lemma num_of_Z_small (z : Z) :
  Z.abs z <= 2 ^ 53 -> num_of_Z z = Dec z 0.
Proof. exact (of_decimal_small z). Qed.

(** *** Integers beyond [2^53], and the age test *)

Lemma div_half_even_ge (n d : Z) : n / d <= div_half_even n d.
Proof.
  unfold div_half_even.
  destruct (2 * (n mod d) <? d); [lia|].
  destruct (d <? 2 * (n mod d)); [lia|].
  destruct (Z.even (n / d)); lia.
Qed.

(** Beyond [2^53] an integer rounds to an integer that is still beyond
    it, on the same side of zero, or overflows. *)
Lemma round_ratio_big (negative : bool) (n : Z) :
  2 ^ 53 < n ->
  round_ratio negative n 1 = Inf negative
  \/ exists q : Z,
       round_ratio negative n 1 = Dec q 0
       /\ 2 ^ 53 <= Z.abs q /\ (q <? 0) = negative.
Proof.
  intros Hn.
  assert (Hl : 53 <= Z.log2 n).
  { change 53 with (Z.log2 (2 ^ 53)). apply Z.log2_le_mono. lia. }
  assert (Hpos : 0 < n).
  { assert (0 < 2 ^ 53) by reflexivity. lia. }
  destruct (Z.log2_spec n Hpos) as [Hlo _].
  unfold round_ratio, log2_ratio.
  change (Z.log2 1) with 0. rewrite Z.sub_0_r.
  rewrite (Z.max_l 0 (- Z.log2 n)), (Z.max_r 0 (Z.log2 n)) by lia.
  change (2 ^ 0) with 1. rewrite Z.mul_1_r, Z.mul_1_l.
  destruct (Z.ltb_spec n (2 ^ Z.log2 n)) as [?|_]; [lia|].
  set (k := Z.log2 n - 52).
  assert (Hk : 1 <= k) by (unfold k; lia).
  rewrite (Z.max_l k (-1074)), (Z.max_l 0 (- k)), (Z.max_r 0 k) by lia.
  change (2 ^ 0) with 1. rewrite Z.mul_1_r, Z.mul_1_l.
  set (q := div_half_even n (2 ^ k)).
  assert (H2k : 2 <= 2 ^ k).
  { change 2 with (2 ^ 1) at 1. apply Z.pow_le_mono_r; lia. }
  assert (Hq : 2 ^ 52 <= q).
  { etransitivity; [|apply div_half_even_ge].
    apply Z.div_le_lower_bound; [lia|].
    replace (Z.log2 n) with (k + 52) in Hlo by (unfold k; lia).
    rewrite Z.pow_add_r in Hlo by lia. lia. }
  destruct ((971 <? k) || ((k =? 971) && (q =? 2 ^ 53))); [now left|].
  right. destruct (Z.leb_spec 0 k) as [_|?]; [|lia].
  assert (Hbig : 2 ^ 53 <= q * 2 ^ k).
  { change (2 ^ 53) with (2 ^ 52 * 2).
    assert (0 < 2 ^ 52) by reflexivity. nia. }
  destruct negative.
  - exists (-1 * (q * 2 ^ k)). split; [reflexivity|].
    split; [lia|]. apply Z.ltb_lt.
    assert (0 < 2 ^ 53) by reflexivity. lia.
  - exists (1 * (q * 2 ^ k)). split; [reflexivity|].
    split; [lia|]. apply Z.ltb_ge.
    assert (0 < 2 ^ 53) by reflexivity. lia.
Qed.

Lemma of_decimal_big (z : Z) :
  2 ^ 53 < Z.abs z ->
  of_decimal z 0 = Inf (z <? 0)
  \/ exists q : Z,
       of_decimal z 0 = Dec q 0
       /\ 2 ^ 53 <= Z.abs q /\ (q <? 0) = (z <? 0).
Proof.
  intros Hz. unfold of_decimal. change (0 =? 0) with true.
  destruct (Z.leb_spec (Z.abs z) (2 ^ 53)) as [?|_]; [lia|].
  assert (0 < 2 ^ 53) by reflexivity.
  destruct (Z.eqb_spec z 0) as [->|_]; [cbn in Hz; lia|].
  cbn [andb].
  destruct (310 <? num_digits (Z.abs z) + 0); [now left|].
  destruct (Z.ltb_spec (num_digits (Z.abs z) + 0) (-330)) as [Hd|_].
  { unfold num_digits in Hd. lia. }
  change (0 <=? 0) with true. cbv iota.
  change (10 ^ 0) with 1. rewrite Z.mul_1_r.
  apply round_ratio_big. exact Hz.
Qed.

(** A rounded integer compares with a small one as the integer does. *)
Lemma gt_of_decimal (d ttl : Z) :
  0 <= ttl < 2 ^ 53 ->
  num_gt (of_decimal d 0) (Dec ttl 0) = (d >? ttl).
Proof.
  intros Httl.
  destruct (Z.le_gt_cases (Z.abs d) (2 ^ 53)) as [Hs|Hb].
  - rewrite of_decimal_small by exact Hs.
    cbn [num_gt]. rewrite Z.min_id, Z.sub_diag.
    change (10 ^ 0) with 1. rewrite !Z.mul_1_r. reflexivity.
  - destruct (of_decimal_big _ Hb) as [E|(q & E & Hq & Hsq)]; rewrite E.
    + cbn [num_gt].
      destruct (Z.ltb_spec d 0), (Z.gtb_spec d ttl); cbn [negb];
        try reflexivity; lia.
    + cbn [num_gt]. rewrite Z.min_id, Z.sub_diag.
      change (10 ^ 0) with 1. rewrite !Z.mul_1_r.
      destruct (Z.ltb_spec q 0), (Z.ltb_spec d 0); try discriminate Hsq;
        destruct (Z.gtb_spec q ttl), (Z.gtb_spec d ttl);
        try reflexivity; lia.
Qed.

(** The age test on integer clock readings: the stored time is a time
    value, the clock reading any integer. *)
Lemma age_test (now t ttl : Z) :
  Z.abs t <= 8640000000000000 ->
  0 <= ttl <= 86400000 ->
  num_gt (num_sub (num_of_Z now) (Dec t 0)) (Dec ttl 0) = (now - t >? ttl).
Proof.
  intros Ht Httl.
  assert (H53 : 2 ^ 53 = 9007199254740992) by reflexivity.
  assert (Hsub : forall a : Z,
            num_gt (num_sub (Dec a 0) (Dec t 0)) (Dec ttl 0)
            = (a - t >? ttl)).
  { intros a. cbn [num_sub]. rewrite Z.min_id, Z.sub_diag.
    change (10 ^ 0) with 1. rewrite !Z.mul_1_r.
    apply gt_of_decimal. lia. }
  unfold num_of_Z.
  destruct (Z.le_gt_cases (Z.abs now) (2 ^ 53)) as [Hs|Hb].
  - rewrite (of_decimal_small now Hs). apply Hsub.
  - destruct (of_decimal_big _ Hb) as [E|(q & E & Hq & Hsq)]; rewrite E.
    + cbn [num_sub num_gt].
      destruct (Z.ltb_spec now 0), (Z.gtb_spec (now - t) ttl); cbn [negb];
        try reflexivity; lia.
    + rewrite Hsub.
      destruct (Z.ltb_spec q 0), (Z.ltb_spec now 0); try discriminate Hsq;
        destruct (Z.gtb_spec (q - t) ttl), (Z.gtb_spec (now - t) ttl);
        try reflexivity; lia.
Qed.

(** *** Integers survive printing and parsing *)

Lemma span_digits_uint (u : Decimal.uint) (c : ascii) (rest : string) :
  is_digit c = false ->
  span_digits (NilEmpty.string_of_uint u +:+ String c rest)
  = (NilEmpty.string_of_uint u, String c rest).
Proof.
  intros Hc. unfold span_digits.
  induction u; cbn [NilEmpty.string_of_uint String.append span];
    try (rewrite IHu; reflexivity).
  now rewrite Hc.
Qed.

Ltac eval_code :=
  repeat match goal with
    | |- context [code ?c] =>
        let v := eval vm_compute in (code c) in change (code c) with v
    end.

Lemma digits_value_from_uint (u : Decimal.uint) (acc : positive) :
  digits_value_from (Z.pos acc) (NilEmpty.string_of_uint u)
  = Z.pos (Pos.of_uint_acc u acc).
Proof.
  revert acc.
  induction u; intros acc;
    cbn [NilEmpty.string_of_uint digits_value_from Pos.of_uint_acc];
    try reflexivity;
    match goal with
    | |- digits_value_from ?z _ = Z.pos (Pos.of_uint_acc _ ?p) =>
        replace z with (Z.pos p) by (eval_code; lia)
    end; apply IHu.
Qed.

Lemma digits_value_uint (u : Decimal.uint) :
  digits_value (NilEmpty.string_of_uint u) = Z.of_N (N.of_uint u).
Proof.
  unfold digits_value, N.of_uint.
  induction u; cbn [NilEmpty.string_of_uint digits_value_from Pos.of_uint];
    try reflexivity; try exact IHu;
    match goal with
    | |- digits_value_from ?z _ = Z.of_N (N.pos (Pos.of_uint_acc _ ?p)) =>
        replace z with (Z.pos p) by (eval_code; lia)
    end; apply digits_value_from_uint.
Qed.

Lemma digits_value_digits_of (n : Z) :
  0 <= n -> digits_value (digits_of n) = n.
Proof.
  intros Hn. unfold digits_of.
  rewrite digits_value_uint, DecimalN.Unsigned.of_to. lia.
Qed.

Lemma uint_head_nonzero (p : positive) (d : Decimal.uint) :
  Pos.to_uint p <> Decimal.D0 d.
Proof.
  intros E.
  pose proof (DecimalPos.Unsigned.of_to p) as Hof.
  pose proof (DecimalPos.Unsigned.to_of (Pos.to_uint p)) as Hto.
  rewrite Hof in Hto. cbn [N.to_uint] in Hto.
  rewrite E, unorm_D0 in Hto. unfold Decimal.unorm in Hto.
  destruct (Decimal.nzhead d) eqn:Hz; try discriminate.
  - injection Hto as ->. rewrite E in Hof. discriminate.
  - exact (nzhead_nonzero _ _ Hz).
Qed.

(** The integer part of a printed natural number is one the JSON grammar
    accepts: a single digit, or no leading zero. *)
Lemma int_ok_digits_of (n : Z) : int_ok (digits_of n) = true.
Proof.
  unfold digits_of. destruct (Z.to_N n) as [|p]; [reflexivity|].
  cbn [N.to_uint].
  pose proof (uint_head_nonzero p) as Hh.
  pose proof (DecimalPos.Unsigned.to_uint_nonnil p) as Hn.
  destruct (Pos.to_uint p) as [|u|u|u|u|u|u|u|u|u|u];
    try congruence; try (exfalso; eapply Hh; reflexivity);
    destruct u; reflexivity.
Qed.

Lemma digits_of_no_sign (n : Z) (x : string) :
  starts_with "-" (digits_of n +:+ x) = false.
Proof.
  unfold digits_of.
  assert (Hn : N.to_uint (Z.to_N n) <> Decimal.Nil).
  { destruct (Z.to_N n); [discriminate | apply DecimalPos.Unsigned.to_uint_nonnil]. }
  destruct (N.to_uint (Z.to_N n)); [congruence | reflexivity ..].
Qed.

Section PrintedInteger.
Variables (c : ascii) (rest : string).
Hypothesis Hdigit : is_digit c = false.
Hypothesis Hpoint : (code c =? 46) = false.
Hypothesis Hexp : (code c =? 101) || (code c =? 69) = false.

Lemma unsigned_number_digits_of (n : Z) :
  0 <= n <= 2 ^ 53 ->
  unsigned_number (digits_of n +:+ String c rest)
  = Some (Dec n 0, String c rest).
Proof using Hdigit Hpoint Hexp.
  intros Hn. unfold unsigned_number.
  unfold digits_of at 1. rewrite span_digits_uint by exact Hdigit.
  fold (digits_of n). rewrite int_ok_digits_of.
  unfold fraction_part. rewrite Hpoint.
  unfold exponent_part. rewrite Hexp.
  rewrite append_nil_r, digits_value_digits_of by lia.
  change (0 - Z.of_nat (String.length "")) with 0.
  rewrite of_decimal_small by lia. reflexivity.
Qed.

Lemma parse_number_integer (t : Z) :
  Z.abs t <= 2 ^ 53 ->
  parse_number (NumberToString (Dec t 0) +:+ String c rest)
  = Some (Dec t 0, String c rest).
Proof using Hdigit Hpoint Hexp.
  intros Ht. unfold NumberToString, parse_number.
  destruct (Z.eqb_spec t 0) as [->|Hz].
  - change (starts_with "-" ("0" +:+ String c rest)) with false.
    cbv iota. apply (unsigned_number_digits_of 0). split; [lia | discriminate].
  - change (0 =? 0) with true. cbn [andb].
    destruct (Z.leb_spec (Z.abs t) (2 ^ 53)) as [_|?]; [|lia].
    destruct (Z.ltb_spec t 0) as [Hneg|Hpos].
    + change (("-" +:+ digits_of (Z.abs t)) +:+ String c rest)
        with (String "-" (digits_of (Z.abs t) +:+ String c rest)).
      change (starts_with "-" (String "-" ?x)) with true.
      cbn [starts_with drop Ascii.eqb Bool.eqb andb].
      rewrite unsigned_number_digits_of by lia.
      cbn [num_neg]. repeat f_equal. lia.
    + change (("" +:+ digits_of (Z.abs t)) +:+ String c rest)
        with (digits_of (Z.abs t) +:+ String c rest).
      rewrite digits_of_no_sign, unsigned_number_digits_of by lia.
      repeat f_equal. lia.
Qed.
End PrintedInteger.

(** *** Numbers at the head of a value *)

Lemma parse_value_numeric_head (f : nat) (ch : ascii) (r : string) :
  is_digit ch || (code ch =? 45) = true ->
  parse_value (S f) (String ch r)
  = match parse_number (String ch r) with
    | Some (x, rest) => Some (JNum x, rest)
    | None => None
    end.
Proof.
  destruct ch as [[] [] [] [] [] [] [] []]; intros H;
    try discriminate H; reflexivity.
Qed.

Lemma digits_of_head (n : Z) :
  exists ch r, digits_of n = String ch r /\ is_digit ch = true.
Proof.
  unfold digits_of.
  assert (Hn : N.to_uint (Z.to_N n) <> Decimal.Nil).
  { destruct (Z.to_N n);
      [discriminate | apply DecimalPos.Unsigned.to_uint_nonnil]. }
  destruct (N.to_uint (Z.to_N n)); [congruence | ..];
    cbn [NilEmpty.string_of_uint]; eauto.
Qed.

Lemma integer_text_head (t : Z) :
  Z.abs t <= 2 ^ 53 ->
  exists ch r, NumberToString (Dec t 0) = String ch r
               /\ is_digit ch || (code ch =? 45) = true.
Proof.
  intros Ht. unfold NumberToString.
  destruct (Z.eqb_spec t 0) as [->|Hz].
  - exists "0"%char, EmptyString. split; reflexivity.
  - change (0 =? 0) with true. cbn [andb].
    destruct (Z.leb_spec (Z.abs t) (2 ^ 53)) as [_|?]; [|lia].
    destruct (digits_of_head (Z.abs t)) as (ch & r & E & Hd).
    destruct (t <? 0).
    + exists "-"%char, (digits_of (Z.abs t)). split; reflexivity.
    + exists ch, r. split; [rewrite E; reflexivity|].
      rewrite Hd. reflexivity.
Qed.

Lemma parse_value_integer (f : nat) (t : Z) (c : ascii) (rest : string) :
  Z.abs t <= 2 ^ 53 ->
  is_digit c = false ->
  (code c =? 46) = false ->
  (code c =? 101) || (code c =? 69) = false ->
  parse_value (S f) (NumberToString (Dec t 0) +:+ String c rest)
  = Some (JNum (Dec t 0), String c rest).
Proof.
  intros Ht H1 H2 H3.
  destruct (integer_text_head t Ht) as (ch & r & E & Hh).
  pose proof (parse_number_integer c rest H1 H2 H3 t Ht) as Hp.
  rewrite E in Hp |- *.
  change (String ch r +:+ String c rest)
    with (String ch (r +:+ String c rest)) in Hp |- *.
  rewrite parse_value_numeric_head by exact Hh.
  rewrite Hp. reflexivity.
Qed.

(** *** A record survives [JSON.stringify] and [JSON.parse] *)

Lemma json_quote_app (k x : string) :
  json_quote k +:+ x = String (chr 34) (json_escape k +:+ String (chr 34) x).
Proof.
  unfold json_quote.
  change (String (chr 34) (json_escape k +:+ str1 (chr 34)) +:+ x)
    with (String (chr 34) ((json_escape k +:+ str1 (chr 34)) +:+ x)).
  rewrite append_assoc. reflexivity.
Qed.

Lemma parse_value_string (f : nat) (s x : string) :
  parse_value (S f) (json_quote s +:+ x) = Some (JStr s, x).
Proof.
  rewrite json_quote_app.
  change (parse_value (S f) (String (chr 34) ?r))
    with (match parse_chars None r with
          | Some (y, rest) => Some (JStr y, rest)
          | None => None
          end).
  rewrite parse_chars_escape. reflexivity.
Qed.

Lemma parse_value_integer_app (f : nat) (t : Z) (x : string) :
  Z.abs t <= 2 ^ 53 ->
  parse_value (S f) (NumberToString (Dec t 0) +:+ "}" +:+ x)
  = Some (JNum (Dec t 0), "}" +:+ x).
Proof.
  intros Ht. apply (parse_value_integer f t "}"%char x Ht); reflexivity.
Qed.

(** One member of an object, followed by a comma or by the closing
    brace. *)
Lemma parse_members_comma (f : nat) (k vt : string) (v : jsval)
      (x : string) (acc : list (string * jsval)) :
  parse_value f (vt +:+ "," +:+ x) = Some (v, "," +:+ x) ->
  parse_members (S f) (json_quote k +:+ ":" +:+ vt +:+ "," +:+ x) acc
  = parse_members f x (obj_set k v acc).
Proof.
  intros Hv. rewrite json_quote_app.
  change (parse_members (S f) (String (chr 34) ?r) acc)
    with (match parse_chars None r with
          | Some (k, r1) =>
              match expect 58 r1 with
              | Some r2 =>
                  match parse_value f r2 with
                  | Some (v, r3) =>
                      match expect 44 r3 with
                      | Some r4 => parse_members f r4 (obj_set k v acc)
                      | None =>
                          match expect 125 r3 with
                          | Some r4 => Some (JObj (obj_set k v acc), r4)
                          | None => None
                          end
                      end
                  | None => None
                  end
              | None => None
              end
          | None => None
          end).
  rewrite parse_chars_escape.
  change (expect 58 (":" +:+ vt +:+ "," +:+ x)) with (Some (vt +:+ "," +:+ x)).
  cbv beta iota. rewrite Hv. reflexivity.
Qed.

Lemma parse_members_brace (f : nat) (k vt : string) (v : jsval)
      (x : string) (acc : list (string * jsval)) :
  parse_value f (vt +:+ "}" +:+ x) = Some (v, "}" +:+ x) ->
  parse_members (S f) (json_quote k +:+ ":" +:+ vt +:+ "}" +:+ x) acc
  = Some (JObj (obj_set k v acc), x).
Proof.
  intros Hv. rewrite json_quote_app.
  change (parse_members (S f) (String (chr 34) ?r) acc)
    with (match parse_chars None r with
          | Some (k, r1) =>
              match expect 58 r1 with
              | Some r2 =>
                  match parse_value f r2 with
                  | Some (v, r3) =>
                      match expect 44 r3 with
                      | Some r4 => parse_members f r4 (obj_set k v acc)
                      | None =>
                          match expect 125 r3 with
                          | Some r4 => Some (JObj (obj_set k v acc), r4)
                          | None => None
                          end
                      end
                  | None => None
                  end
              | None => None
              end
          | None => None
          end).
  rewrite parse_chars_escape.
  change (expect 58 (":" +:+ vt +:+ "}" +:+ x)) with (Some (vt +:+ "}" +:+ x)).
  cbv beta iota. rewrite Hv. reflexivity.
Qed.

Lemma parse_value_object (f : nat) (k x : string) :
  parse_value (S f) ("{" +:+ json_quote k +:+ x)
  = parse_members f (json_quote k +:+ x) [].
Proof. reflexivity. Qed.

Lemma parse_value_opt_string (f : nat) (o : option string) (x : string) :
  parse_value (S f)
    (match json_text (opt_string o) with Some t => t | None => "null" end
     +:+ x)
  = Some (opt_string o, x).
Proof.
  destruct o as [s|]; cbn [opt_string json_text].
  - apply parse_value_string.
  - reflexivity.
Qed.

Lemma parse_value_bool (f : nat) (b : bool) (x : string) :
  parse_value (S f) ((if b then "true" else "false") +:+ x)
  = Some (JBool b, x).
Proof. destruct b; reflexivity. Qed.

Lemma record_text (r : CacheRecord) :
  json_text (record_value r)
  = Some ("{" +:+ json_quote "isLoggedIn" +:+ ":"
          +:+ (if cr_isLoggedIn r then "true" else "false") +:+ ","
          +:+ json_quote "userId" +:+ ":" +:+ otext (cr_userId r) +:+ ","
          +:+ json_quote "userName" +:+ ":" +:+ json_quote (cr_userName r)
          +:+ ","
          +:+ json_quote "userImage" +:+ ":" +:+ otext (cr_userImage r)
          +:+ ","
          +:+ json_quote "lastSync" +:+ ":"
          +:+ json_number (num_of_Z (cr_lastSync r)) +:+ "}" +:+ "").
Proof.
  destruct r as [b uid name img t]. unfold record_value, otext.
  cbn [cr_isLoggedIn cr_userId cr_userName cr_userImage cr_lastSync].
  destruct b, uid as [uid|], img as [img|];
    cbn [json_text opt_string num_of_Z join_strings];
    rewrite ?append_assoc, ?append_nil_r; reflexivity.
Qed.

Lemma parse_fuel_three (c1 c2 c3 : ascii) (s : string) :
  exists f : nat,
    parse_fuel (String c1 (String c2 (String c3 s)))
    = S (S (S (S (S (S (S f)))))).
Proof.
  exists (S (2 * String.length s))%nat. unfold parse_fuel.
  cbn [String.length]. lia.
Qed.

Lemma parse_otext (f : nat) (o : option string) (x : string) :
  parse_value (S f) (otext o +:+ x) = Some (opt_string o, x).
Proof. apply parse_value_opt_string. Qed.

Lemma record_roundtrip (r : CacheRecord) :
  time_value (cr_lastSync r) ->
  JSON_parse (JSON_stringify (record_value r)) = Ok (record_value r).
Proof.
  intros Ht.
  assert (Hlt : Z.abs (cr_lastSync r) <= 2 ^ 53).
  { unfold time_value in Ht.
    assert (8640000000000000 <= 2 ^ 53) by discriminate. lia. }
  unfold JSON_stringify. rewrite record_text.
  unfold record_value. rewrite (num_of_Z_small _ Hlt).
  change (json_number (Dec ?m ?e)) with (NumberToString (Dec m e)).
  unfold JSON_parse. cbn [ToString res_bind]. unfold JSON_parse_text.
  match goal with
  | |- context [parse_fuel ?t] =>
      destruct (parse_fuel_three "{" (chr 34) "i"
                  (drop 3 t)) as [f Hf];
      change (String "{" (String (chr 34) (String "i" (drop 3 t))))
        with t in Hf; rewrite Hf
  end.
  rewrite parse_value_object.
  rewrite (parse_members_comma _ _ _ (JBool (cr_isLoggedIn r)))
    by apply parse_value_bool.
  rewrite (parse_members_comma _ _ _ (opt_string (cr_userId r)))
    by apply parse_otext.
  rewrite (parse_members_comma _ _ _ (JStr (cr_userName r)))
    by apply parse_value_string.
  rewrite (parse_members_comma _ _ _ (opt_string (cr_userImage r)))
    by apply parse_otext.
  rewrite (parse_members_brace _ _ _ (JNum (Dec (cr_lastSync r) 0)))
    by (apply parse_value_integer_app; exact Hlt).
  destruct r; reflexivity.
Qed.

(** * The auth state cache *)

Import AuthCache.

Lemma truthy_record_text (r : CacheRecord) :
  truthy (JSON_stringify (record_value r)) = true.
Proof. unfold JSON_stringify. rewrite record_text. reflexivity. Qed.

Lemma with_items_same (w : World) : with_items (ls_items w) w = w.
Proof. destruct w; reflexivity. Qed.

(** What [get] does, case by case. *)
Lemma get_cases (now : Z) (w : World) :
  get now w =
  if ls_disabled w then (Ok JNull, w)
  else
    match ls_items w !! STORAGE_KEY with
    | None => (Ok JNull, w)
    | Some s =>
        if String.eqb s "" then (Ok JNull, w)
        else
          match JSON_parse_text s with
          | None => (Ok JNull, purged w)
          | Some data =>
              match expired now data with
              | Ok false => (Ok data, w)
              | _ => (Ok JNull, purged w)
              end
          end
    end.
Proof.
  unfold get, try_catch, bind, localStorage_getItem, clear, try_catch,
    localStorage_removeItem, lift, ret, expired, purged.
  destruct (ls_disabled w) eqn:Hd; [rewrite Hd; reflexivity|].
  destruct (ls_items w !! STORAGE_KEY) as [s|]; [|reflexivity].
  cbn [truthy negb]. destruct (String.eqb s ""); [reflexivity|].
  cbn [negb JSON_parse ToString res_bind].
  destruct (JSON_parse_text s) as [data|]; [|rewrite Hd; reflexivity].
  destruct (get_prop data "lastSync") as [ls|e];
    [|cbn [res_bind]; rewrite Hd; reflexivity].
  cbn [res_bind].
  destruct (js_sub (num_of_Z now) ls) as [age|e];
    [|cbn [res_bind]; rewrite Hd; reflexivity].
  cbn [res_bind].
  destruct (num_gt age (num_of_Z CACHE_TTL)); [rewrite Hd|]; reflexivity.
Qed.

Lemma stringify_record (r : CacheRecord) :
  JSON_stringify (record_value r) = JStr (record_json r).
Proof.
  unfold JSON_stringify, record_json. rewrite record_text. reflexivity.
Qed.

Lemma record_json_nonempty (r : CacheRecord) :
  String.eqb (record_json r) "" = false.
Proof. unfold record_json. rewrite record_text. reflexivity. Qed.

Lemma parse_record_json (r : CacheRecord) :
  time_value (cr_lastSync r) ->
  JSON_parse_text (record_json r) = Some (record_value r).
Proof.
  intros Ht. pose proof (record_roundtrip r Ht) as H.
  rewrite stringify_record in H. unfold JSON_parse in H.
  cbn [ToString res_bind] in H.
  destruct (JSON_parse_text (record_json r)); congruence.
Qed.

(** On a record the expiry test compares the age with the TTL. *)
Lemma expired_record (now : Z) (r : CacheRecord) :
  time_value (cr_lastSync r) ->
  expired now (record_value r) = Ok (now - cr_lastSync r >? CACHE_TTL).
Proof.
  intros Ht.
  assert (Hlt : Z.abs (cr_lastSync r) <= 2 ^ 53).
  { unfold time_value in Ht.
    assert (8640000000000000 <= 2 ^ 53) by discriminate. lia. }
  unfold expired, record_value, js_sub.
  cbn [get_prop own_prop String.eqb Ascii.eqb Bool.eqb res_bind ToNumber].
  change (own_prop "lastSync" _)
    with (Some (JNum (num_of_Z (cr_lastSync r)))).
  cbn [res_bind ToNumber]. rewrite (num_of_Z_small _ Hlt).
  change (num_of_Z CACHE_TTL) with (Dec CACHE_TTL 0).
  rewrite age_test; [reflexivity | exact Ht |].
  unfold CACHE_TTL. lia.
Qed.

(** Reading a stored record. *)
Lemma get_record (now : Z) (w : World) (r : CacheRecord) :
  ls_disabled w = false ->
  ls_items w !! STORAGE_KEY = Some (record_json r) ->
  time_value (cr_lastSync r) ->
  get now w =
  if now - cr_lastSync r >? CACHE_TTL
  then (Ok JNull, purged w)
  else (Ok (record_value r), w).
Proof.
  intros Hd Hs Ht. rewrite get_cases, Hd, Hs, record_json_nonempty.
  rewrite parse_record_json by exact Ht. rewrite expired_record by exact Ht.
  destruct (now - cr_lastSync r >? CACHE_TTL); reflexivity.
Qed.

(** *** [set] *)

Lemma jor_undefined (d : jsval) : jor JUndefined d = d.
Proof. reflexivity. Qed.

Lemma jor_bool (b : bool) : jor (JBool b) (JBool false) = JBool b.
Proof. destruct b; reflexivity. Qed.

Lemma jor_string_null (s : string) :
  jor (JStr s) JNull = opt_string (nonempty (Some s)).
Proof. destruct s; reflexivity. Qed.

Lemma jor_string_empty (s : string) : jor (JStr s) (JStr "") = JStr s.
Proof. destruct s; reflexivity. Qed.

Lemma jor_opt_null (o : option string) :
  jor (opt_string o) JNull = opt_string (nonempty o).
Proof. destruct o as [[|c s]|]; reflexivity. Qed.

(** The object [set] builds from a partial state is the merged record. *)
Lemma set_data (p : PartialState) (now : Z) :
  exists li ui un uim,
    get_prop (state_value p) "isLoggedIn" = Ok li
    /\ get_prop (state_value p) "userId" = Ok ui
    /\ get_prop (state_value p) "userName" = Ok un
    /\ get_prop (state_value p) "userImage" = Ok uim
    /\ JObj [("isLoggedIn", jor li (JBool false));
             ("userId", jor ui JNull);
             ("userName", jor un (JStr ""));
             ("userImage", jor uim JNull);
             ("lastSync", JNum (num_of_Z now))]
       = record_value (merged p now).
Proof.
  exists (from_option JBool JUndefined (ps_isLoggedIn p)),
         (from_option JStr JUndefined (ps_userId p)),
         (from_option JStr JUndefined (ps_userName p)),
         (from_option JStr JUndefined (ps_userImage p)).
  destruct p as [[b|] [u|] [n|] [im|]];
    (split; [reflexivity|]); (split; [reflexivity|]);
    (split; [reflexivity|]); (split; [reflexivity|]);
    unfold record_value, merged;
    cbn [cr_isLoggedIn cr_userId cr_userName cr_userImage cr_lastSync
         ps_isLoggedIn ps_userId ps_userName ps_userImage default
         from_option];
    rewrite ?jor_undefined, ?jor_bool, ?jor_string_null, ?jor_string_empty;
    reflexivity.
Qed.

(** Writing a record-shaped object, when the storage takes it and when
    it does not. *)
Lemma set_object (state : jsval) (now : Z) (w : World) (r : CacheRecord)
      (li ui un uim : jsval) :
  get_prop state "isLoggedIn" = Ok li ->
  get_prop state "userId" = Ok ui ->
  get_prop state "userName" = Ok un ->
  get_prop state "userImage" = Ok uim ->
  JObj [("isLoggedIn", jor li (JBool false));
        ("userId", jor ui JNull);
        ("userName", jor un (JStr ""));
        ("userImage", jor uim JNull);
        ("lastSync", JNum (num_of_Z now))] = record_value r ->
  set state now w =
  if ls_disabled w || ls_full w
  then (Ok tt, with_console (console w ++ ["AuthCache: Unable to save state"]) w)
  else (Ok tt, with_items (<[STORAGE_KEY := record_json r]> (ls_items w)) w).
Proof.
  intros H1 H2 H3 H4 Hr.
  unfold set, try_catch, bind, lift. rewrite H1, H2, H3, H4, Hr.
  rewrite stringify_record. unfold localStorage_setItem, console_warn.
  cbn [ToString].
  destruct (ls_disabled w); [reflexivity|].
  destruct (ls_full w); reflexivity.
Qed.

Lemma set_partial (p : PartialState) (now : Z) (w : World) :
  set (state_value p) now w =
  if ls_disabled w || ls_full w
  then (Ok tt, with_console (console w ++ ["AuthCache: Unable to save state"]) w)
  else (Ok tt,
        with_items (<[STORAGE_KEY := record_json (merged p now)]> (ls_items w))
          w).
Proof.
  destruct (set_data p now) as (li & ui & un & uim & H1 & H2 & H3 & H4 & Hr).
  exact (set_object _ _ _ _ _ _ _ _ H1 H2 H3 H4 Hr).
Qed.

(** *** The account flag *)

Lemma hasAccount_cases (w : World) :
  hasAccount w =
  (Ok (negb (ls_disabled w)
       && bool_decide (ls_items w !! ACCOUNT_KEY = Some "true")), w).
Proof.
  unfold hasAccount, try_catch, bind, localStorage_getItem, ret.
  destruct (ls_disabled w); [reflexivity|].
  cbn [negb andb]. destruct (ls_items w !! ACCOUNT_KEY) as [s|] eqn:E.
  - cbn [strict_eq_str]. destruct (String.eqb_spec s "true") as [->|Hn].
    + rewrite bool_decide_eq_true_2; reflexivity.
    + rewrite bool_decide_eq_false_2; [reflexivity | congruence].
  - rewrite bool_decide_eq_false_2; [reflexivity | congruence].
Qed.

Lemma markHasAccount_cases (w : World) :
  markHasAccount w =
  if ls_disabled w || ls_full w
  then (Ok tt,
        with_console
          (console w ++ ["AuthCache: Unable to save account status"]) w)
  else (Ok tt, with_items (<[ACCOUNT_KEY := "true"]> (ls_items w)) w).
Proof.
  unfold markHasAccount, try_catch, localStorage_setItem, console_warn.
  cbn [ToString].
  destruct (ls_disabled w); [reflexivity|].
  destruct (ls_full w); reflexivity.
Qed.

Lemma clear_cases (w : World) :
  clear w = if ls_disabled w then (Ok tt, w) else (Ok tt, purged w).
Proof.
  unfold clear, try_catch, localStorage_removeItem, ret, purged.
  destruct (ls_disabled w); reflexivity.
Qed.

(** *** Reconciliation *)

Lemma jor_user_name (f g : option string) :
  jor (jor (jor (opt_string f) (opt_string g)) (JStr "User")) (JStr "")
  = JStr match nonempty f, nonempty g with
         | Some n, _ => n
         | None, Some n => n
         | None, None => "User"
         end.
Proof. destruct f as [[|a f]|], g as [[|b g]|]; reflexivity. Qed.

Lemma jor_image (o : option string) :
  jor (jor (opt_string o) JNull) JNull = opt_string (nonempty o).
Proof. destruct o as [[|a s]|]; reflexivity. Qed.

(** [syncWithClerk] with a user object: the flag, then the record. *)
Lemma sync_present (i : ExternalIdentity) (now : Z) (w : World) :
  syncWithClerk (identity_value i) now w =
  let w1 := snd (markHasAccount w) in
  if ls_disabled w1 || ls_full w1
  then (Ok tt,
        with_console (console w1 ++ ["AuthCache: Unable to save state"]) w1)
  else (Ok tt,
        with_items
          (<[STORAGE_KEY := record_json (identity_record i now)]> (ls_items w1))
          w1).
Proof.
  unfold syncWithClerk. cbn [identity_value truthy].
  unfold bind at 1. rewrite markHasAccount_cases.
  set (w1 := snd (if ls_disabled w || ls_full w then _ else _)).
  assert (Hw : (if ls_disabled w || ls_full w
                then (Ok tt,
                      with_console
                        (console w
                         ++ ["AuthCache: Unable to save account status"]) w)
                else (Ok tt,
                      with_items (<[ACCOUNT_KEY := "true"]> (ls_items w)) w))
               = (Ok tt, w1)).
  { subst w1. destruct (ls_disabled w || ls_full w); reflexivity. }
  rewrite Hw. cbv zeta.
  unfold bind, lift. cbn [get_prop own_prop String.eqb Ascii.eqb Bool.eqb].
  change (own_prop "id" _) with (Some (JStr (id_id i))).
  change (own_prop "fullName" _) with (Some (opt_string (id_fullName i))).
  change (own_prop "firstName" _) with (Some (opt_string (id_firstName i))).
  change (own_prop "imageUrl" _) with (Some (opt_string (id_imageUrl i))).
  cbv beta iota.
  apply (set_object _ now w1 (identity_record i now)
           (JBool true) (JStr (id_id i))
           (jor (jor (opt_string (id_fullName i))
                     (opt_string (id_firstName i))) (JStr "User"))
           (jor (opt_string (id_imageUrl i)) JNull));
    try reflexivity.
  unfold record_value, identity_record.
  cbn [cr_isLoggedIn cr_userId cr_userName cr_userImage cr_lastSync].
  rewrite jor_bool, jor_string_null, jor_user_name, jor_image. reflexivity.
Qed.

(** The record read back after a sign-in, property by property. *)
Lemma identity_record_value (i : ExternalIdentity) (now : Z) :
  time_value now ->
  record_value (identity_record i now)
  = JObj [("isLoggedIn", JBool true);
          ("userId", match id_id i with
                     | EmptyString => JNull
                     | String _ _ => JStr (id_id i)
                     end);
          ("userName", JStr match id_fullName i with
                            | Some (String c n) => String c n
                            | _ => match id_firstName i with
                                   | Some (String c n) => String c n
                                   | _ => "User"
                                   end
                            end);
          ("userImage", match id_imageUrl i with
                        | Some (String c u) => JStr (String c u)
                        | _ => JNull
                        end);
          ("lastSync", JNum (Dec now 0))].
Proof.
  intros Ht.
  assert (Hlt : Z.abs now <= 2 ^ 53).
  { unfold time_value in Ht.
    assert (8640000000000000 <= 2 ^ 53) by discriminate. lia. }
  unfold record_value, identity_record.
  cbn [cr_isLoggedIn cr_userId cr_userName cr_userImage cr_lastSync].
  rewrite (num_of_Z_small _ Hlt).
  destruct i as [[|c0 id] [[|c1 f]|] [[|c2 g]|] [[|c3 im]|]]; reflexivity.
Qed.

(** C1, as stated, fails: on a storage the browser has disabled
    [syncWithClerk] with a user object returns normally and
    [hasAccount()] still answers false; and on a working storage an
    identity whose id and image URL are empty strings is read back
    without [userId] and [userImage]. *)
Lemma reconcile_without_account_or_id :
  fst (syncWithClerk (identity_arg (Some sample_identity)) sample_time
         (disabled_page ∅)) = Ok tt
  /\ fst (hasAccount
            (snd (syncWithClerk (identity_arg (Some sample_identity))
                    sample_time (disabled_page ∅)))) = Ok false
  /\ fst (get sample_time
            (snd (syncWithClerk (identity_arg (Some nameless_identity))
                    sample_time (desktop_page ∅))))
     = Ok (JObj [("isLoggedIn", JBool true); ("userId", JNull);
                 ("userName", JStr "Ada"); ("userImage", JNull);
                 ("lastSync", JNum (Dec sample_time 0))]).
Proof. repeat split; vm_compute; reflexivity. Qed.

(** C1, amended. [syncWithClerk] with a user object always returns
    normally. On a storage that can be read and written, [hasAccount()]
    then returns true and a [get()] within the TTL returns the record
    with [isLoggedIn] true, the id as [userId] (null when the id is the
    empty string), the full name, else the first name, else "User" as
    [userName] (an empty name counting as missing), the image URL as
    [userImage] (null when missing or empty), and the time of the call
    as [lastSync]. On a storage that is disabled or full nothing is
    stored and [hasAccount()] answers as before. *)
Theorem reconcile_present_caches_identity
        (i : ExternalIdentity) (now now' : Z) (w : World) :
  fst (syncWithClerk (identity_arg (Some i)) now w) = Ok tt
  /\ (storage_ok w ->
      time_value now ->
      now' - now <= CACHE_TTL ->
      fst (hasAccount (snd (syncWithClerk (identity_arg (Some i)) now w)))
      = Ok true
      /\ fst (get now' (snd (syncWithClerk (identity_arg (Some i)) now w)))
         = Ok (JObj [("isLoggedIn", JBool true);
                     ("userId", match id_id i with
                                | EmptyString => JNull
                                | String _ _ => JStr (id_id i)
                                end);
                     ("userName",
                      JStr match id_fullName i with
                           | Some (String c n) => String c n
                           | _ => match id_firstName i with
                                  | Some (String c n) => String c n
                                  | _ => "User"
                                  end
                           end);
                     ("userImage", match id_imageUrl i with
                                   | Some (String c u) => JStr (String c u)
                                   | _ => JNull
                                   end);
                     ("lastSync", JNum (Dec now 0))]))
  /\ (ls_disabled w || ls_full w = true ->
      ls_items (snd (syncWithClerk (identity_arg (Some i)) now w))
      = ls_items w
      /\ fst (hasAccount (snd (syncWithClerk (identity_arg (Some i)) now w)))
         = fst (hasAccount w)).
Proof.
  cbn [identity_arg]. rewrite sync_present, markHasAccount_cases.
  split; [|split].
  - destruct (ls_disabled w || ls_full w); cbn [snd];
      change (ls_disabled (with_console ?c w)) with (ls_disabled w);
      change (ls_full (with_console ?c w)) with (ls_full w);
      change (ls_disabled (with_items ?m w)) with (ls_disabled w);
      change (ls_full (with_items ?m w)) with (ls_full w);
      destruct (ls_disabled w || ls_full w); reflexivity.
  - intros [Hd Hf] Ht Hage. rewrite Hd, Hf. cbn [orb snd].
    change (ls_disabled (with_items ?m w)) with (ls_disabled w).
    change (ls_full (with_items ?m w)) with (ls_full w).
    rewrite Hd, Hf. cbn [orb fst snd]. split.
    + rewrite hasAccount_cases. cbn [fst].
      change (ls_disabled (with_items ?m ?x)) with (ls_disabled x).
      change (ls_disabled (with_items ?m ?x)) with (ls_disabled x).
      rewrite Hd. cbn [negb andb].
      rewrite bool_decide_eq_true_2; [reflexivity|].
      cbn [ls_items with_items].
      rewrite lookup_insert_ne by discriminate. apply lookup_insert_eq.
    + rewrite (get_record now' _ (identity_record i now)).
      * cbn [cr_lastSync identity_record].
        destruct (Z.gtb_spec (now' - now) CACHE_TTL); [lia|].
        cbn [fst]. rewrite (identity_record_value i now Ht). reflexivity.
      * exact Hd.
      * cbn [ls_items with_items]. apply lookup_insert_eq.
      * exact Ht.
  - intros H. rewrite H. cbn [snd].
    change (ls_disabled (with_console ?c w)) with (ls_disabled w).
    change (ls_full (with_console ?c w)) with (ls_full w).
    rewrite H. cbn [snd]. split; [reflexivity|].
    rewrite !hasAccount_cases. reflexivity.
Qed.
Lemma reconcile_present_caches_identity_witness :
  fst (hasAccount
         (snd (syncWithClerk (identity_arg (Some sample_identity))
                 sample_time (desktop_page ∅)))) = Ok true
  /\ fst (get (sample_time + 60000)
            (snd (syncWithClerk (identity_arg (Some sample_identity))
                    sample_time (desktop_page ∅))))
     = Ok (JObj [("isLoggedIn", JBool true); ("userId", JStr "user_2aXk");
                 ("userName", JStr "Ada Lovelace");
                 ("userImage", JStr "https://img.example/ada.png");
                 ("lastSync", JNum (Dec sample_time 0))]).
Proof.
  apply (reconcile_present_caches_identity sample_identity sample_time
           (sample_time + 60000) (desktop_page ∅)).
  - split; reflexivity.
  - unfold time_value, sample_time. lia.
  - unfold CACHE_TTL, sample_time. lia.
Defined.

(** C2. For every prior storage state, after [syncWithClerk] with an
    absent identity, [get()] returns absent while [hasAccount()] answers
    as before: the flag entry is not touched. *)
Theorem reconcile_absent_keeps_flag (now now' : Z) (w : World) :
  fst (syncWithClerk (identity_arg None) now w) = Ok tt
  /\ fst (get now' (snd (syncWithClerk (identity_arg None) now w))) = Ok JNull
  /\ fst (hasAccount (snd (syncWithClerk (identity_arg None) now w)))
     = fst (hasAccount w)
  /\ ls_items (snd (syncWithClerk (identity_arg None) now w)) !! ACCOUNT_KEY
     = ls_items w !! ACCOUNT_KEY
  /\ fst (hasAccount
            (snd (get now' (snd (syncWithClerk (identity_arg None) now w)))))
     = fst (hasAccount w).
Proof.
  cbn [identity_arg]. unfold syncWithClerk. cbn [truthy].
  rewrite clear_cases.
  destruct (ls_disabled w) eqn:Hd; cbn [fst snd].
  - rewrite get_cases, Hd. cbn [fst snd]. repeat split; reflexivity.
  - assert (Hk : ls_items (purged w) !! STORAGE_KEY = None)
      by apply lookup_delete_eq.
    assert (Ha : ls_items (purged w) !! ACCOUNT_KEY = ls_items w !! ACCOUNT_KEY)
      by (apply lookup_delete_ne; discriminate).
    rewrite get_cases.
    change (ls_disabled (purged w)) with (ls_disabled w).
    rewrite Hd, Hk. cbn [fst snd].
    rewrite !hasAccount_cases. cbn [fst].
    change (ls_disabled (purged w)) with (ls_disabled w).
    rewrite Ha. repeat split; reflexivity.
Qed.

(** *** Reading *)





(** *** Writing *)

Lemma own_prop_app (k : string) (a b : list (string * jsval)) :
  own_prop k (a ++ b)
  = match own_prop k a with
    | Some v => Some v
    | None => own_prop k b
    end.
Proof.
  induction a as [|[k' v] a IH]; [reflexivity|].
  cbn [app own_prop]. destruct (String.eqb k k'); [reflexivity | exact IH].
Qed.

(** [set] reads the four fields and nothing else of its argument. *)
Lemma set_ignores_extra
      (p : PartialState) (extra : list (string * jsval)) (now : Z)
      (w : World) :
  (forall k : string,
      In k ["isLoggedIn"; "userId"; "userName"; "userImage"] ->
      own_prop k extra = None) ->
  set (state_object p extra) now w = set (state_value p) now w.
Proof.
  intros H.
  assert (Hp : forall k : string,
             In k ["isLoggedIn"; "userId"; "userName"; "userImage"] ->
             get_prop (state_object p extra) k = get_prop (state_value p) k).
  { intros k Hk. unfold state_object, state_value, get_prop.
    rewrite !own_prop_app, (H k Hk).
    destruct (own_prop k (field "isLoggedIn" JBool (ps_isLoggedIn p)));
      [reflexivity|].
    destruct (own_prop k (field "userId" JStr (ps_userId p)));
      [reflexivity|].
    destruct (own_prop k (field "userName" JStr (ps_userName p)));
      [reflexivity|].
    destruct (own_prop k (field "userImage" JStr (ps_userImage p)));
      reflexivity. }
  unfold set, try_catch, bind, lift.
  rewrite !Hp by (cbn; tauto). reflexivity.
Qed.

(** C5, as stated, fails: an empty [userId] handed to [set] is not read
    back as supplied; the record read back holds no [userId] at all. *)
Lemma set_drops_empty_user_id :
  fst (get sample_time
         (snd (set (state_value
                      {| ps_isLoggedIn := Some true; ps_userId := Some "";
                         ps_userName := Some "Ada"; ps_userImage := None |})
                   sample_time (desktop_page ∅))))
  = Ok (JObj [("isLoggedIn", JBool true); ("userId", JNull);
              ("userName", JStr "Ada"); ("userImage", JNull);
              ("lastSync", JNum (Dec sample_time 0))])
  /\ record_value
       (merged_spec
          {| ps_isLoggedIn := Some true; ps_userId := Some "";
             ps_userName := Some "Ada"; ps_userImage := None |} sample_time)
     = JObj [("isLoggedIn", JBool true); ("userId", JStr "");
             ("userName", JStr "Ada"); ("userImage", JNull);
             ("lastSync", JNum (Dec sample_time 0))].
Proof. split; vm_compute; reflexivity. Qed.

(** C5, amended. For every partial state written via [set] on a storage
    that can be read and written, whatever further properties the state
    object carries, a [lastSync] of the caller's among them, a [get()]
    within the TTL returns the record whose fields are the supplied ones
    merged over the defaults [isLoggedIn=false], [userId] absent,
    [userName] empty, [userImage] absent, where an empty [userId] or
    [userImage] counts as not supplied, and whose [lastSync] is the time
    of the write, never a value of the caller's. When neither [userId]
    nor [userImage] is supplied empty, this is the merge as the
    specification words it. *)
Theorem set_then_get
        (p : PartialState) (extra : list (string * jsval)) (now now' : Z)
        (w : World) :
  storage_ok w ->
  time_value now ->
  now' - now <= CACHE_TTL ->
  (forall k : string,
      In k ["isLoggedIn"; "userId"; "userName"; "userImage"] ->
      own_prop k extra = None) ->
  fst (set (state_object p extra) now w) = Ok tt
  /\ fst (get now' (snd (set (state_object p extra) now w)))
     = Ok (JObj [("isLoggedIn",
                  JBool match ps_isLoggedIn p with
                        | Some b => b
                        | None => false
                        end);
                 ("userId", match ps_userId p with
                            | Some (String c u) => JStr (String c u)
                            | _ => JNull
                            end);
                 ("userName",
                  JStr match ps_userName p with
                       | Some n => n
                       | None => ""
                       end);
                 ("userImage", match ps_userImage p with
                               | Some (String c u) => JStr (String c u)
                               | _ => JNull
                               end);
                 ("lastSync", JNum (Dec now 0))])
  /\ (ps_userId p <> Some "" -> ps_userImage p <> Some "" ->
      fst (get now' (snd (set (state_object p extra) now w)))
      = Ok (record_value (merged_spec p now))).
Proof.
  intros [Hd Hf] Ht Hage Hextra.
  assert (Hlt : Z.abs now <= 2 ^ 53).
  { unfold time_value in Ht.
    assert (8640000000000000 <= 2 ^ 53) by discriminate. lia. }
  rewrite (set_ignores_extra p extra now w Hextra).
  rewrite set_partial, Hd, Hf. cbn [orb fst snd].
  assert (Hg : fst (get now'
                      (with_items
                         (<[STORAGE_KEY := record_json (merged p now)]>
                            (ls_items w)) w))
               = Ok (record_value (merged p now))).
  { rewrite (get_record now' _ (merged p now)).
    - cbn [cr_lastSync merged].
      destruct (Z.gtb_spec (now' - now) CACHE_TTL); [lia | reflexivity].
    - exact Hd.
    - apply lookup_insert_eq.
    - exact Ht. }
  rewrite Hg. split; [reflexivity|]. split.
  - unfold record_value, merged.
    cbn [cr_isLoggedIn cr_userId cr_userName cr_userImage cr_lastSync].
    rewrite (num_of_Z_small _ Hlt).
    destruct p as [[b|] [[|c u]|] [n|] [[|c' im]|]]; reflexivity.
  - intros Hu Hi. unfold merged, merged_spec.
    destruct p as [b [[|c u]|] n [[|c' im]|]]; cbn in *; congruence.
Qed.

Lemma set_then_get_witness :
  fst (set (state_object sample_state sample_extra) sample_time
         (desktop_page ∅)) = Ok tt
  /\ fst (get (sample_time + CACHE_TTL)
            (snd (set (state_object sample_state sample_extra) sample_time
                    (desktop_page ∅))))
     = Ok (JObj [("isLoggedIn", JBool true); ("userId", JStr "user_2aXk");
                 ("userName", JStr ""); ("userImage", JNull);
                 ("lastSync", JNum (Dec sample_time 0))])
  /\ (ps_userId sample_state <> Some "" ->
      ps_userImage sample_state <> Some "" ->
      fst (get (sample_time + CACHE_TTL)
             (snd (set (state_object sample_state sample_extra) sample_time
                     (desktop_page ∅))))
      = Ok (record_value (merged_spec sample_state sample_time))).
Proof.
  apply (set_then_get sample_state sample_extra sample_time
           (sample_time + CACHE_TTL) (desktop_page ∅)).
  - split; reflexivity.
  - unfold time_value, sample_time. lia.
  - lia.
  - intros k Hk. cbn in Hk.
    repeat (destruct Hk as [<-|Hk]; [reflexivity|]). contradiction.
Defined.

(** *** What the operations keep *)

Section Keeps.
Variable P : World -> Prop.

Lemma keeps_ret {A : Type} (a : A) : keeps P (ret a).
Proof. intros w H. exact H. Qed.

Lemma keeps_throw {A : Type} (e : exn) : keeps P (@throw A e).
Proof. intros w H. exact H. Qed.

Lemma keeps_lift {A : Type} (r : res A) : keeps P (lift r).
Proof. intros w H. exact H. Qed.

Lemma keeps_bind {A B : Type} (m : JS A) (k : A -> JS B) :
  keeps P m -> (forall a, keeps P (k a)) -> keeps P (bind m k).
Proof.
  intros Hm Hk w H. unfold bind. specialize (Hm w H).
  destruct (m w) as [[a|e] w']; cbn [snd] in *; [apply Hk, Hm | exact Hm].
Qed.

Lemma keeps_try_catch {A : Type} (m : JS A) (h : exn -> JS A) :
  keeps P m -> (forall e, keeps P (h e)) -> keeps P (try_catch m h).
Proof.
  intros Hm Hh w H. unfold try_catch. specialize (Hm w H).
  destruct (m w) as [[a|e] w']; cbn [snd] in *; [exact Hm | apply Hh, Hm].
Qed.
End Keeps.

Ltac keeps_step :=
  match goal with
  | |- keeps _ (bind _ _) => apply keeps_bind; [|intros ?]
  | |- keeps _ (try_catch _ _) => apply keeps_try_catch; [|intros ?]
  | |- keeps _ (ret _) => apply keeps_ret
  | |- keeps _ (throw _) => apply keeps_throw
  | |- keeps _ (lift _) => apply keeps_lift
  | |- keeps _ (if ?b then _ else _) => destruct b
  | |- keeps _ (match ?x with _ => _ end) => destruct x
  | |- keeps _ _ => assumption
  end.

Create HintDb flag.

(** The flag survives every operation of the cache. *)
Section FlagKept.

Lemma flag_getItem (k : string) : keeps flag_set (localStorage_getItem k).
Proof.
  intros w H. unfold localStorage_getItem.
  destruct (ls_disabled w); exact H.
Qed.

Lemma flag_removeItem_cache :
  keeps flag_set (localStorage_removeItem STORAGE_KEY).
Proof.
  intros w [Hd Hf]. unfold localStorage_removeItem. rewrite Hd.
  split; [exact Hd|]. cbn [snd ls_items with_items].
  rewrite lookup_delete_ne by discriminate. exact Hf.
Qed.

Lemma flag_setItem_cache (v : jsval) :
  keeps flag_set (localStorage_setItem STORAGE_KEY v).
Proof.
  intros w [Hd Hf]. unfold localStorage_setItem.
  destruct (ToString v); [|split; assumption].
  rewrite Hd. destruct (ls_full w); [split; assumption|].
  split; [exact Hd|]. cbn [snd ls_items with_items].
  rewrite lookup_insert_ne by discriminate. exact Hf.
Qed.

Lemma flag_setItem_flag :
  keeps flag_set (localStorage_setItem ACCOUNT_KEY (JStr "true")).
Proof.
  intros w [Hd Hf]. unfold localStorage_setItem. cbn [ToString].
  rewrite Hd. destruct (ls_full w); [split; assumption|].
  split; [exact Hd|]. cbn [snd ls_items with_items].
  apply lookup_insert_eq.
Qed.

Lemma flag_console_warn (msg : string) : keeps flag_set (console_warn msg).
Proof. intros w H. exact H. Qed.

Lemma flag_emit (e : Event) : keeps flag_set (emit e).
Proof. intros w H. exact H. Qed.

Hint Resolve flag_getItem flag_removeItem_cache flag_setItem_cache
     flag_setItem_flag flag_console_warn flag_emit : flag.

Ltac flag_tac := repeat first [keeps_step | solve [auto with flag]].

Lemma flag_clear : keeps flag_set clear.
Proof. unfold clear. flag_tac. Qed.
Hint Resolve flag_clear : flag.

Lemma flag_get (now : Z) : keeps flag_set (get now).
Proof. unfold get. flag_tac. Qed.
Hint Resolve flag_get : flag.

Lemma flag_set_kept (state : jsval) (now : Z) :
  keeps flag_set (set state now).
Proof. unfold set. flag_tac. Qed.
Hint Resolve flag_set_kept : flag.

Lemma flag_isLoggedIn (now : Z) : keeps flag_set (isLoggedIn now).
Proof. unfold isLoggedIn. flag_tac. Qed.

Lemma flag_getUserId (now : Z) : keeps flag_set (getUserId now).
Proof. unfold getUserId. flag_tac. Qed.

Lemma flag_markHasAccount : keeps flag_set markHasAccount.
Proof. unfold markHasAccount. flag_tac. Qed.
Hint Resolve flag_markHasAccount : flag.

Lemma flag_hasAccount : keeps flag_set hasAccount.
Proof. unfold hasAccount. flag_tac. Qed.
Hint Resolve flag_hasAccount : flag.

Lemma flag_syncWithClerk (u : jsval) (now : Z) :
  keeps flag_set (syncWithClerk u now).
Proof. unfold syncWithClerk. flag_tac. Qed.

Lemma flag_renderOptimisticUI (c : option Element) (now : Z) :
  keeps flag_set (renderOptimisticUI c now).
Proof. unfold renderOptimisticUI. flag_tac. Qed.

Lemma flag_run_op (op : CacheOp) (w : World) :
  flag_set w -> flag_set (run_op op w).
Proof.
  destruct op; cbn [run_op].
  - apply flag_get.
  - apply flag_set_kept.
  - apply flag_clear.
  - apply flag_isLoggedIn.
  - apply flag_getUserId.
  - apply flag_syncWithClerk.
  - apply flag_markHasAccount.
  - apply flag_hasAccount.
  - apply flag_renderOptimisticUI.
Qed.

Lemma flag_run_ops (ops : list CacheOp) (w : World) :
  flag_set w -> flag_set (run_ops ops w).
Proof.
  revert w. induction ops as [|op ops IH]; intros w H; [exact H|].
  cbn [run_ops fold_left]. apply IH, flag_run_op, H.
Qed.

End FlagKept.

Lemma hasAccount_true_iff (w : World) :
  fst (hasAccount w) = Ok true <-> flag_set w.
Proof.
  rewrite hasAccount_cases. cbn [fst]. unfold flag_set. split.
  - intros H. injection H as H. apply andb_true_iff in H as [H1 H2].
    apply negb_true_iff in H1. apply bool_decide_eq_true in H2.
    split; assumption.
  - intros [H1 H2]. rewrite H1. cbn [negb andb].
    rewrite bool_decide_eq_true_2; [reflexivity | exact H2].
Qed.

Lemma run_ops_app (a b : list CacheOp) (w : World) :
  run_ops (a ++ b) w = run_ops b (run_ops a w).
Proof. unfold run_ops. apply fold_left_app. Qed.

(** C3. The account flag is monotonic: in every sequence of cache
    operations, once [hasAccount()] has returned true, it returns true
    after every later operation. *)
Theorem hasAccount_monotonic (before after : list CacheOp) (w : World) :
  fst (hasAccount (run_ops before w)) = Ok true ->
  fst (hasAccount (run_ops (before ++ after) w)) = Ok true.
Proof.
  intros H. rewrite run_ops_app. apply hasAccount_true_iff.
  apply flag_run_ops, hasAccount_true_iff, H.
Qed.

Lemma hasAccount_monotonic_witness :
  fst (hasAccount
         (run_ops ([OpSync (identity_arg (Some sample_identity)) sample_time]
                   ++ [OpSync (identity_arg None) (sample_time + 5000);
                       OpClear;
                       OpGet (sample_time + 2 * CACHE_TTL);
                       OpRender None sample_time])
            (desktop_page ∅))) = Ok true.
Proof.
  apply (hasAccount_monotonic
           [OpSync (identity_arg (Some sample_identity)) sample_time]).
  vm_compute. reflexivity.
Defined.

(** *** Rendering *)

Lemma hasAccount_value (w : World) : hasAccount w = (Ok (has_account w), w).
Proof. apply hasAccount_cases. Qed.

Lemma has_signin_action (a : bool) (el : Element) :
  has_optimistic_signin
    (set_innerHTML (action_button_html (button_icon a) (button_text a)) el)
  = true.
Proof. destruct a; vm_compute; reflexivity. Qed.

Lemma get_prop_truthy (v : jsval) (k : string) :
  truthy v = true -> get_prop v k = Ok (prop v k).
Proof. destruct v; try discriminate; reflexivity. Qed.

(** What [renderOptimisticUI] does on a present container, from the
    value [get] returned. *)
Lemma render_cases (el : Element) (now : Z) (w w1 : World) (cached : jsval) :
  get now w = (Ok cached, w1) ->
  renderOptimisticUI (Some el) now w =
  match branch_of cached with
  | SignedIn =>
      if truthy (prop cached "userImage")
      then match ToString (prop cached "userImage") with
           | Ok src =>
               (Ok (true,
                    Some (set_innerHTML (signed_in_html (avatar_img src)) el)),
                w1)
           | Throw e => (Throw e, w1)
           end
      else (Ok (true,
                Some (set_innerHTML (signed_in_html avatar_placeholder) el)),
            w1)
  | Loading =>
      (Ok (true,
           Some (set_innerHTML
                   (loading_button_html (button_text (has_account w1))) el)),
       w1)
  | Action =>
      (Ok (true,
           Some {| innerHTML :=
                     action_button_html (button_icon (has_account w1))
                       (button_text (has_account w1));
                   signin_onclick := Some DeferredAuth |}),
       w1)
  end.
Proof.
  intros Hg. unfold renderOptimisticUI, branch_of.
  unfold bind at 1. rewrite Hg.
  destruct (truthy cached) eqn:Htc.
  - unfold bind at 1. unfold bind at 1. unfold lift at 1.
    rewrite (get_prop_truthy _ _ Htc). unfold ret at 1. cbn [andb].
    destruct (truthy (prop cached "isLoggedIn")) eqn:Hl.
    + unfold bind at 1. unfold lift at 1.
      rewrite (get_prop_truthy _ _ Htc).
      destruct (truthy (prop cached "userImage")).
      * unfold bind at 1. unfold bind at 1. unfold lift at 1.
        destruct (ToString (prop cached "userImage")); reflexivity.
      * reflexivity.
    + destruct cached; try discriminate Htc;
        unfold bind; rewrite !hasAccount_value;
        fold (button_text (has_account w1));
        fold (button_icon (has_account w1));
        rewrite has_signin_action; reflexivity.
  - cbn [andb]. unfold bind at 1, ret at 1.
    destruct cached; try discriminate Htc;
      unfold bind; rewrite !hasAccount_value;
      fold (button_text (has_account w1));
      fold (button_icon (has_account w1));
      rewrite ?has_signin_action; try reflexivity.
Qed.

Lemma get_returns (now : Z) (w : World) :
  exists cached : jsval, get now w = (Ok cached, snd (get now w)).
Proof.
  rewrite get_cases.
  destruct (ls_disabled w); [eexists; reflexivity|].
  destruct (ls_items w !! STORAGE_KEY) as [s|]; [|eexists; reflexivity].
  destruct (String.eqb s ""); [eexists; reflexivity|].
  destruct (JSON_parse_text s) as [data|]; [|eexists; reflexivity].
  destruct (expired now data) as [[|]|]; eexists; reflexivity.
Qed.

Lemma branch_of_record (r : CacheRecord) :
  branch_of (record_value r) = if cr_isLoggedIn r then SignedIn else Action.
Proof. destruct r as [[|] ? ? ? ?]; reflexivity. Qed.

Lemma record_image (r : CacheRecord) :
  prop (record_value r) "userImage" = opt_string (cr_userImage r).
Proof. reflexivity. Qed.

(** The signed-in markup with an image, as the source has it. *)
Lemma signed_in_html_img (url : string) :
  signed_in_html (avatar_img url)
  = newline +:+ "                <a href=" +:+ quot +:+ "/dashboard" +:+ quot
    +:+ " class=" +:+ quot +:+ "nav-link" +:+ quot +:+ ">Dashboard</a>"
    +:+ newline +:+ "                <div class=" +:+ quot +:+ "auth-loading"
    +:+ quot +:+ " style=" +:+ quot
    +:+ "display: inline-flex; align-items: center; gap: 0.5rem; padding: 0.5rem; border-radius: 50%; background: var(--bg-tertiary, #1a1a2e); min-width: 32px; min-height: 32px; justify-content: center;"
    +:+ quot +:+ ">" +:+ newline +:+ "                    " +:+ "<img src="
    +:+ quot +:+ url +:+ quot +:+ " alt=" +:+ quot +:+ quot +:+ " style="
    +:+ quot
    +:+ "width: 32px; height: 32px; border-radius: 50%; object-fit: cover;"
    +:+ quot +:+ ">" +:+ newline +:+ "                </div>" +:+ newline
    +:+ "            ".
Proof.
  unfold signed_in_html, avatar_img, attr, nl, dq, indent.
  rewrite !append_assoc. reflexivity.
Qed.

(** C6. The render decision is a three-state function of the value
    [get()] returned and of [hasAccount()]. A record with [isLoggedIn]
    true yields the signed-in markup: the link to the dashboard and,
    in the avatar box, the image whose source is the [userImage] when
    the record holds a non-empty one and the [fa-user] placeholder glyph
    otherwise; no handler is bound. An absent record yields the button
    of id [optimistic-signin] styled with [opacity: 0.7], with the
    spinner glyph and the label "Sign In" when [hasAccount()] is true
    and "Sign Up" otherwise; no handler is bound. A record with
    [isLoggedIn] false yields the button of the same id without that
    style, with the glyph [fa-sign-in-alt] or [fa-user-plus] and the
    same label, and the deferred click handler bound to it. *)
Theorem render_decision (el : Element) (now : Z) (w : World) :
  (forall r : CacheRecord,
      fst (get now w) = Ok (record_value r) ->
      cr_isLoggedIn r = true ->
      renderOptimisticUI (Some el) now w =
      (Ok (true,
           Some {| innerHTML :=
                     newline +:+ "                <a href=" +:+ quot
                     +:+ "/dashboard" +:+ quot +:+ " class=" +:+ quot
                     +:+ "nav-link" +:+ quot +:+ ">Dashboard</a>" +:+ newline
                     +:+ "                <div class=" +:+ quot
                     +:+ "auth-loading" +:+ quot +:+ " style=" +:+ quot
                     +:+ "display: inline-flex; align-items: center; gap: 0.5rem; padding: 0.5rem; border-radius: 50%; background: var(--bg-tertiary, #1a1a2e); min-width: 32px; min-height: 32px; justify-content: center;"
                     +:+ quot +:+ ">" +:+ newline +:+ "                    "
                     +:+ (match cr_userImage r with
                          | Some (String c u) =>
                              "<img src=" +:+ quot +:+ String c u +:+ quot
                              +:+ " alt=" +:+ quot +:+ quot +:+ " style="
                              +:+ quot
                              +:+ "width: 32px; height: 32px; border-radius: 50%; object-fit: cover;"
                              +:+ quot +:+ ">"
                          | _ =>
                              "<i class=" +:+ quot +:+ "fas fa-user" +:+ quot
                              +:+ " style=" +:+ quot
                              +:+ "color: var(--text-secondary, #888);"
                              +:+ quot +:+ "></i>"
                          end)
                     +:+ newline +:+ "                </div>" +:+ newline
                     +:+ "            ";
                   signin_onclick := None |}),
       snd (get now w)))
  /\ (fst (get now w) = Ok JNull ->
      renderOptimisticUI (Some el) now w =
      (Ok (true,
           Some {| innerHTML :=
                     newline +:+ "        <button class=" +:+ quot
                     +:+ "btn btn-primary" +:+ quot +:+ " id=" +:+ quot
                     +:+ "optimistic-signin" +:+ quot +:+ " style=" +:+ quot
                     +:+ "opacity: 0.7;" +:+ quot +:+ ">" +:+ newline
                     +:+ "            <i class=" +:+ quot
                     +:+ "fas fa-spinner fa-spin" +:+ quot +:+ "></i> "
                     +:+ (if has_account (snd (get now w)) then "Sign In" else "Sign Up")
                     +:+ newline +:+ "        </button>" +:+ newline
                     +:+ "    ";
                   signin_onclick := None |}),
       snd (get now w)))
  /\ (forall r : CacheRecord,
      fst (get now w) = Ok (record_value r) ->
      cr_isLoggedIn r = false ->
      renderOptimisticUI (Some el) now w =
      (Ok (true,
           Some {| innerHTML :=
                     newline +:+ "        <button class=" +:+ quot
                     +:+ "btn btn-primary" +:+ quot +:+ " id=" +:+ quot
                     +:+ "optimistic-signin" +:+ quot +:+ ">" +:+ newline
                     +:+ "            <i class=" +:+ quot +:+ "fas "
                     +:+ (if has_account (snd (get now w))
                       then "fa-sign-in-alt" else "fa-user-plus")
                     +:+ quot +:+ "></i> "
                     +:+ (if has_account (snd (get now w)) then "Sign In" else "Sign Up")
                     +:+ newline +:+ "        </button>" +:+ newline
                     +:+ "    ";
                   signin_onclick := Some DeferredAuth |}),
       snd (get now w)))
  /\ fst (hasAccount (snd (get now w))) = Ok (has_account (snd (get now w))).
Proof.
  destruct (get_returns now w) as [cached Hg].
  rewrite (render_cases el now w _ cached Hg).
  rewrite Hg. cbn [fst]. rewrite hasAccount_value. cbn [fst].
  repeat split.
  - intros r Hc Hl. injection Hc as ->.
    rewrite branch_of_record, Hl, record_image.
    destruct (cr_userImage r) as [[|c u]|];
      cbn [opt_string truthy negb String.eqb ToString];
      rewrite ?signed_in_html_img, ?append_assoc; reflexivity.
  - intros Hc. injection Hc as ->.
    destruct (has_account (snd (get now w))); reflexivity.
  - intros r Hc Hl. injection Hc as ->.
    rewrite branch_of_record, Hl. cbn [snd].
    destruct (has_account (snd (get now w))); reflexivity.
Qed.

Lemma render_decision_witness :
  renderOptimisticUI (Some empty_element) (sample_time + 60000)
    (desktop_page {[STORAGE_KEY := record_json signed_in_record]})
  = (Ok (true,
         Some {| innerHTML :=
                     newline +:+ "                <a href=" +:+ quot
                     +:+ "/dashboard" +:+ quot +:+ " class=" +:+ quot
                     +:+ "nav-link" +:+ quot +:+ ">Dashboard</a>" +:+ newline
                     +:+ "                <div class=" +:+ quot
                     +:+ "auth-loading" +:+ quot +:+ " style=" +:+ quot
                     +:+ "display: inline-flex; align-items: center; gap: 0.5rem; padding: 0.5rem; border-radius: 50%; background: var(--bg-tertiary, #1a1a2e); min-width: 32px; min-height: 32px; justify-content: center;"
                     +:+ quot +:+ ">" +:+ newline +:+ "                    "
                     +:+ "<img src=" +:+ quot
                     +:+ "https://img.example/ada.png" +:+ quot +:+ " alt="
                     +:+ quot +:+ quot +:+ " style=" +:+ quot
                     +:+ "width: 32px; height: 32px; border-radius: 50%; object-fit: cover;"
                     +:+ quot +:+ ">" +:+ newline +:+ "                </div>"
                     +:+ newline +:+ "            ";
                 signin_onclick := None |}),
     desktop_page {[STORAGE_KEY := record_json signed_in_record]})
  /\ renderOptimisticUI (Some empty_element) sample_time (desktop_page ∅)
     = (Ok (true,
            Some {| innerHTML :=
                     newline +:+ "        <button class=" +:+ quot
                     +:+ "btn btn-primary" +:+ quot +:+ " id=" +:+ quot
                     +:+ "optimistic-signin" +:+ quot +:+ " style=" +:+ quot
                     +:+ "opacity: 0.7;" +:+ quot +:+ ">" +:+ newline
                     +:+ "            <i class=" +:+ quot
                     +:+ "fas fa-spinner fa-spin" +:+ quot +:+ "></i> "
                     +:+ "Sign Up" +:+ newline +:+ "        </button>"
                     +:+ newline +:+ "    ";
                    signin_onclick := None |}),
        desktop_page ∅)
  /\ renderOptimisticUI (Some empty_element) (sample_time + 60000)
       (desktop_page {[STORAGE_KEY := record_json signed_out_record;
                       ACCOUNT_KEY := "true"]})
     = (Ok (true,
            Some {| innerHTML :=
                     newline +:+ "        <button class=" +:+ quot
                     +:+ "btn btn-primary" +:+ quot +:+ " id=" +:+ quot
                     +:+ "optimistic-signin" +:+ quot +:+ ">" +:+ newline
                     +:+ "            <i class=" +:+ quot +:+ "fas "
                     +:+ "fa-sign-in-alt" +:+ quot +:+ "></i> " +:+ "Sign In"
                     +:+ newline +:+ "        </button>" +:+ newline
                     +:+ "    ";
                    signin_onclick := Some DeferredAuth |}),
        desktop_page {[STORAGE_KEY := record_json signed_out_record;
                       ACCOUNT_KEY := "true"]}).
Proof.
  split; [|split].
  - destruct (render_decision empty_element (sample_time + 60000)
                (desktop_page {[STORAGE_KEY := record_json signed_in_record]}))
      as (H & _).
    rewrite (H signed_in_record); vm_compute; reflexivity.
  - destruct (render_decision empty_element sample_time (desktop_page ∅))
      as (_ & H & _).
    rewrite H; vm_compute; reflexivity.
  - destruct (render_decision empty_element (sample_time + 60000)
                (desktop_page {[STORAGE_KEY := record_json signed_out_record;
                                ACCOUNT_KEY := "true"]}))
      as (_ & _ & H & _).
    rewrite (H signed_out_record); vm_compute; reflexivity.
Defined.

(** C10, as stated, fails: with a container present, a cached value that
    is logged in and whose [userImage] is an object hiding [toString]
    makes the call raise a TypeError instead of returning true. *)
Lemma render_raises_on_unprintable_image :
  JSON_parse_text (default "" (json_text unprintable_image))
  = Some unprintable_image
  /\ fst (renderOptimisticUI (Some empty_element) sample_time
            (desktop_page
               {[STORAGE_KEY := default "" (json_text unprintable_image)]}))
     = Throw TypeError.
Proof. split; vm_compute; reflexivity. Qed.

Lemma signed_in_html_nonempty (a : string) :
  String.eqb (signed_in_html a) "" = false.
Proof. reflexivity. Qed.

Lemma loading_button_html_nonempty (t : string) :
  String.eqb (loading_button_html t) "" = false.
Proof. reflexivity. Qed.

Lemma action_button_html_nonempty (i t : string) :
  String.eqb (action_button_html i t) "" = false.
Proof. reflexivity. Qed.

(** C10, amended. With the container absent [renderOptimisticUI] returns
    false and changes nothing. With a container present it leaves the
    storage as [get()] does and, by the one branch that applies to the
    cached value, either replaces the contents with the non-empty markup
    of that branch and returns true, or, in the signed-in branch only and
    only when the cached [userImage] cannot be converted to a string,
    raises that conversion's exception. *)
Theorem render_total (now : Z) (w : World) :
  renderOptimisticUI None now w = (Ok (false, None), w)
  /\ forall el : Element,
      snd (renderOptimisticUI (Some el) now w) = snd (get now w)
      /\ exists cached : jsval,
          fst (get now w) = Ok cached
          /\ ((exists html handler,
                  fst (renderOptimisticUI (Some el) now w)
                  = Ok (true,
                        Some {| innerHTML := html;
                                signin_onclick := handler |})
                  /\ String.eqb html "" = false
                  /\ match branch_of cached with
                     | SignedIn =>
                         (exists avatar, html = signed_in_html avatar)
                         /\ handler = None
                     | Loading =>
                         html = loading_button_html
                                  (button_text (has_account (snd (get now w))))
                         /\ handler = None
                     | Action =>
                         html = action_button_html
                                  (button_icon (has_account (snd (get now w))))
                                  (button_text (has_account (snd (get now w))))
                         /\ handler = Some DeferredAuth
                     end)
              \/ (exists e : exn,
                     fst (renderOptimisticUI (Some el) now w) = Throw e
                     /\ branch_of cached = SignedIn
                     /\ truthy (prop cached "userImage") = true
                     /\ ToString (prop cached "userImage") = Throw e)).
Proof.
  split; [reflexivity|]. intros el.
  destruct (get_returns now w) as [cached Hg].
  rewrite (render_cases el now w _ cached Hg).
  rewrite Hg. cbn [fst].
  destruct (branch_of cached) eqn:Hb.
  - destruct (truthy (prop cached "userImage")) eqn:Hi.
    + destruct (ToString (prop cached "userImage")) as [src|e] eqn:Hs.
      * split; [reflexivity|]. exists cached. split; [reflexivity|].
        left. do 2 eexists. split; [reflexivity|].
        split; [apply signed_in_html_nonempty|].
        rewrite Hb. split; [eexists|]; reflexivity.
      * split; [reflexivity|]. exists cached. split; [reflexivity|].
        right. exists e. repeat split; assumption.
    + split; [reflexivity|]. exists cached. split; [reflexivity|].
      left. do 2 eexists. split; [reflexivity|].
      split; [apply signed_in_html_nonempty|].
      rewrite Hb. split; [eexists|]; reflexivity.
  - split; [reflexivity|]. exists cached. split; [reflexivity|].
    left. do 2 eexists. split; [reflexivity|].
    split; [apply loading_button_html_nonempty|].
    rewrite Hb. split; reflexivity.
  - split; [reflexivity|]. exists cached. split; [reflexivity|].
    left. do 2 eexists. split; [reflexivity|].
    split; [apply action_button_html_nonempty|].
    rewrite Hb. split; reflexivity.
Qed.

(** * The in-app browser detector *)

Import BrowserDetect.

(** *** Substrings *)

Lemma starts_with_spec (p s : string) :
  starts_with p s = true <-> exists b, s = p +:+ b.
Proof.
  revert s. induction p as [|a p IH]; intros s; cbn [starts_with].
  - split; [intros _; exists s; reflexivity | reflexivity].
  - destruct s as [|c s].
    + split; [discriminate | intros [b Hb]; discriminate].
    + rewrite andb_true_iff, IH. split.
      * intros [Hac [b ->]]. apply Ascii.eqb_eq in Hac as ->.
        exists b. reflexivity.
      * intros [b Hb]. cbn [String.append] in Hb. injection Hb as -> ->.
        split; [apply Ascii.eqb_refl | exists b; reflexivity].
Qed.

Lemma includes_spec (s p : string) :
  includes s p = true <-> substring p s.
Proof.
  unfold substring. induction s as [|c s IH].
  - cbn [includes]. rewrite orb_false_r, starts_with_spec. split.
    + intros [b Hb]. exists EmptyString, b. exact Hb.
    + intros [a [b Hb]]. destruct a; [exists b; exact Hb | discriminate].
  - cbn [includes]. rewrite orb_true_iff, starts_with_spec, IH. split.
    + intros [[b Hb] | [a [b Hb]]].
      * exists EmptyString, b. exact Hb.
      * exists (String c a), b. cbn [String.append]. now rewrite Hb.
    + intros [a [b Hb]]. destruct a as [|c' a].
      * left. exists b. exact Hb.
      * right. cbn [String.append] in Hb. injection Hb as -> ->.
        exists a, b. reflexivity.
Qed.

Lemma includes_false (s p : string) :
  includes s p = false <-> ~ substring p s.
Proof.
  rewrite <- includes_spec. destruct (includes s p); split; congruence.
Qed.

Lemma substring_nonempty (p s : string) :
  p <> "" -> substring p s -> s <> "".
Proof.
  intros Hp [a [b ->]] E. destruct a; [|discriminate].
  destruct p; [congruence | discriminate].
Qed.

(** *** The probe *)

(** C9. The pop-up probe never raises: whatever raises inside it is
    caught and the probe answers false, so that a failing probe leaves
    the classification to the signature and platform checks. *)
Theorem popup_probe_never_raises (w : World) :
  exists blocked : bool,
    _isPopupBlocked w = (Ok blocked, w)
    /\ (forall e : exn, fst (popup_probe w) = Throw e ->
        blocked = false
        /\ isInAppBrowser w = (Ok (strong_signal (user_agent w)), w)).
Proof.
  unfold isInAppBrowser, _isPopupBlocked, strong_signal, try_catch.
  unfold popup_probe, bind, ret.
  destruct (existsb (includes (user_agent w)) inAppBrowserPatterns);
    destruct (android_webview (user_agent w));
    destruct (ios_webview (user_agent w));
    destruct (win_opener_is_null w) as [[|]|]; cbn [fst orb];
    destruct (doc_referrer w) as [r|]; cbn [fst];
    try destruct (String.eqb r ""); cbn [fst];
    destruct (win_self_is_top w) as [[|]|]; cbn [fst];
    destruct (win_open_undefined w) as [[|]|]; cbn [fst];
    eexists; (split; [reflexivity|]); intros thrown Hthrown;
    try discriminate Hthrown; split; reflexivity.
Qed.

(** *** The classification *)

Lemma isPopupBlocked_value (w : World) :
  _isPopupBlocked w = (Ok (probe_answer w), w).
Proof.
  unfold probe_answer, _isPopupBlocked, try_catch, popup_probe, bind, ret.
  destruct (win_opener_is_null w) as [[|]|]; cbn [fst];
    destruct (doc_referrer w) as [r|]; cbn [fst];
    try destruct (String.eqb r ""); cbn [fst];
    destruct (win_self_is_top w) as [[|]|]; cbn [fst];
    destruct (win_open_undefined w) as [[|]|]; reflexivity.
Qed.

Lemma isInAppBrowser_value (w : World) :
  isInAppBrowser w = (Ok (restrictive w), w).
Proof.
  unfold isInAppBrowser, restrictive, strong_signal.
  destruct (existsb (includes (user_agent w)) inAppBrowserPatterns);
    [reflexivity|].
  destruct (android_webview (user_agent w)); [reflexivity|].
  destruct (ios_webview (user_agent w)); [reflexivity|].
  unfold bind. rewrite isPopupBlocked_value.
  destruct (probe_answer w); reflexivity.
Qed.

Lemma return_destination_sor (redirectUrl : option string) (w : World) :
  sor (match redirectUrl with Some u => u | None => EmptyString end)
      (location_href w)
  = return_destination redirectUrl w.
Proof. destruct redirectUrl as [[|c u]|]; reflexivity. Qed.

(** *** The encoding of the return destination *)

Lemma percent_encode_char (c : ascii) (r : string) :
  (if uri_unreserved c then String c r
   else String "%"
          (String (upper_hex_digit (code c / 16))
             (String (upper_hex_digit (code c mod 16)) r)))
  = url_encoded_byte c +:+ r.
Proof.
  destruct c as [[] [] [] [] [] [] [] []]; reflexivity.
Qed.

Lemma percent_encode_url_encoded (s : string) :
  percent_encode s = url_encoded s.
Proof.
  induction s as [|c s IH]; [reflexivity|].
  cbn [percent_encode url_encoded]. rewrite <- IH.
  apply percent_encode_char.
Qed.

Lemma percent_decode_byte (c : ascii) (r : string) :
  percent_decode (url_encoded_byte c +:+ r) = String c (percent_decode r).
Proof.
  destruct c as [[] [] [] [] [] [] [] []]; reflexivity.
Qed.

Lemma percent_decode_url_encoded (s : string) :
  percent_decode (url_encoded s) = s.
Proof.
  induction s as [|c s IH]; [reflexivity|].
  cbn [url_encoded]. rewrite percent_decode_byte, IH. reflexivity.
Qed.

Lemma surrogate_head (b c : ascii) :
  160 <= code b <= 191 -> 128 <= code c <= 191 ->
  is_high_surrogate "237" b c || is_low_surrogate "237" b c = true.
Proof.
  intros Hb Hc. unfold is_high_surrogate, is_low_surrogate.
  change (code "237" =? 237) with true. cbn [andb].
  destruct (Z.leb_spec 160 (code b)); [|lia].
  destruct (Z.leb_spec 128 (code c)); [|lia].
  destruct (Z.leb_spec (code c) 191); [|lia].
  destruct (Z.leb_spec (code b) 191); [|lia].
  destruct (Z.leb_spec (code b) 175), (Z.leb_spec 176 (code b));
    try reflexivity; lia.
Qed.

Lemma has_lone_surrogate_spec (s : string) :
  has_lone_surrogate s = true <-> holds_lone_surrogate s.
Proof.
  unfold holds_lone_surrogate. split.
  - induction s as [|a r IH]; [discriminate|].
    destruct r as [|b [|c r3]]; try discriminate.
    cbn [has_lone_surrogate]. rewrite !orb_true_iff.
    intros [[H|H]|H].
    + apply is_high_surrogate_spec in H as (-> & Hb & Hc).
      exists EmptyString, r3, b, c. repeat split; try reflexivity; lia.
    + apply is_low_surrogate_spec in H as (-> & Hb & Hc).
      exists EmptyString, r3, b, c. repeat split; try reflexivity; lia.
    + destruct (IH H) as (x & y & b' & c' & E & Hb & Hc).
      exists (String a x), y, b', c'. cbn [String.append]. rewrite E.
      repeat split; try reflexivity; lia.
  - intros (x & y & b & c & -> & Hb & Hc).
    induction x as [|a x IH].
    + cbn [String.append has_lone_surrogate].
      rewrite (surrogate_head b c Hb Hc). reflexivity.
    + cbn [String.append].
      assert (Hr : exists b' c' r3,
                 x +:+ String "237" (String b (String c y))
                 = String b' (String c' r3)).
      { destruct x as [|b' [|c' x']]; cbn [String.append]; eauto. }
      destruct Hr as (b' & c' & r3 & Hr). rewrite Hr in IH |- *.
      cbn [has_lone_surrogate] in IH |- *.
      rewrite orb_true_iff. right. exact IH.
Qed.

(** *** The router *)

(** C7, as stated, fails: when the return destination holds a lone
    surrogate, [encodeURIComponent] raises a URIError, and the router,
    on the redirect path, raises with it: no redirect, no SDK call. *)
Lemma router_raises_on_lone_surrogate :
  openSignIn (Some lone_surrogate) (in_app_page instagram_ua)
  = (Throw URIError, in_app_page instagram_ua)
  /\ openSignUp (Some lone_surrogate) (desktop_page ∅)
     = (Throw URIError, desktop_page ∅)
  /\ events (snd (openSignIn (Some lone_surrogate)
                    (in_app_page instagram_ua))) = [].
Proof. repeat split; vm_compute; reflexivity. Qed.

(** C7, amended. For either action and every page: when the page is
    classified restrictive, whatever the SDK offers, or when the SDK
    lacks the matching entry point, the router takes the redirect path.
    There the return destination (the argument, or the current location
    when the argument is missing or empty) is URL-encoded, every byte
    outside [A-Z a-z 0-9 - _ . ! ~ * ' ( )] written as [%] and two
    upper-case hexadecimal digits, and the location is set to
    [/sign-in?redirect_url=] or [/sign-up?redirect_url=] followed by it;
    but when the destination holds a lone surrogate the encoding raises
    a URIError, the call raises with it, and nothing is redirected or
    called. Otherwise the router calls the matching SDK entry point and
    issues no redirect. The encoded destination decodes to the
    destination. *)
Theorem router_redirects_or_calls (redirectUrl : option string) (w : World) :
  isInAppBrowser w = (Ok (restrictive w), w)
  /\ openSignIn redirectUrl w =
     (if restrictive w || negb (sdk_has_signIn w)
      then if has_lone_surrogate (return_destination redirectUrl w)
           then (Throw URIError, w)
           else (Ok tt,
                 with_events
                   (events w ++
                    [Navigate ("/sign-in?redirect_url=" +:+
                               url_encoded
                                 (return_destination redirectUrl w))]) w)
      else (Ok tt, with_events (events w ++ [ClerkOpenSignIn]) w))
  /\ openSignUp redirectUrl w =
     (if restrictive w || negb (sdk_has_signUp w)
      then if has_lone_surrogate (return_destination redirectUrl w)
           then (Throw URIError, w)
           else (Ok tt,
                 with_events
                   (events w ++
                    [Navigate ("/sign-up?redirect_url=" +:+
                               url_encoded
                                 (return_destination redirectUrl w))]) w)
      else (Ok tt, with_events (events w ++ [ClerkOpenSignUp]) w))
  /\ (has_lone_surrogate (return_destination redirectUrl w) = true
      <-> holds_lone_surrogate (return_destination redirectUrl w))
  /\ percent_decode (url_encoded (return_destination redirectUrl w))
     = return_destination redirectUrl w.
Proof.
  split; [apply isInAppBrowser_value|].
  split; [|split; [|split;
    [apply has_lone_surrogate_spec | apply percent_decode_url_encoded]]].
  - unfold openSignIn, bind, sdk_has_signIn, assign_location, sign_in_url,
      encodeURIComponent, lift, bind.
    rewrite !isInAppBrowser_value, !return_destination_sor,
      percent_encode_url_encoded.
    destruct (restrictive w); cbn [orb];
      [|destruct (win_Clerk w) as [[[|] su]|]; cbn [sdk_openSignIn negb]];
      try reflexivity;
      destruct (has_lone_surrogate (return_destination redirectUrl w));
      reflexivity.
  - unfold openSignUp, bind, sdk_has_signUp, assign_location, sign_up_url,
      encodeURIComponent, lift, bind.
    rewrite !isInAppBrowser_value, !return_destination_sor,
      percent_encode_url_encoded.
    destruct (restrictive w); cbn [orb];
      [|destruct (win_Clerk w) as [[si [|]]|]; cbn [sdk_openSignUp negb]];
      try reflexivity;
      destruct (has_lone_surrogate (return_destination redirectUrl w));
      reflexivity.
Qed.

(** *** Signatures *)

Lemma user_agent_nonempty (w : World) :
  nav_userAgent w <> "" -> user_agent w = nav_userAgent w.
Proof.
  intros H. unfold user_agent, sor.
  destruct (nav_userAgent w); [congruence | reflexivity].
Qed.

Lemma patterns_nonempty (p : string) :
  In p inAppBrowserPatterns -> p <> "".
Proof.
  intros H E. subst p. cbn in H.
  repeat (destruct H as [H|H]; [discriminate H|]). exact H.
Qed.

(** The answer of the probe, spelled out: [window.open] is undefined,
    and the page was not reached by direct navigation; a read that
    raises makes the answer false. *)
Lemma probe_answer_spec (w : World) :
  probe_answer w = true <->
  win_open_undefined w = Ok true
  /\ (win_opener_is_null w = Ok false
      \/ (win_opener_is_null w = Ok true
          /\ ((exists r : string, doc_referrer w = Ok r /\ r <> "")
              \/ (doc_referrer w = Ok "" /\ win_self_is_top w = Ok false)))).
Proof.
  unfold probe_answer, _isPopupBlocked, try_catch, popup_probe, bind, ret.
  destruct (win_opener_is_null w) as [[|]|eo]; cbn [fst].
  - destruct (doc_referrer w) as [r|er]; cbn [fst].
    + destruct (String.eqb_spec r "") as [->|Hr]; cbn [fst].
      * destruct (win_self_is_top w) as [[|]|et]; cbn [fst].
        -- split; [discriminate|].
           intros (_ & [H|(_ & [(r & Hr & Hne)|(_ & H)])]);
             try discriminate. injection Hr as <-. congruence.
        -- destruct (win_open_undefined w) as [[|]|eu]; cbn [fst];
             (split; [try discriminate; intros _ | try reflexivity]).
           ++ split; [reflexivity|]. right. split; [reflexivity|].
              right. split; reflexivity.
           ++ intros (H & _). discriminate H.
           ++ intros (H & _). discriminate H.
        -- split; [discriminate|].
           intros (_ & [H|(_ & [(r & Hr & Hne)|(_ & H)])]);
             try discriminate. injection Hr as <-. congruence.
      * destruct (win_open_undefined w) as [[|]|eu]; cbn [fst];
          (split; [try discriminate; intros _ | try reflexivity]).
        -- split; [reflexivity|]. right. split; [reflexivity|].
           left. exists r. split; [reflexivity | exact Hr].
        -- intros (H & _). discriminate H.
        -- intros (H & _). discriminate H.
    + split; [discriminate|].
      intros (_ & [H|(_ & [(r & Hr & _)|(H & _)])]); discriminate.
  - destruct (win_open_undefined w) as [[|]|eu]; cbn [fst];
      (split; [try discriminate; intros _ | try reflexivity]).
    + split; [reflexivity|]. left. reflexivity.
    + intros (H & _). discriminate H.
    + intros (H & _). discriminate H.
  - split; [discriminate|].
    intros (_ & [H|(H & _)]); discriminate.
Qed.

(** C8, as stated, fails: a desktop user agent with none of the
    signatures and platform marks is still classified restrictive when
    the pop-up probe fires, here in a page with an opener in a browser
    that does not define [window.open]. *)
Lemma detector_true_on_desktop_agent :
  strong_signal (nav_userAgent popup_less_page) = false
  /\ getInAppBrowserName popup_less_page = None
  /\ isInAppBrowser popup_less_page = (Ok true, popup_less_page).
Proof. repeat split; vm_compute; reflexivity. Qed.

(** C8, amended. The catalogue holds the nineteen signatures of the
    script. The detector answers true for every user agent that contains
    a catalogued signature, and the lookup then names the first
    signature of the catalogue that the user agent contains, which is
    the given one when no other occurs; it answers true for a user agent
    with [Android] and the marker [wv], and for one with an iOS device
    name and [AppleWebKit] but without [Safari]. For a non-empty user
    agent with none of these the lookup names nothing and the detector
    answers what the pop-up probe answers: true exactly when
    [window.open] is undefined in a page that was not reached by direct
    navigation, and so false in every browser that defines
    [window.open]. *)
Theorem detector_classification (w : World) :
  inAppBrowserPatterns
  = ["Instagram"; "FBAN"; "FBAV"; "FB_IAB"; "FB4A"; "FBIOS"; "TikTok";
     "BytedanceWebview"; "Snapchat"; "LinkedIn"; "Pinterest"; "Twitter";
     "Line"; "KAKAOTALK"; "WeChat"; "MicroMessenger"; "QQ"; "Weibo"; "GSA"]
  /\ (forall p : string,
      In p inAppBrowserPatterns ->
      substring p (nav_userAgent w) ->
      isInAppBrowser w = (Ok true, w)
      /\ exists q : string,
          getInAppBrowserName w = Some q
          /\ find (includes (nav_userAgent w)) inAppBrowserPatterns = Some q
          /\ In q inAppBrowserPatterns
          /\ substring q (nav_userAgent w)
          /\ ((forall p' : string,
                  In p' inAppBrowserPatterns ->
                  substring p' (nav_userAgent w) -> p' = p) ->
              q = p))
  /\ (substring "Android" (nav_userAgent w) ->
      substring "wv" (nav_userAgent w) ->
      isInAppBrowser w = (Ok true, w))
  /\ ((substring "iPhone" (nav_userAgent w)
       \/ substring "iPad" (nav_userAgent w)
       \/ substring "iPod" (nav_userAgent w)) ->
      substring "AppleWebKit" (nav_userAgent w) ->
      ~ substring "Safari" (nav_userAgent w) ->
      isInAppBrowser w = (Ok true, w))
  /\ (nav_userAgent w <> "" ->
      (forall p : string,
          In p inAppBrowserPatterns -> ~ substring p (nav_userAgent w)) ->
      ~ (substring "Android" (nav_userAgent w)
         /\ substring "wv" (nav_userAgent w)) ->
      ~ ((substring "iPhone" (nav_userAgent w)
          \/ substring "iPad" (nav_userAgent w)
          \/ substring "iPod" (nav_userAgent w))
         /\ substring "AppleWebKit" (nav_userAgent w)
         /\ ~ substring "Safari" (nav_userAgent w)) ->
      getInAppBrowserName w = None
      /\ (exists blocked : bool,
             isInAppBrowser w = (Ok blocked, w)
             /\ (blocked = true <->
                 win_open_undefined w = Ok true
                 /\ (win_opener_is_null w = Ok false
                     \/ (win_opener_is_null w = Ok true
                         /\ ((exists r : string,
                                 doc_referrer w = Ok r /\ r <> "")
                             \/ (doc_referrer w = Ok ""
                                 /\ win_self_is_top w = Ok false))))))
      /\ (win_open_undefined w = Ok false ->
          isInAppBrowser w = (Ok false, w))).
Proof.
  split; [reflexivity|].
  rewrite isInAppBrowser_value. unfold restrictive, strong_signal.
  split; [|split; [|split]].
  - intros p Hin Hsub.
    assert (Hua : user_agent w = nav_userAgent w).
    { apply user_agent_nonempty.
      exact (substring_nonempty _ _ (patterns_nonempty p Hin) Hsub). }
    assert (Hex : existsb (includes (nav_userAgent w)) inAppBrowserPatterns
                  = true).
    { apply existsb_exists. exists p. split; [exact Hin|].
      apply includes_spec, Hsub. }
    rewrite Hua, Hex. split; [reflexivity|].
    unfold getInAppBrowserName. rewrite Hua.
    destruct (find (includes (nav_userAgent w)) inAppBrowserPatterns)
      as [q|] eqn:Hf.
    + exists q. apply find_some in Hf as Hq. destruct Hq as [Hq1 Hq2].
      apply includes_spec in Hq2.
      repeat split; try assumption; try reflexivity.
      intros Honly. apply Honly; assumption.
    + exfalso. apply existsb_exists in Hex as (x & Hx1 & Hx2).
      pose proof (find_none _ _ Hf x Hx1) as Hn. congruence.
  - intros Ha Hw.
    assert (Hua : user_agent w = nav_userAgent w).
    { apply user_agent_nonempty.
      eapply substring_nonempty; [|exact Hw]. discriminate. }
    rewrite Hua. unfold android_webview.
    apply includes_spec in Ha, Hw. rewrite Ha, Hw.
    rewrite orb_true_r. reflexivity.
  - intros Hdev Hk Hs.
    assert (Hua : user_agent w = nav_userAgent w).
    { apply user_agent_nonempty.
      eapply substring_nonempty; [|exact Hk]. discriminate. }
    rewrite Hua. unfold ios_webview.
    apply includes_spec in Hk. apply includes_false in Hs.
    rewrite Hk, Hs.
    assert (Hd : includes (nav_userAgent w) "iPhone"
                 || includes (nav_userAgent w) "iPad"
                 || includes (nav_userAgent w) "iPod" = true).
    { rewrite !orb_true_iff, !includes_spec. tauto. }
    rewrite Hd. cbn [andb negb]. rewrite orb_true_r. reflexivity.
  - intros Hne Hnone Hand Hios.
    rewrite (user_agent_nonempty w Hne).
    assert (Hex : existsb (includes (nav_userAgent w)) inAppBrowserPatterns
                  = false).
    { destruct (existsb _ _) eqn:E; [|reflexivity]. exfalso.
      apply existsb_exists in E as (x & Hx1 & Hx2).
      apply includes_spec in Hx2. exact (Hnone x Hx1 Hx2). }
    assert (Ha : android_webview (nav_userAgent w) = false).
    { unfold android_webview. apply not_true_iff_false. intros E.
      apply andb_true_iff in E as [E1 E2].
      apply Hand. split; apply includes_spec; assumption. }
    assert (Hi : ios_webview (nav_userAgent w) = false).
    { unfold ios_webview. apply not_true_iff_false. intros E.
      apply andb_true_iff in E as [E12 E3].
      apply andb_true_iff in E12 as [E1 E2].
      apply Hios. apply negb_true_iff, includes_false in E3.
      apply includes_spec in E2. rewrite !orb_true_iff, !includes_spec in E1.
      tauto. }
    rewrite Hex, Ha, Hi. cbn [orb]. split; [|split].
    + unfold getInAppBrowserName.
      rewrite (user_agent_nonempty w Hne), Ha, Hi.
      destruct (find (includes (nav_userAgent w)) inAppBrowserPatterns)
        as [q|] eqn:Hf; [|reflexivity].
      exfalso. apply find_some in Hf as [Hq1 Hq2].
      apply includes_spec in Hq2. exact (Hnone q Hq1 Hq2).
    + exists (probe_answer w). split; [reflexivity|].
      apply probe_answer_spec.
    + intros Hopen.
      assert (Hp : probe_answer w = false).
      { apply not_true_iff_false. intros E.
        apply probe_answer_spec in E as [E _]. congruence. }
      rewrite Hp. reflexivity.
Qed.

Lemma detector_classification_witness :
  (isInAppBrowser (in_app_page facebook_ua)
   = (Ok true, in_app_page facebook_ua)
   /\ getInAppBrowserName (in_app_page facebook_ua) = Some "FBAN")
  /\ (isInAppBrowser (in_app_page instagram_ua)
      = (Ok true, in_app_page instagram_ua)
      /\ getInAppBrowserName (in_app_page instagram_ua) = Some "Instagram")
  /\ isInAppBrowser (in_app_page android_webview_ua)
     = (Ok true, in_app_page android_webview_ua)
  /\ isInAppBrowser (in_app_page ios_webview_ua)
     = (Ok true, in_app_page ios_webview_ua)
  /\ (getInAppBrowserName (desktop_page ∅) = None
      /\ isInAppBrowser (desktop_page ∅) = (Ok false, desktop_page ∅)).
Proof.
  assert (Hname : forall (w : World) (n : string),
             find (includes (nav_userAgent w)) inAppBrowserPatterns = Some n ->
             substring n (nav_userAgent w) ->
             In n inAppBrowserPatterns ->
             isInAppBrowser w = (Ok true, w)
             /\ getInAppBrowserName w = Some n).
  { intros w n Hf Hs Hin.
    destruct (detector_classification w) as (_ & Hsig & _).
    destruct (Hsig n Hin Hs) as (Hb & q & Hq & Hfq & _).
    split; [exact Hb|]. rewrite Hq, <- Hfq, Hf. reflexivity. }
  split; [|split; [|split; [|split]]].
  - apply Hname; [vm_compute; reflexivity | | vm_compute; tauto].
    apply includes_spec. vm_compute. reflexivity.
  - apply Hname; [vm_compute; reflexivity | | vm_compute; tauto].
    apply includes_spec. vm_compute. reflexivity.
  - destruct (detector_classification (in_app_page android_webview_ua))
      as (_ & _ & Ha & _).
    apply Ha; apply includes_spec; vm_compute; reflexivity.
  - destruct (detector_classification (in_app_page ios_webview_ua))
      as (_ & _ & _ & Hi & _).
    apply Hi; [left | |]; try (apply includes_spec; vm_compute; reflexivity).
    apply includes_false. vm_compute. reflexivity.
  - destruct (detector_classification (desktop_page ∅))
      as (_ & _ & _ & _ & Hd).
    destruct Hd as (Hn & _ & Hf).
    + discriminate.
    + intros p Hin. apply includes_false.
      cbn in Hin.
      repeat (destruct Hin as [<-|Hin]; [vm_compute; reflexivity|]).
      contradiction.
    + intros [Ha _]. apply includes_spec in Ha. vm_compute in Ha.
      discriminate Ha.
    + intros (_ & _ & Hs). apply Hs. apply includes_spec.
      vm_compute. reflexivity.
    + split; [exact Hn | apply Hf; reflexivity].
Defined.

(** * Further properties of the cache *)

(** *** What a sequence of cache operations can change

    A property of the world that no write to the two keys of the cache
    and no console line can break is kept by every operation. *)
Section StorageOnly.
Variable P : World -> Prop.
Hypothesis P_cache :
  forall (w : World) (s : string),
    P w -> P (with_items (<[STORAGE_KEY := s]> (ls_items w)) w).
Hypothesis P_flag :
  forall w : World,
    P w -> P (with_items (<[ACCOUNT_KEY := "true"]> (ls_items w)) w).
Hypothesis P_delete :
  forall w : World,
    P w -> P (with_items (delete STORAGE_KEY (ls_items w)) w).
Hypothesis P_console :
  forall (w : World) (c : list string), P w -> P (with_console c w).

Lemma only_getItem (k : string) : keeps P (localStorage_getItem k).
Proof.
  intros w H. unfold localStorage_getItem. destruct (ls_disabled w); exact H.
Qed.

Lemma only_removeItem : keeps P (localStorage_removeItem STORAGE_KEY).
Proof using P_delete.
  intros w H. unfold localStorage_removeItem.
  destruct (ls_disabled w); [exact H | apply P_delete, H].
Qed.

Lemma only_setItem_cache (v : jsval) :
  keeps P (localStorage_setItem STORAGE_KEY v).
Proof using P_cache.
  intros w H. unfold localStorage_setItem.
  destruct (ToString v); [|exact H].
  destruct (ls_disabled w); [exact H|].
  destruct (ls_full w); [exact H | apply P_cache, H].
Qed.

Lemma only_setItem_flag :
  keeps P (localStorage_setItem ACCOUNT_KEY (JStr "true")).
Proof using P_flag.
  intros w H. unfold localStorage_setItem. cbn [ToString].
  destruct (ls_disabled w); [exact H|].
  destruct (ls_full w); [exact H | apply P_flag, H].
Qed.

Lemma only_console_warn (msg : string) : keeps P (console_warn msg).
Proof using P_console. intros w H. apply P_console, H. Qed.

Ltac only_tac :=
  repeat first
    [ keeps_step
    | apply only_getItem | apply only_removeItem | apply only_setItem_cache
    | apply only_setItem_flag | apply only_console_warn ].

Lemma only_clear : keeps P clear.
Proof using P_delete. unfold clear. only_tac. Qed.

Lemma only_get (now : Z) : keeps P (get now).
Proof using P_delete. unfold get, clear. only_tac. Qed.

Lemma only_set (state : jsval) (now : Z) : keeps P (set state now).
Proof using P_cache P_console. unfold set. only_tac. Qed.

Lemma only_isLoggedIn (now : Z) : keeps P (isLoggedIn now).
Proof using P_delete. unfold isLoggedIn. only_tac. apply only_get. Qed.

Lemma only_getUserId (now : Z) : keeps P (getUserId now).
Proof using P_delete. unfold getUserId. only_tac. apply only_get. Qed.

Lemma only_markHasAccount : keeps P markHasAccount.
Proof using P_flag P_console. unfold markHasAccount. only_tac. Qed.

Lemma only_hasAccount : keeps P hasAccount.
Proof. unfold hasAccount. only_tac. Qed.

Lemma only_syncWithClerk (u : jsval) (now : Z) :
  keeps P (syncWithClerk u now).
Proof using P_cache P_flag P_delete P_console.
  unfold syncWithClerk. only_tac.
  - apply only_markHasAccount.
  - apply only_set.
  - apply only_clear.
Qed.

Lemma only_renderOptimisticUI (c : option Element) (now : Z) :
  keeps P (renderOptimisticUI c now).
Proof using P_delete.
  unfold renderOptimisticUI. only_tac;
    first [apply only_get | apply only_hasAccount].
Qed.

Lemma only_run_ops (ops : list CacheOp) (w : World) :
  P w -> P (run_ops ops w).
Proof using P_cache P_flag P_delete P_console.
  revert w. induction ops as [|op ops IH]; intros w H; [exact H|].
  cbn [run_ops fold_left]. apply IH. destruct op; cbn [run_op].
  - apply only_get, H.
  - apply only_set, H.
  - apply only_clear, H.
  - apply only_isLoggedIn, H.
  - apply only_getUserId, H.
  - apply only_syncWithClerk, H.
  - apply only_markHasAccount, H.
  - apply only_hasAccount, H.
  - apply only_renderOptimisticUI, H.
Qed.

Lemma only_syncWithClerk_v1 (u : jsval) (now : Z) :
  keeps P (AuthCacheV1.syncWithClerk u now).
Proof using P_cache P_delete P_console.
  unfold AuthCacheV1.syncWithClerk. only_tac.
  - apply only_set.
  - apply only_clear.
Qed.

End StorageOnly.

(** X6. No sequence of cache operations touches an entry of the storage
    other than the cache entry and the account flag. *)
Theorem cache_ops_touch_two_keys
        (ops : list CacheOp) (w : World) (k : string) :
  k <> STORAGE_KEY -> k <> ACCOUNT_KEY ->
  ls_items (run_ops ops w) !! k = ls_items w !! k.
Proof.
  intros H1 H2.
  apply (only_run_ops (fun w' => ls_items w' !! k = ls_items w !! k)).
  - intros w' s H. cbn [ls_items with_items].
    rewrite lookup_insert_ne by congruence. exact H.
  - intros w' H. cbn [ls_items with_items].
    rewrite lookup_insert_ne by congruence. exact H.
  - intros w' H. cbn [ls_items with_items].
    rewrite lookup_delete_ne by congruence. exact H.
  - intros w' c H. exact H.
  - reflexivity.
Qed.

Lemma cache_ops_touch_two_keys_witness :
  ls_items
    (run_ops [OpSync (identity_arg (Some sample_identity)) sample_time;
              OpGet (sample_time + 2 * CACHE_TTL); OpClear]
       (desktop_page {["theme" := "dark"]})) !! "theme"
  = ls_items (desktop_page {["theme" := "dark"]}) !! "theme".
Proof.
  apply (cache_ops_touch_two_keys _ _ "theme"); discriminate.
Defined.

(** X7. No sequence of cache operations navigates or calls the SDK: the
    redirects and SDK calls of the page are those that were there
    before. *)
Theorem cache_ops_emit_nothing (ops : list CacheOp) (w : World) :
  events (run_ops ops w) = events w.
Proof.
  apply (only_run_ops (fun w' => events w' = events w));
    try (intros; assumption).
  reflexivity.
Qed.

(** *** Reading twice, reading late *)

(** X2. [get] is idempotent: a second call at the same clock reading
    returns what the first returned and changes nothing more. *)
Theorem get_idempotent (now : Z) (w : World) :
  get now (snd (get now w)) = (fst (get now w), snd (get now w)).
Proof.
  assert (Hp : get now (purged w)
               = if ls_disabled w then get now (purged w)
                 else (Ok JNull, purged w)).
  { destruct (ls_disabled w) eqn:Hd; [reflexivity|].
    rewrite get_cases.
    change (ls_disabled (purged w)) with (ls_disabled w). rewrite Hd.
    assert (Hk : ls_items (purged w) !! STORAGE_KEY = None)
      by apply lookup_delete_eq.
    rewrite Hk. reflexivity. }
  rewrite (get_cases now w).
  destruct (ls_disabled w) eqn:Hd.
  { cbn [fst snd]. rewrite get_cases, Hd. reflexivity. }
  destruct (ls_items w !! STORAGE_KEY) as [s|] eqn:Hs.
  2:{ cbn [fst snd]. rewrite get_cases, Hd, Hs. reflexivity. }
  destruct (String.eqb s "") eqn:He.
  { cbn [fst snd]. rewrite get_cases, Hd, Hs, He. reflexivity. }
  destruct (JSON_parse_text s) as [data|] eqn:Hj.
  2:{ cbn [fst snd]. exact Hp. }
  destruct (expired now data) as [[|]|e] eqn:Hx; cbn [fst snd];
    try exact Hp.
  rewrite get_cases, Hd, Hs, He, Hj, Hx. reflexivity.
Qed.

(** X3. Purge on read: a record written by [set] and read after more
    than the TTL is reported absent, the raw entry is gone after that
    read, and the account flag entry is as before. *)
Theorem expired_record_is_purged
        (p : PartialState) (now now' : Z) (w : World) :
  storage_ok w ->
  time_value now ->
  now' - now > CACHE_TTL ->
  ls_items (snd (set (state_value p) now w)) !! STORAGE_KEY
  = Some (record_json (merged p now))
  /\ fst (get now' (snd (set (state_value p) now w))) = Ok JNull
  /\ ls_items (snd (get now' (snd (set (state_value p) now w))))
       !! STORAGE_KEY = None
  /\ ls_items (snd (get now' (snd (set (state_value p) now w))))
       !! ACCOUNT_KEY = ls_items w !! ACCOUNT_KEY.
Proof.
  intros [Hd Hf] Ht Hage. rewrite set_partial, Hd, Hf. cbn [orb snd].
  split; [apply lookup_insert_eq|].
  rewrite (get_record now' _ (merged p now));
    [|exact Hd|apply lookup_insert_eq|exact Ht].
  cbn [cr_lastSync merged].
  destruct (Z.gtb_spec (now' - now) CACHE_TTL); [|lia].
  cbn [fst snd]. split; [reflexivity|]. split.
  - apply lookup_delete_eq.
  - unfold purged. cbn [ls_items with_items].
    rewrite lookup_delete_ne, lookup_insert_ne by discriminate. reflexivity.
Qed.

Lemma expired_record_is_purged_witness :
  ls_items (snd (set (state_value
                        {| ps_isLoggedIn := Some true;
                           ps_userId := Some "user_2aXk";
                           ps_userName := Some "Ada";
                           ps_userImage := None |})
                   sample_time (desktop_page ∅))) !! STORAGE_KEY
  = Some (record_json
            (merged {| ps_isLoggedIn := Some true;
                       ps_userId := Some "user_2aXk";
                       ps_userName := Some "Ada";
                       ps_userImage := None |} sample_time))
  /\ fst (get (sample_time + CACHE_TTL + 1)
            (snd (set (state_value
                         {| ps_isLoggedIn := Some true;
                            ps_userId := Some "user_2aXk";
                            ps_userName := Some "Ada";
                            ps_userImage := None |})
                    sample_time (desktop_page ∅)))) = Ok JNull
  /\ ls_items
       (snd (get (sample_time + CACHE_TTL + 1)
               (snd (set (state_value
                            {| ps_isLoggedIn := Some true;
                               ps_userId := Some "user_2aXk";
                               ps_userName := Some "Ada";
                               ps_userImage := None |})
                       sample_time (desktop_page ∅))))) !! STORAGE_KEY
     = None
  /\ ls_items
       (snd (get (sample_time + CACHE_TTL + 1)
               (snd (set (state_value
                            {| ps_isLoggedIn := Some true;
                               ps_userId := Some "user_2aXk";
                               ps_userName := Some "Ada";
                               ps_userImage := None |})
                       sample_time (desktop_page ∅))))) !! ACCOUNT_KEY
     = ls_items (desktop_page ∅) !! ACCOUNT_KEY.
Proof.
  apply (expired_record_is_purged _ sample_time (sample_time + CACHE_TTL + 1)
           (desktop_page ∅)).
  - split; reflexivity.
  - unfold time_value, sample_time. lia.
  - lia.
Defined.

(** X4. A stored object without a [lastSync] property never expires: the
    age is not a number, the comparison with the TTL is false, and [get]
    returns the object at every clock reading, leaving it stored. *)
Theorem entry_without_lastSync_never_expires
        (now : Z) (w : World) (props : list (string * jsval)) :
  stored w (JObj props) ->
  own_prop "lastSync" props = None ->
  get now w = (Ok (JObj props), w).
Proof.
  intros (Hd & s & Hs & Hne & Hp) Hl.
  rewrite get_cases, Hd, Hs.
  destruct (String.eqb_spec s ""); [congruence|].
  rewrite Hp. unfold expired, get_prop, js_sub. rewrite Hl.
  cbn [res_bind ToNumber]. destruct (num_of_Z now); reflexivity.
Qed.

Lemma entry_without_lastSync_never_expires_witness :
  get (sample_time + 1000 * CACHE_TTL)
    (desktop_page
       {[STORAGE_KEY :=
           default "" (json_text (JObj [("isLoggedIn", JBool true)]))]})
  = (Ok (JObj [("isLoggedIn", JBool true)]),
     desktop_page
       {[STORAGE_KEY :=
           default "" (json_text (JObj [("isLoggedIn", JBool true)]))]}).
Proof.
  apply entry_without_lastSync_never_expires; [|reflexivity].
  split; [reflexivity|].
  exists (default "" (json_text (JObj [("isLoggedIn", JBool true)]))).
  split; [reflexivity|]. split; [discriminate | vm_compute; reflexivity].
Defined.

(** *** Writing when the storage refuses *)

Lemma stringify_object (props : list (string * jsval)) :
  exists s : string, JSON_stringify (JObj props) = JStr s.
Proof. unfold JSON_stringify. cbn [json_text]. eexists. reflexivity. Qed.

(** X5. [set] never raises, whatever it is handed. When the storage is
    disabled or full, or the state is [null] or [undefined], nothing is
    stored and exactly one warning is logged; otherwise only the cache
    entry is written and nothing is logged. *)
Theorem set_never_raises (state : jsval) (now : Z) (w : World) :
  fst (set state now w) = Ok tt
  /\ (ls_disabled w || ls_full w
      || negb (is_ok (get_prop state "isLoggedIn")) = true ->
      ls_items (snd (set state now w)) = ls_items w
      /\ console (snd (set state now w))
         = console w ++ ["AuthCache: Unable to save state"])
  /\ (ls_disabled w || ls_full w
      || negb (is_ok (get_prop state "isLoggedIn")) = false ->
      console (snd (set state now w)) = console w
      /\ exists s : string,
          ls_items (snd (set state now w))
          = <[STORAGE_KEY := s]> (ls_items w)).
Proof.
  unfold set, try_catch, bind, lift.
  destruct state as [| |b|n|s|items|props];
    cbn [get_prop is_ok negb orb]; rewrite ?orb_true_r, ?orb_false_r;
    try (split; [reflexivity|]; split;
         [intros _; split; reflexivity | discriminate]);
    match goal with
    | |- context [JSON_stringify (JObj ?l)] =>
        destruct (stringify_object l) as [txt ->]
    end;
    unfold localStorage_setItem, console_warn; cbn [ToString];
    destruct (ls_disabled w); cbn [orb fst snd];
    try (split; [reflexivity|]; split;
         [intros _; split; reflexivity | discriminate]);
    destruct (ls_full w); cbn [orb fst snd];
    try (split; [reflexivity|]; split;
         [intros _; split; reflexivity | discriminate]);
    (split; [reflexivity|]; split;
     [discriminate | intros _; split; [reflexivity | eexists; reflexivity]]).
Qed.

(** *** The accessors *)

Lemma isLoggedIn_cases (now : Z) (w w1 : World) (cached : jsval) :
  get now w = (Ok cached, w1) ->
  isLoggedIn now w
  = (Ok (if truthy cached then prop cached "isLoggedIn" else JBool false), w1).
Proof.
  intros Hg. unfold isLoggedIn, bind. rewrite Hg.
  destruct (truthy cached) eqn:Ht; [|reflexivity].
  unfold lift. rewrite (get_prop_truthy _ _ Ht). reflexivity.
Qed.

Lemma getUserId_cases (now : Z) (w w1 : World) (cached : jsval) :
  get now w = (Ok cached, w1) ->
  getUserId now w
  = (Ok (if truthy cached then prop cached "userId" else JNull), w1).
Proof.
  intros Hg. unfold getUserId, bind. rewrite Hg.
  destruct (truthy cached) eqn:Ht; [|reflexivity].
  unfold lift. rewrite (get_prop_truthy _ _ Ht). reflexivity.
Qed.

(** X8. [isLoggedIn()] and [getUserId()] never raise and leave the
    storage as [get()] does. With no usable cache they answer [false] and
    [null]; with a cached record they answer its [isLoggedIn] and its
    [userId]. *)
Theorem accessors_follow_get (now : Z) (w : World) :
  snd (isLoggedIn now w) = snd (get now w)
  /\ snd (getUserId now w) = snd (get now w)
  /\ (exists a b : jsval,
         fst (isLoggedIn now w) = Ok a /\ fst (getUserId now w) = Ok b)
  /\ (fst (get now w) = Ok JNull ->
      fst (isLoggedIn now w) = Ok (JBool false)
      /\ fst (getUserId now w) = Ok JNull)
  /\ (forall r : CacheRecord,
         fst (get now w) = Ok (record_value r) ->
         fst (isLoggedIn now w) = Ok (JBool (cr_isLoggedIn r))
         /\ fst (getUserId now w) = Ok (opt_string (cr_userId r))).
Proof.
  destruct (get_returns now w) as [cached Hg].
  rewrite (isLoggedIn_cases now w _ cached Hg).
  rewrite (getUserId_cases now w _ cached Hg).
  rewrite Hg. cbn [fst snd].
  split; [reflexivity|]. split; [reflexivity|].
  split; [do 2 eexists; split; reflexivity|]. split.
  - intros H. injection H as ->. split; reflexivity.
  - intros r H. injection H as ->. split; reflexivity.
Qed.

Lemma sync_present_ok (i : ExternalIdentity) (now : Z) (w : World) :
  storage_ok w ->
  syncWithClerk (identity_value i) now w
  = (Ok tt,
     with_items
       (<[STORAGE_KEY := record_json (identity_record i now)]>
          (<[ACCOUNT_KEY := "true"]> (ls_items w))) w).
Proof.
  intros [Hd Hf]. rewrite sync_present, markHasAccount_cases, Hd, Hf.
  cbn [orb snd].
  change (ls_disabled (with_items ?m w)) with (ls_disabled w).
  change (ls_full (with_items ?m w)) with (ls_full w).
  rewrite Hd, Hf. reflexivity.
Qed.

Lemma get_after_sign_in (i : ExternalIdentity) (now now' : Z) (w : World) :
  storage_ok w ->
  time_value now ->
  now' - now <= CACHE_TTL ->
  get now' (snd (syncWithClerk (identity_value i) now w))
  = (Ok (record_value (identity_record i now)),
     snd (syncWithClerk (identity_value i) now w)).
Proof.
  intros Hs Ht Hage. pose proof Hs as [Hd Hf].
  rewrite (sync_present_ok i now w Hs). cbn [snd].
  rewrite (get_record now' _ (identity_record i now));
    [|exact Hd|apply lookup_insert_eq|exact Ht].
  cbn [cr_lastSync identity_record].
  destruct (Z.gtb_spec (now' - now) CACHE_TTL); [lia | reflexivity].
Qed.

(** X9. After [syncWithClerk] with a user object on a usable storage and
    within the TTL, [isLoggedIn()] answers true and [getUserId()] the
    id of the user ([null] for an empty id). *)
Theorem accessors_after_sign_in
        (i : ExternalIdentity) (now now' : Z) (w : World) :
  storage_ok w ->
  time_value now ->
  now' - now <= CACHE_TTL ->
  fst (isLoggedIn now' (snd (syncWithClerk (identity_value i) now w)))
  = Ok (JBool true)
  /\ fst (getUserId now' (snd (syncWithClerk (identity_value i) now w)))
     = Ok (opt_string (nonempty (Some (id_id i)))).
Proof.
  intros Hs Ht Hage.
  pose proof (get_after_sign_in i now now' w Hs Ht Hage) as Hg.
  rewrite (isLoggedIn_cases _ _ _ _ Hg), (getUserId_cases _ _ _ _ Hg).
  split; reflexivity.
Qed.

Lemma accessors_after_sign_in_witness :
  fst (isLoggedIn (sample_time + 60000)
         (snd (syncWithClerk (identity_value sample_identity) sample_time
                 (desktop_page ∅)))) = Ok (JBool true)
  /\ fst (getUserId (sample_time + 60000)
            (snd (syncWithClerk (identity_value sample_identity) sample_time
                    (desktop_page ∅))))
     = Ok (opt_string (nonempty (Some (id_id sample_identity)))).
Proof.
  apply (accessors_after_sign_in sample_identity sample_time
           (sample_time + 60000) (desktop_page ∅)).
  - split; reflexivity.
  - unfold time_value, sample_time. lia.
  - unfold CACHE_TTL. lia.
Defined.

(** *** Signing in, signing out *)

(** *** Signing in, signing out *)

(** X10. Signing out forgets the session, not the account: after a
    sign-in and a later sign-out on a usable storage, [get()] is absent,
    [isLoggedIn()] is false, [hasAccount()] is true, and the optimistic
    render is the loading control labelled "Sign In". *)
Theorem sign_out_keeps_account
        (i : ExternalIdentity) (t1 t2 now : Z) (w : World) (el : Element) :
  storage_ok w ->
  fst (get now
         (snd (syncWithClerk (identity_arg None) t2
                 (snd (syncWithClerk (identity_arg (Some i)) t1 w)))))
  = Ok JNull
  /\ fst (isLoggedIn now
            (snd (syncWithClerk (identity_arg None) t2
                    (snd (syncWithClerk (identity_arg (Some i)) t1 w)))))
     = Ok (JBool false)
  /\ fst (hasAccount
            (snd (syncWithClerk (identity_arg None) t2
                    (snd (syncWithClerk (identity_arg (Some i)) t1 w)))))
     = Ok true
  /\ fst (renderOptimisticUI (Some el) now
            (snd (syncWithClerk (identity_arg None) t2
                    (snd (syncWithClerk (identity_arg (Some i)) t1 w)))))
     = Ok (true,
           Some {| innerHTML := loading_button_html "Sign In";
                   signin_onclick := None |}).
Proof.
  intros Hs. pose proof Hs as [Hd Hf]. cbn [identity_arg].
  rewrite (sync_present_ok i t1 w Hs). cbn [snd].
  set (w1 := with_items _ w).
  assert (Hd1 : ls_disabled w1 = false) by exact Hd.
  unfold syncWithClerk at 1 2 3 4. cbn [truthy].
  rewrite clear_cases, Hd1. cbn [snd].
  assert (Hg : get now (purged w1) = (Ok JNull, purged w1)).
  { rewrite get_cases.
    change (ls_disabled (purged w1)) with (ls_disabled w1). rewrite Hd1.
    assert (Hk : ls_items (purged w1) !! STORAGE_KEY = None)
      by apply lookup_delete_eq.
    rewrite Hk. reflexivity. }
  assert (Ha : has_account (purged w1) = true).
  { unfold has_account.
    change (ls_disabled (purged w1)) with (ls_disabled w1). rewrite Hd1.
    cbn [negb andb]. apply bool_decide_eq_true_2.
    unfold purged, w1. cbn [ls_items with_items].
    rewrite lookup_delete_ne, lookup_insert_ne by discriminate.
    apply lookup_insert_eq. }
  rewrite Hg, (isLoggedIn_cases now _ _ _ Hg), hasAccount_value,
    (render_cases el now _ _ _ Hg), Ha.
  repeat split.
Qed.

Lemma sign_out_keeps_account_witness :
  fst (get (sample_time + 9000)
         (snd (syncWithClerk (identity_arg None) (sample_time + 5000)
                 (snd (syncWithClerk (identity_arg (Some sample_identity))
                         sample_time (desktop_page ∅))))))
  = Ok JNull
  /\ fst (isLoggedIn (sample_time + 9000)
            (snd (syncWithClerk (identity_arg None) (sample_time + 5000)
                    (snd (syncWithClerk (identity_arg (Some sample_identity))
                            sample_time (desktop_page ∅))))))
     = Ok (JBool false)
  /\ fst (hasAccount
            (snd (syncWithClerk (identity_arg None) (sample_time + 5000)
                    (snd (syncWithClerk (identity_arg (Some sample_identity))
                            sample_time (desktop_page ∅))))))
     = Ok true
  /\ fst (renderOptimisticUI (Some empty_element) (sample_time + 9000)
            (snd (syncWithClerk (identity_arg None) (sample_time + 5000)
                    (snd (syncWithClerk (identity_arg (Some sample_identity))
                            sample_time (desktop_page ∅))))))
     = Ok (true,
           Some {| innerHTML := loading_button_html "Sign In";
                   signin_onclick := None |}).
Proof.
  apply (sign_out_keeps_account sample_identity sample_time
           (sample_time + 5000) (sample_time + 9000) (desktop_page ∅)
           empty_element).
  split; reflexivity.
Defined.

(** X11. A first visit: with neither a cache entry nor an account flag in
    a readable storage, the optimistic render is the loading control
    labelled "Sign Up", and nothing is stored. *)
Theorem first_visit_offers_sign_up (el : Element) (now : Z) (w : World) :
  ls_items w !! STORAGE_KEY = None ->
  ls_items w !! ACCOUNT_KEY = None ->
  renderOptimisticUI (Some el) now w
  = (Ok (true,
         Some {| innerHTML := loading_button_html "Sign Up";
                 signin_onclick := None |}), w).
Proof.
  intros Hc Ha.
  assert (Hg : get now w = (Ok JNull, w)).
  { rewrite get_cases, Hc. destruct (ls_disabled w); reflexivity. }
  rewrite (render_cases el now w _ _ Hg). cbn [branch_of truthy andb].
  unfold has_account. rewrite Ha.
  rewrite bool_decide_eq_false_2 by discriminate.
  rewrite andb_false_r. reflexivity.
Qed.

Lemma first_visit_offers_sign_up_witness :
  renderOptimisticUI (Some empty_element) sample_time (desktop_page ∅)
  = (Ok (true,
         Some {| innerHTML := loading_button_html "Sign Up";
                 signin_onclick := None |}), desktop_page ∅).
Proof.
  apply (first_visit_offers_sign_up empty_element sample_time
           (desktop_page ∅)); reflexivity.
Defined.

(** X12. The last write wins: of two [set] calls on a usable storage, a
    later [get()] within the TTL of the second returns the record of the
    second alone. *)
Theorem last_write_wins (p1 p2 : PartialState) (t1 t2 now : Z) (w : World) :
  storage_ok w ->
  time_value t2 ->
  now - t2 <= CACHE_TTL ->
  fst (get now
         (snd (set (state_value p2) t2 (snd (set (state_value p1) t1 w)))))
  = Ok (record_value (merged p2 t2)).
Proof.
  intros Hs Ht Hage. pose proof Hs as [Hd Hf].
  rewrite (set_partial p1 t1 w), Hd, Hf. cbn [orb snd].
  rewrite set_partial.
  change (ls_disabled (with_items ?m w)) with (ls_disabled w).
  change (ls_full (with_items ?m w)) with (ls_full w).
  rewrite Hd, Hf. cbn [orb snd].
  rewrite (get_record now _ (merged p2 t2));
    [|exact Hd|apply lookup_insert_eq|exact Ht].
  cbn [cr_lastSync merged].
  destruct (Z.gtb_spec (now - t2) CACHE_TTL); [lia | reflexivity].
Qed.

Lemma last_write_wins_witness :
  fst (get (sample_time + 7000)
         (snd (set (state_value
                      {| ps_isLoggedIn := Some false; ps_userId := None;
                         ps_userName := None; ps_userImage := None |})
                 (sample_time + 5000)
                 (snd (set (state_value
                              {| ps_isLoggedIn := Some true;
                                 ps_userId := Some "user_2aXk";
                                 ps_userName := Some "Ada";
                                 ps_userImage := None |})
                         sample_time (desktop_page ∅))))))
  = Ok (record_value
          (merged {| ps_isLoggedIn := Some false; ps_userId := None;
                     ps_userName := None; ps_userImage := None |}
             (sample_time + 5000))).
Proof.
  apply (last_write_wins _ _ sample_time (sample_time + 5000)
           (sample_time + 7000) (desktop_page ∅)).
  - split; reflexivity.
  - unfold time_value, sample_time. lia.
  - unfold CACHE_TTL. lia.
Defined.

(** X13. After a sign-in on a usable storage and within the TTL, the
    optimistic render is the signed-in markup, the dashboard link and
    the avatar box, holding the image whose source is the image URL of
    the identity when it has a non-empty one and the [fa-user]
    placeholder glyph otherwise, and no click handler. *)
Theorem render_after_sign_in
        (i : ExternalIdentity) (now now' : Z) (w : World) (el : Element) :
  storage_ok w ->
  time_value now ->
  now' - now <= CACHE_TTL ->
  fst (renderOptimisticUI (Some el) now'
         (snd (syncWithClerk (identity_value i) now w)))
  = Ok (true,
        Some {| innerHTML :=
                  newline +:+ "                <a href=" +:+ quot
                  +:+ "/dashboard" +:+ quot +:+ " class=" +:+ quot
                  +:+ "nav-link" +:+ quot +:+ ">Dashboard</a>" +:+ newline
                  +:+ "                <div class=" +:+ quot
                  +:+ "auth-loading" +:+ quot +:+ " style=" +:+ quot
                  +:+ "display: inline-flex; align-items: center; gap: 0.5rem; padding: 0.5rem; border-radius: 50%; background: var(--bg-tertiary, #1a1a2e); min-width: 32px; min-height: 32px; justify-content: center;"
                  +:+ quot +:+ ">" +:+ newline +:+ "                    "
                  +:+ (match id_imageUrl i with
                       | Some (String c u) =>
                           "<img src=" +:+ quot +:+ String c u +:+ quot
                           +:+ " alt=" +:+ quot +:+ quot +:+ " style="
                           +:+ quot
                           +:+ "width: 32px; height: 32px; border-radius: 50%; object-fit: cover;"
                           +:+ quot +:+ ">"
                       | _ =>
                           "<i class=" +:+ quot +:+ "fas fa-user" +:+ quot
                           +:+ " style=" +:+ quot
                           +:+ "color: var(--text-secondary, #888);" +:+ quot
                           +:+ "></i>"
                       end)
                  +:+ newline +:+ "                </div>" +:+ newline
                  +:+ "            ";
                signin_onclick := None |}).
Proof.
  intros Hs Ht Hage.
  pose proof (get_after_sign_in i now now' w Hs Ht Hage) as Hg.
  rewrite (render_cases el _ _ _ _ Hg), branch_of_record, record_image.
  cbn [identity_record cr_isLoggedIn cr_userImage].
  destruct (id_imageUrl i) as [[|c u]|];
    cbn [nonempty opt_string truthy negb String.eqb ToString];
    rewrite ?signed_in_html_img, ?append_assoc; reflexivity.
Qed.

Lemma render_after_sign_in_witness :
  fst (renderOptimisticUI (Some empty_element) (sample_time + 60000)
         (snd (syncWithClerk (identity_value sample_identity) sample_time
                 (desktop_page ∅))))
  = Ok (true,
        Some {| innerHTML :=
                  newline +:+ "                <a href=" +:+ quot
                  +:+ "/dashboard" +:+ quot +:+ " class=" +:+ quot
                  +:+ "nav-link" +:+ quot +:+ ">Dashboard</a>" +:+ newline
                  +:+ "                <div class=" +:+ quot
                  +:+ "auth-loading" +:+ quot +:+ " style=" +:+ quot
                  +:+ "display: inline-flex; align-items: center; gap: 0.5rem; padding: 0.5rem; border-radius: 50%; background: var(--bg-tertiary, #1a1a2e); min-width: 32px; min-height: 32px; justify-content: center;"
                  +:+ quot +:+ ">" +:+ newline +:+ "                    "
                  +:+ (match id_imageUrl sample_identity with
                       | Some (String c u) =>
                           "<img src=" +:+ quot +:+ String c u +:+ quot
                           +:+ " alt=" +:+ quot +:+ quot +:+ " style="
                           +:+ quot
                           +:+ "width: 32px; height: 32px; border-radius: 50%; object-fit: cover;"
                           +:+ quot +:+ ">"
                       | _ =>
                           "<i class=" +:+ quot +:+ "fas fa-user" +:+ quot
                           +:+ " style=" +:+ quot
                           +:+ "color: var(--text-secondary, #888);" +:+ quot
                           +:+ "></i>"
                       end)
                  +:+ newline +:+ "                </div>" +:+ newline
                  +:+ "            ";
                signin_onclick := None |}).
Proof.
  apply (render_after_sign_in sample_identity sample_time
           (sample_time + 60000) (desktop_page ∅) empty_element).
  - split; reflexivity.
  - unfold time_value, sample_time. lia.
  - unfold CACHE_TTL. lia.
Defined.

(** *** The account flag *)

(** X14. [hasAccount()] never raises and changes nothing; it answers true
    exactly when the storage can be read and the flag entry is the
    string [true], so any other entry, a missing one or a disabled
    storage answer false. *)
Theorem hasAccount_exact (w : World) :
  exists b : bool,
    hasAccount w = (Ok b, w)
    /\ (b = true <->
        ls_disabled w = false /\ ls_items w !! ACCOUNT_KEY = Some "true").
Proof.
  exists (has_account w). split; [apply hasAccount_value|].
  rewrite <- (hasAccount_true_iff w), hasAccount_value. cbn [fst].
  split; [intros ->; reflexivity | intros H; injection H as H; exact H].
Qed.

(** X15. [markHasAccount()] never raises. On a usable storage it makes
    [hasAccount()] true and leaves the cache entry alone; on a disabled
    or full storage it stores nothing and logs one warning. *)
Theorem markHasAccount_effect (w : World) :
  fst (markHasAccount w) = Ok tt
  /\ ls_items (snd (markHasAccount w)) !! STORAGE_KEY
     = ls_items w !! STORAGE_KEY
  /\ (ls_disabled w || ls_full w = false ->
      fst (hasAccount (snd (markHasAccount w))) = Ok true
      /\ console (snd (markHasAccount w)) = console w)
  /\ (ls_disabled w || ls_full w = true ->
      ls_items (snd (markHasAccount w)) = ls_items w
      /\ console (snd (markHasAccount w))
         = console w ++ ["AuthCache: Unable to save account status"]).
Proof.
  rewrite markHasAccount_cases.
  destruct (ls_disabled w) eqn:Hd; cbn [orb fst snd].
  { repeat split; try reflexivity; discriminate. }
  destruct (ls_full w) eqn:Hf; cbn [fst snd].
  { repeat split; try reflexivity; discriminate. }
  repeat split; try discriminate.
  - cbn [ls_items with_items]. apply lookup_insert_ne. discriminate.
  - apply hasAccount_true_iff. split; [exact Hd|].
    cbn [ls_items with_items]. apply lookup_insert_eq.
Qed.

(** *** The click handler *)

(** X16. The click handler bound by [renderOptimisticUI] never navigates.
    Without the SDK it turns the control into the disabled loading
    control and does nothing else; with the SDK it calls the sign-in
    entry point when [hasAccount()] is true and the sign-up entry point
    otherwise, without checking that the entry point exists: when it
    does not, the call raises a TypeError. *)
Theorem click_handler_cases (btn : Button) (w : World) :
  (win_Clerk w = None ->
   deferred_auth_click btn w = (Ok loading_button, w))
  /\ (forall sdk : ClerkSdk,
         win_Clerk w = Some sdk ->
         (if has_account w then sdk_openSignIn sdk else sdk_openSignUp sdk)
         = true ->
         deferred_auth_click btn w
         = (Ok btn,
            with_events
              (events w ++
               [if has_account w then ClerkOpenSignIn else ClerkOpenSignUp])
              w))
  /\ (forall sdk : ClerkSdk,
         win_Clerk w = Some sdk ->
         (if has_account w then sdk_openSignIn sdk else sdk_openSignUp sdk)
         = false ->
         deferred_auth_click btn w = (Throw TypeError, w)).
Proof.
  unfold deferred_auth_click.
  split; [intros ->; reflexivity|].
  split; intros sdk -> H; unfold bind; rewrite hasAccount_value;
    destruct (has_account w); rewrite H; reflexivity.
Qed.

(** *** The earlier revision *)

(** X18. The later [syncWithClerk] is the earlier one preceded, for a
    present user, by [markHasAccount()]; the earlier one never writes
    the account flag. *)
Theorem sync_revisions (u : jsval) (now : Z) (w : World) :
  syncWithClerk u now w
  = (if truthy u
     then AuthCacheV1.syncWithClerk u now (snd (markHasAccount w))
     else AuthCacheV1.syncWithClerk u now w)
  /\ ls_items (snd (AuthCacheV1.syncWithClerk u now w)) !! ACCOUNT_KEY
     = ls_items w !! ACCOUNT_KEY.
Proof.
  split.
  - unfold syncWithClerk, AuthCacheV1.syncWithClerk.
    destruct (truthy u); [|reflexivity].
    unfold bind at 1. rewrite markHasAccount_cases.
    destruct (ls_disabled w || ls_full w); reflexivity.
  - apply (only_syncWithClerk_v1
             (fun w' => ls_items w' !! ACCOUNT_KEY
                        = ls_items w !! ACCOUNT_KEY)).
    + intros w' s H. cbn [ls_items with_items].
      rewrite lookup_insert_ne by discriminate. exact H.
    + intros w' H. cbn [ls_items with_items].
      rewrite lookup_delete_ne by discriminate. exact H.
    + intros w' c H. exact H.
    + reflexivity.
Qed.

Lemma has_signin_action_v1 (el : Element) :
  has_optimistic_signin (set_innerHTML AuthCacheV1.action_button_html el)
  = true.
Proof. vm_compute. reflexivity. Qed.

Lemma render_cases_v1 (el : Element) (now : Z) (w w1 : World)
      (cached : jsval) :
  get now w = (Ok cached, w1) ->
  AuthCacheV1.renderOptimisticUI (Some el) now w =
  match branch_of cached with
  | SignedIn =>
      if truthy (prop cached "userImage")
      then match ToString (prop cached "userImage") with
           | Ok src =>
               (Ok (true,
                    Some (set_innerHTML (signed_in_html (avatar_img src)) el)),
                w1)
           | Throw e => (Throw e, w1)
           end
      else (Ok (true,
                Some (set_innerHTML (signed_in_html avatar_placeholder) el)),
            w1)
  | Loading =>
      (Ok (true, Some (set_innerHTML AuthCacheV1.loading_button_html el)), w1)
  | Action =>
      (Ok (true,
           Some {| innerHTML := AuthCacheV1.action_button_html;
                   signin_onclick := Some DeferredAuth |}),
       w1)
  end.
Proof.
  intros Hg. unfold AuthCacheV1.renderOptimisticUI, branch_of.
  unfold bind at 1. rewrite Hg.
  destruct (truthy cached) eqn:Htc.
  - unfold bind at 1. unfold bind at 1. unfold lift at 1.
    rewrite (get_prop_truthy _ _ Htc). unfold ret at 1. cbn [andb].
    destruct (truthy (prop cached "isLoggedIn")) eqn:Hl.
    + unfold bind at 1. unfold lift at 1.
      rewrite (get_prop_truthy _ _ Htc).
      destruct (truthy (prop cached "userImage")).
      * unfold bind at 1. unfold bind at 1. unfold lift at 1.
        destruct (ToString (prop cached "userImage")); reflexivity.
      * reflexivity.
    + destruct cached; try discriminate Htc;
        rewrite has_signin_action_v1; reflexivity.
  - cbn [andb]. unfold bind at 1, ret at 1.
    destruct cached; try discriminate Htc;
      rewrite ?has_signin_action_v1; reflexivity.
Qed.

(** X19. The two revisions of [renderOptimisticUI] take the same branch on
    every storage state, leave the same storage, and succeed or raise
    together; in the signed-in branch they produce the same markup,
    while the earlier one labels both of its buttons "Sign In" whatever
    the account flag says. *)
Theorem render_revisions (el : Element) (now : Z) (w : World) :
  snd (AuthCacheV1.renderOptimisticUI (Some el) now w)
  = snd (renderOptimisticUI (Some el) now w)
  /\ is_ok (fst (AuthCacheV1.renderOptimisticUI (Some el) now w))
     = is_ok (fst (renderOptimisticUI (Some el) now w))
  /\ exists cached : jsval,
      fst (get now w) = Ok cached
      /\ match branch_of cached with
         | SignedIn =>
             AuthCacheV1.renderOptimisticUI (Some el) now w
             = renderOptimisticUI (Some el) now w
         | Loading =>
             fst (AuthCacheV1.renderOptimisticUI (Some el) now w)
             = Ok (true,
                   Some {| innerHTML := AuthCacheV1.loading_button_html;
                           signin_onclick := None |})
         | Action =>
             fst (AuthCacheV1.renderOptimisticUI (Some el) now w)
             = Ok (true,
                   Some {| innerHTML := AuthCacheV1.action_button_html;
                           signin_onclick := Some DeferredAuth |})
         end.
Proof.
  destruct (get_returns now w) as [cached Hg].
  rewrite (render_cases_v1 el now w _ cached Hg).
  rewrite (render_cases el now w _ cached Hg).
  rewrite Hg. cbn [fst].
  destruct (branch_of cached) eqn:Hb.
  - destruct (truthy (prop cached "userImage"));
      [destruct (ToString (prop cached "userImage"))|];
      (split; [reflexivity|]); (split; [reflexivity|]);
      exists cached; rewrite Hb; split; reflexivity.
  - split; [reflexivity|]. split; [reflexivity|].
    exists cached. rewrite Hb. split; reflexivity.
  - split; [reflexivity|]. split; [reflexivity|].
    exists cached. rewrite Hb. split; reflexivity.
Qed.

(** The click handler of the earlier revision never raises: it calls
    the sign-in entry point only when the SDK offers it, and otherwise
    turns the control into the disabled loading control. *)
Theorem click_handler_v1 (btn : Button) (w : World) :
  AuthCacheV1.deferred_auth_click btn w
  = if sdk_has_signIn w
    then (Ok btn, with_events (events w ++ [ClerkOpenSignIn]) w)
    else (Ok loading_button, w).
Proof.
  unfold AuthCacheV1.deferred_auth_click, sdk_has_signIn.
  destruct (win_Clerk w) as [[si su]|]; [destruct si|]; reflexivity.
Qed.

(** * Further properties of the detector *)

Lemma find_existsb {A : Type} (f : A -> bool) (l : list A) :
  existsb f l = match find f l with Some _ => true | None => false end.
Proof.
  induction l as [|a l IH]; [reflexivity|]. cbn [existsb find].
  destruct (f a); [reflexivity | exact IH].
Qed.

(** X20. The diagnostic lookup agrees with the classification: it names
    something exactly when a signature or platform check fires, and then
    [isInAppBrowser()] is true; a catalogued signature takes precedence
    over the two generic labels, and the Android label over the iOS one;
    a page classified restrictive with no name is one where only the
    pop-up probe fired. *)
Theorem lookup_agrees_with_classification (w : World) :
  (getInAppBrowserName w = None <-> strong_signal (user_agent w) = false)
  /\ (forall n : string,
         getInAppBrowserName w = Some n ->
         isInAppBrowser w = (Ok true, w)
         /\ (find (includes (user_agent w)) inAppBrowserPatterns = Some n
             \/ (find (includes (user_agent w)) inAppBrowserPatterns = None
                 /\ android_webview (user_agent w) = true
                 /\ n = "Android WebView")
             \/ (find (includes (user_agent w)) inAppBrowserPatterns = None
                 /\ android_webview (user_agent w) = false
                 /\ ios_webview (user_agent w) = true
                 /\ n = "iOS WebView")))
  /\ (isInAppBrowser w = (Ok true, w) ->
      getInAppBrowserName w = None ->
      probe_answer w = true).
Proof.
  rewrite isInAppBrowser_value.
  unfold getInAppBrowserName, restrictive, strong_signal.
  rewrite find_existsb.
  destruct (find (includes (user_agent w)) inAppBrowserPatterns) as [q|].
  { cbn [orb]. split; [split; discriminate|]. split.
    - intros n H. injection H as <-. split; [reflexivity|]. left. reflexivity.
    - intros _ H. discriminate H. }
  cbn [orb].
  destruct (android_webview (user_agent w)).
  { cbn [orb]. split; [split; discriminate|]. split.
    - intros n H. injection H as <-. split; [reflexivity|].
      right. left. repeat split.
    - intros _ H. discriminate H. }
  destruct (ios_webview (user_agent w)).
  { cbn [orb]. split; [split; discriminate|]. split.
    - intros n H. injection H as <-. split; [reflexivity|].
      right. right. repeat split.
    - intros _ H. discriminate H. }
  cbn [orb]. split; [split; reflexivity|]. split.
  - intros n H. discriminate H.
  - intros H _. injection H as H. exact H.
Qed.

(** *** The redirect URL *)

Lemma percent_decode_char (c : ascii) (r : string) :
  percent_decode
    (if uri_unreserved c then String c r
     else String "%"
            (String (upper_hex_digit (code c / 16))
               (String (upper_hex_digit (code c mod 16)) r)))
  = String c (percent_decode r).
Proof.
  destruct c as [[] [] [] [] [] [] [] []]; reflexivity.
Qed.

Lemma percent_decode_encode (s : string) :
  percent_decode (percent_encode s) = s.
Proof.
  induction s as [|c s IH]; [reflexivity|].
  cbn [percent_encode].
  pose proof (percent_decode_char c (percent_encode s)) as H.
  destruct (uri_unreserved c); rewrite H, IH; reflexivity.
Qed.

Lemma encodeURIComponent_ok (s enc : string) :
  encodeURIComponent s = Ok enc ->
  has_lone_surrogate s = false /\ enc = percent_encode s.
Proof.
  unfold encodeURIComponent.
  destruct (has_lone_surrogate s); [discriminate|].
  intros H. injection H as <-. split; reflexivity.
Qed.

(** X21. Percent-decoding undoes [encodeURIComponent]: whenever the
    return destination can be encoded, which is whenever it holds no
    lone surrogate, it can be read back from the redirect URLs of
    [openSignIn] and [openSignUp], so two destinations never share a
    redirect URL. *)
Theorem redirect_url_round_trip (returnUrl : string) :
  (holds_lone_surrogate returnUrl
   \/ exists enc : string, encodeURIComponent returnUrl = Ok enc)
  /\ (forall enc : string,
         encodeURIComponent returnUrl = Ok enc ->
         percent_decode enc = returnUrl)
  /\ (forall url : string,
         sign_in_url returnUrl = Ok url ->
         percent_decode (drop 22 url) = returnUrl)
  /\ (forall url : string,
         sign_up_url returnUrl = Ok url ->
         percent_decode (drop 22 url) = returnUrl)
  /\ (forall other url : string,
         sign_in_url other = Ok url ->
         sign_in_url returnUrl = Ok url -> other = returnUrl).
Proof.
  assert (Hin : forall s url,
             sign_in_url s = Ok url ->
             url = "/sign-in?redirect_url=" +:+ percent_encode s).
  { intros s url. unfold sign_in_url.
    destruct (encodeURIComponent s) as [enc|e] eqn:E; [|discriminate].
    apply encodeURIComponent_ok in E as [_ ->].
    cbn [res_bind]. intros H. injection H as <-. reflexivity. }
  assert (Hup : forall s url,
             sign_up_url s = Ok url ->
             url = "/sign-up?redirect_url=" +:+ percent_encode s).
  { intros s url. unfold sign_up_url.
    destruct (encodeURIComponent s) as [enc|e] eqn:E; [|discriminate].
    apply encodeURIComponent_ok in E as [_ ->].
    cbn [res_bind]. intros H. injection H as <-. reflexivity. }
  split.
  { unfold encodeURIComponent.
    destruct (has_lone_surrogate returnUrl) eqn:E.
    - left. apply has_lone_surrogate_spec, E.
    - right. eexists. reflexivity. }
  split; [|split; [|split]].
  - intros enc H. apply encodeURIComponent_ok in H as [_ ->].
    apply percent_decode_encode.
  - intros url H. rewrite (Hin _ _ H). apply percent_decode_encode.
  - intros url H. rewrite (Hup _ _ H). apply percent_decode_encode.
  - intros other url H1 H2.
    apply Hin in H1, H2. rewrite H1 in H2.
    apply (f_equal (drop 22)) in H2.
    change (percent_encode other = percent_encode returnUrl) in H2.
    rewrite <- (percent_decode_encode other),
      <- (percent_decode_encode returnUrl), H2.
    reflexivity.
Qed.

Lemma encode_char_safe (c x : ascii) :
  In x (chars (if uri_unreserved c then String c EmptyString
               else String "%"
                      (String (upper_hex_digit (code c / 16))
                         (String (upper_hex_digit (code c mod 16))
                            EmptyString)))) ->
  uri_unreserved x = true \/ x = "%"%char.
Proof.
  destruct c as [[] [] [] [] [] [] [] []]; cbn [chars In uri_unreserved];
    intros H;
    repeat (destruct H as [<-|H]; [first [left; reflexivity
                                          | right; reflexivity]|]);
    contradiction.
Qed.

(** X22. The encoded return destination is made of letters, digits, the
    marks [- _ . ! ~ * ' ( )] and [%] only: whatever the destination
    holds, it adds no [&], [=], [?], [#], [/] or space to the redirect
    URL. *)
Theorem encoded_destination_is_inert (returnUrl enc : string) (x : ascii) :
  encodeURIComponent returnUrl = Ok enc ->
  In x (chars enc) ->
  (uri_unreserved x = true \/ x = "%"%char)
  /\ x <> "&"%char /\ x <> "="%char /\ x <> "?"%char /\ x <> "#"%char
  /\ x <> "/"%char /\ x <> " "%char.
Proof.
  intros He H. apply encodeURIComponent_ok in He as [_ ->].
  assert (Hs : uri_unreserved x = true \/ x = "%"%char).
  { induction returnUrl as [|c s IH]; [contradiction|].
    cbn [percent_encode] in H.
    pose proof (encode_char_safe c x) as Hc.
    destruct (uri_unreserved c); cbn [chars In] in H, Hc.
    - destruct H as [H|H]; [apply Hc; left; exact H | apply IH, H].
    - destruct H as [H|[H|[H|H]]];
        [apply Hc; tauto | apply Hc; tauto | apply Hc; tauto | apply IH, H]. }
  split; [exact Hs|].
  repeat split; intros ->; destruct Hs as [Hs|Hs]; discriminate Hs.
Qed.

Lemma encoded_destination_is_inert_witness :
  (uri_unreserved "%" = true \/ "%"%char = "%"%char)
  /\ "%"%char <> "&"%char /\ "%"%char <> "="%char /\ "%"%char <> "?"%char
  /\ "%"%char <> "#"%char /\ "%"%char <> "/"%char /\ "%"%char <> " "%char.
Proof.
  apply (encoded_destination_is_inert "/a?b=c&d" "%2Fa%3Fb%3Dc%26d"
           "%"%char).
  - vm_compute. reflexivity.
  - vm_compute. tauto.
Defined.

(** * Edge cases *)

(** X24. The reading operations never write: [get], [isLoggedIn],
    [getUserId] and [renderOptimisticUI] leave the world as it was or
    with the cache entry removed, nothing else. *)
Theorem reads_only_purge (now : Z) (w : World) (c : option Element) :
  (snd (get now w) = w \/ snd (get now w) = purged w)
  /\ snd (isLoggedIn now w) = snd (get now w)
  /\ snd (getUserId now w) = snd (get now w)
  /\ (snd (renderOptimisticUI c now w) = w
      \/ snd (renderOptimisticUI c now w) = snd (get now w)).
Proof.
  destruct (get_returns now w) as [cached Hg].
  rewrite (isLoggedIn_cases now w _ cached Hg).
  rewrite (getUserId_cases now w _ cached Hg).
  split.
  - rewrite get_cases.
    destruct (ls_disabled w); [left; reflexivity|].
    destruct (ls_items w !! STORAGE_KEY) as [s|]; [|left; reflexivity].
    destruct (String.eqb s ""); [left; reflexivity|].
    destruct (JSON_parse_text s) as [data|]; [|right; reflexivity].
    destruct (expired now data) as [[|]|];
      first [left; reflexivity | right; reflexivity].
  - split; [reflexivity|]. split; [reflexivity|].
    destruct c as [el|]; [right | left; reflexivity].
    rewrite (render_cases el now w _ cached Hg).
    destruct (branch_of cached); try reflexivity.
    destruct (truthy (prop cached "userImage")); [|reflexivity].
    destruct (ToString (prop cached "userImage")); reflexivity.
Qed.

(** X25. [syncWithClerk] with a user object on a disabled or full storage
    returns normally, stores nothing, and logs the two warnings, first
    the one of the flag and then the one of the record. *)
Theorem sync_on_refusing_storage
        (i : ExternalIdentity) (now : Z) (w : World) :
  ls_disabled w || ls_full w = true ->
  syncWithClerk (identity_value i) now w
  = (Ok tt,
     with_console
       (console w ++ ["AuthCache: Unable to save account status";
                      "AuthCache: Unable to save state"]) w).
Proof.
  intros H. rewrite sync_present, markHasAccount_cases, H. cbn [snd].
  change (ls_disabled (with_console ?c w)) with (ls_disabled w).
  change (ls_full (with_console ?c w)) with (ls_full w).
  rewrite H. cbn [console with_console]. rewrite <- app_assoc.
  destruct w; reflexivity.
Qed.

Lemma sync_on_refusing_storage_witness :
  syncWithClerk (identity_value sample_identity) sample_time
    (disabled_page ∅)
  = (Ok tt,
     with_console
       (console (disabled_page ∅)
        ++ ["AuthCache: Unable to save account status";
            "AuthCache: Unable to save state"]) (disabled_page ∅)).
Proof.
  apply (sync_on_refusing_storage sample_identity sample_time
           (disabled_page ∅)).
  reflexivity.
Defined.

(** X27. With an empty [navigator.userAgent] the detector reads
    [navigator.vendor] instead: a catalogued signature in the vendor
    string classifies the page as restrictive, and the lookup names the
    first signature of the catalogue that the vendor string holds; and
    when user agent, vendor and [window.opera] are all empty, no
    signature or platform check fires and the classification is the
    answer of the probe. *)
Theorem detector_falls_back_to_vendor (w : World) :
  nav_userAgent w = "" ->
  (forall p : string,
      In p inAppBrowserPatterns ->
      substring p (nav_vendor w) ->
      isInAppBrowser w = (Ok true, w)
      /\ exists q : string,
          getInAppBrowserName w = Some q
          /\ find (includes (nav_vendor w)) inAppBrowserPatterns = Some q
          /\ In q inAppBrowserPatterns
          /\ substring q (nav_vendor w))
  /\ (nav_vendor w = "" ->
      (win_opera w = None \/ win_opera w = Some "") ->
      isInAppBrowser w = (Ok (probe_answer w), w)
      /\ getInAppBrowserName w = None).
Proof.
  intros Hua. rewrite isInAppBrowser_value.
  unfold restrictive, strong_signal, getInAppBrowserName.
  split.
  - intros p Hin Hsub.
    assert (Hv : user_agent w = nav_vendor w).
    { unfold user_agent, sor. rewrite Hua.
      pose proof (substring_nonempty _ _ (patterns_nonempty p Hin) Hsub).
      destruct (nav_vendor w); [congruence | reflexivity]. }
    rewrite Hv.
    assert (Hex : existsb (includes (nav_vendor w)) inAppBrowserPatterns
                  = true).
    { apply existsb_exists. exists p. split; [exact Hin|].
      apply includes_spec, Hsub. }
    rewrite Hex. split; [reflexivity|].
    rewrite find_existsb in Hex.
    destruct (find (includes (nav_vendor w)) inAppBrowserPatterns)
      as [q|] eqn:Hf; [|discriminate Hex].
    exists q. apply find_some in Hf as [Hq1 Hq2].
    apply includes_spec in Hq2. repeat split; assumption || reflexivity.
  - intros Hv Ho.
    assert (Hu : user_agent w = "").
    { unfold user_agent, sor. rewrite Hua, Hv.
      destruct Ho as [-> | ->]; reflexivity. }
    rewrite Hu. split; reflexivity.
Qed.

Lemma detector_falls_back_to_vendor_witness :
  isInAppBrowser vendor_page = (Ok true, vendor_page)
  /\ getInAppBrowserName vendor_page = Some "Line".
Proof.
  destruct (detector_falls_back_to_vendor vendor_page eq_refl) as [H _].
  destruct (H "Line") as (Hb & q & Hq & Hf & _).
  - vm_compute. tauto.
  - apply includes_spec. vm_compute. reflexivity.
  - split; [exact Hb|]. rewrite Hq, <- Hf. vm_compute. reflexivity.
Defined.
